(** * Tally governance fetcher: a shallow embedding of [voting_matrix.py]

    The development follows the Python module top-down: the primitives of
    the language that the code relies on ([str.lower], [str.strip],
    truthiness, [float()], [int()], exceptions), then the request client,
    the checkpoint store, the three paginators, the vote normaliser and the
    voting-matrix builder.  Definitions come first; the theorems about them
    are in the second half of the file. *)

From Stdlib Require Import ZArith String Ascii List Bool Lia.
From stdpp Require Import gmap strings pretty.
Import ListNotations.

Local Open Scope string_scope.
Local Open Scope list_scope.

(** ** Python primitives *)

Module Py.

(** Strings are sequences of code points below 256, which covers what
    addresses, vote types, amounts and cursors are made of; text with
    other characters is outside the model.  Case mapping and white space
    are Python's on that range. *)

(** [str.lower] on one character: A..Z, and the capital letters of the
    upper half, U+00C0..U+00DE without the multiplication sign. *)
Definition lower_char (c : ascii) : ascii :=
  let n := nat_of_ascii c in
  if ((65 <=? n)%nat && (n <=? 90)%nat)
     || ((192 <=? n)%nat && (n <=? 222)%nat && negb (n =? 215)%nat)
  then ascii_of_nat (n + 32) else c.

Fixpoint lower (s : string) : string :=
  match s with
  | EmptyString => EmptyString
  | String c r => String (lower_char c) (lower r)
  end.

(** [str.isspace] on one character: TAB..CR, FS..US, the blank, and
    in the upper half the next-line control U+0085 and the no-break
    space U+00A0. *)
Definition isspace (c : ascii) : bool :=
  let n := nat_of_ascii c in
  ((9 <=? n)%nat && (n <=? 13)%nat) || ((28 <=? n)%nat && (n <=? 32)%nat)
  || (n =? 133)%nat || (n =? 160)%nat.

Fixpoint lstrip (s : string) : string :=
  match s with
  | EmptyString => EmptyString
  | String c r => if isspace c then lstrip r else s
  end.

(** Right strip, in one pass: a suffix made of white space only is cut. *)
Fixpoint rstrip (s : string) : string :=
  match s with
  | EmptyString => EmptyString
  | String c r =>
      match rstrip r with
      | EmptyString => if isspace c then EmptyString else String c EmptyString
      | r' => String c r'
      end
  end.

Definition strip (s : string) : string := rstrip (lstrip s).

(** The white space that [float()] and [int()] skip at both ends of a
    string: TAB..CR and the blank, and the two spaces of the upper half,
    which the conversion first turns into blanks; not the separators
    FS..US that [str.strip] also removes. *)
Definition is_number_space (c : ascii) : bool :=
  let n := nat_of_ascii c in
  ((9 <=? n)%nat && (n <=? 13)%nat) || (n =? 32)%nat
  || (n =? 133)%nat || (n =? 160)%nat.

Fixpoint number_lstrip (s : string) : string :=
  match s with
  | EmptyString => EmptyString
  | String c r => if is_number_space c then number_lstrip r else s
  end.

Fixpoint number_rstrip (s : string) : string :=
  match s with
  | EmptyString => EmptyString
  | String c r =>
      match number_rstrip r with
      | EmptyString => if is_number_space c then EmptyString else String c EmptyString
      | r' => String c r'
      end
  end.

Definition number_strip (s : string) : string := number_rstrip (number_lstrip s).

(** Truthiness of a string: [bool(s)]. *)
Definition truthy_str (s : string) : bool :=
  match s with EmptyString => false | _ => true end.

(** Truthiness of an optional string, [None] standing for an absent key
    or for Python's [None]. *)
Definition truthy_opt (o : option string) : bool :=
  match o with Some s => truthy_str s | None => false end.

(** [word in s] on strings. *)
Fixpoint contains (word s : string) : bool :=
  String.prefix word s
  || match s with
     | EmptyString => false
     | String _ r => contains word r
     end.

(** [any(word in s for word in words)]. *)
Definition any_in (words : list string) (s : string) : bool :=
  existsb (fun w => contains w s) words.

(** A literal [dict] with string keys, as an association list; [assoc]
    is both [k in d] (is it [Some]) and [d[k]]. *)
Fixpoint assoc {A} (k : string) (d : list (string * A)) : option A :=
  match d with
  | [] => None
  | (k', v) :: r => if String.eqb k k' then Some v else assoc k r
  end.

(** *** Scalars of a JSON payload *)

Inductive scalar :=
| SNull
| SInt (z : Z)
| SStr (s : string).

(** The only thing the code ever does with a float is to compare it with
    zero, so a float is kept as its class. *)
Inductive fclass := FNan | FNeg | FZero | FPos.

Definition is_digit (c : ascii) : bool :=
  let n := nat_of_ascii c in (48 <=? n)%nat && (n <=? 57)%nat.

Definition digit_val (c : ascii) : Z := Z.of_nat (nat_of_ascii c) - 48.

Definition is_underscore (c : ascii) : bool := Ascii.eqb c "_"%char.

(** Underscores are legal in a numeric literal only between two digits;
    [drop_underscores] checks that and removes them. *)
Fixpoint drop_underscores_from (prev_digit : bool) (s : string) : option string :=
  match s with
  | EmptyString => Some EmptyString
  | String c r =>
      if is_underscore c then
        match r with
        | String d _ =>
            if prev_digit && is_digit d then drop_underscores_from false r else None
        | EmptyString => None
        end
      else
        match drop_underscores_from (is_digit c) r with
        | Some r' => Some (String c r')
        | None => None
        end
  end.

Definition drop_underscores (s : string) : option string :=
  drop_underscores_from false s.

(** Reads a maximal run of digits: its value, its length, and the rest. *)
Fixpoint digits_from (acc : Z) (n : nat) (s : string) : Z * nat * string :=
  match s with
  | String c r => if is_digit c then digits_from (10 * acc + digit_val c) (S n) r
                  else (acc, n, s)
  | EmptyString => (acc, n, s)
  end.

Definition digits (s : string) : Z * nat * string := digits_from 0 O s.

(** Optional sign: [true] for a minus sign. *)
Definition sign (s : string) : bool * string :=
  match s with
  | String "-"%char r => (true, r)
  | String "+"%char r => (false, r)
  | _ => (false, s)
  end.

(** Exponent part [e[+-]ddd] up to the end of the string; an absent
    exponent is 0, a malformed one is an error. *)
Definition exponent (s : string) : option Z :=
  match s with
  | EmptyString => Some 0%Z
  | String c r =>
      if Ascii.eqb c "e"%char || Ascii.eqb c "E"%char then
        let '(neg, r1) := sign r in
        match digits r1 with
        | (_, O, _) => None
        | (e, S _, EmptyString) => Some (if neg then (- e)%Z else e)
        | (_, S _, String _ _) => None
        end
      else None
  end.

(** The decimal [m * 10^e], [m > 0], read as a binary64: it is a
    positive float unless it rounds to zero, which under
    round-half-even happens exactly up to [2^-1075]. *)
Definition rounds_to_positive (m e : Z) : bool :=
  ((0 <=? e) || (10 ^ (- e) <? m * 2 ^ 1075))%Z.

Definition class_of (neg : bool) (m e : Z) : fclass :=
  if (m =? 0)%Z then FZero
  else if rounds_to_positive m e then (if neg then FNeg else FPos)
  else FZero.

(** [float(s)] for a string: [None] is [ValueError]. *)
Definition float_of_string (s : string) : option fclass :=
  match drop_underscores (number_strip s) with
  | None => None
  | Some t =>
      let '(neg, body) := sign t in
      let w := lower body in
      if String.eqb w "inf" || String.eqb w "infinity" then
        Some (if neg then FNeg else FPos)
      else if String.eqb w "nan" then Some FNan
      else
        let '(ip, ni, r1) := digits body in
        let '(fp, nf, r2) :=
          match r1 with
          | String "."%char r => digits_from ip O r
          | _ => (ip, O, r1)
          end in
        if (ni =? 0)%nat && (nf =? 0)%nat then None
        else
          match exponent r2 with
          | None => None
          | Some e => Some (class_of neg fp (e - Z.of_nat nf))
          end
  end.

(** [float(z)] for an [int]: [None] is [OverflowError], raised when the
    integer rounds beyond the largest binary64. *)
Definition float_of_int (z : Z) : option fclass :=
  if (2 ^ 1024 - 2 ^ 970 <=? Z.abs z)%Z then None
  else Some (if (z =? 0)%Z then FZero else if (z <? 0)%Z then FNeg else FPos).

(** [float(x)]: [None] stands for the exception raised ([TypeError] on
    [None], [ValueError] or [OverflowError] otherwise). *)
Definition float (x : scalar) : option fclass :=
  match x with
  | SNull => None
  | SInt z => float_of_int z
  | SStr s => float_of_string s
  end.

(** [int(s)] for a string in base 10. *)
Definition int_of_string (s : string) : option Z :=
  match drop_underscores (number_strip s) with
  | None => None
  | Some t =>
      let '(neg, body) := sign t in
      match digits body with
      | (_, O, _) => None
      | (v, S _, EmptyString) => Some (if neg then (- v)%Z else v)
      | (_, S _, String _ _) => None
      end
  end.

Definition int (x : scalar) : option Z :=
  match x with
  | SNull => None
  | SInt z => Some z
  | SStr s => int_of_string s
  end.

(** Truthiness of a scalar. *)
Definition truthy (x : scalar) : bool :=
  match x with
  | SNull => false
  | SInt z => negb (z =? 0)%Z
  | SStr s => truthy_str s
  end.

(** *** Exceptions *)

Inductive exn :=
| AttributeError
| TypeError
| ValueError
| KeyError
| OSError.

Inductive result (A : Type) :=
| Ok (a : A)
| Raise (e : exn).
Arguments Ok {A} a.
Arguments Raise {A} e.

Definition bind {A B} (m : result A) (k : A -> result B) : result B :=
  match m with
  | Ok a => k a
  | Raise e => Raise e
  end.

(** [x.method(...)] on a value that may be [None]: calling a method of
    [None] raises [AttributeError]. *)
Definition attr {A} (x : option A) : result A :=
  match x with
  | Some a => Ok a
  | None => Raise AttributeError
  end.


End Py.

Notation "x <- m ;; k" := (Py.bind m (fun x => k))
  (at level 100, m at next level, right associativity).

(** ** Data model

    The entities are the dictionaries of the GraphQL payload.  A field is
    an [option]: [None] is a key that is absent.  Where the code calls a
    method on what [.get] hands back ([account], [address], [statement]
    twice, [type], [reason], [metadata], [block]), or copies it into a
    row ([ens], [isSeekingDelegation], [title], [status]), a JSON null is
    kept apart from an absent key: the field is an [option (option _)],
    [None] for the absent key and [Some None] for the null.  For the other
    fields the code treats the two alike (a truth test, [is not None],
    [or], a [safe_get_nested]) and [None] stands for both. *)

Module Data.

Record account_info := {
  address : option (option string);
  name : option string;
  ens : option (option string)
}.

Record statement_info := {
  statement : option (option string);
  isSeekingDelegation : option (option bool)
}.

Record delegate := {
  account : option (option account_info);
  votesCount : option Py.scalar;
  delegatorsCount : option Py.scalar;
  delegate_statement : option (option statement_info)
}.

Record block_info := {
  timestamp : option Py.scalar;
  number : option Py.scalar
}.

Record proposer_info := {
  proposer_address : option string
}.

Record metadata_info := {
  title : option (option string);
  description : option string
}.

Record vote_stat := {
  votersCount : option Py.scalar
}.

(** [id] is the one key the code subscripts ([proposal['id']]) on
    records of any origin: it is a field every proposal has. *)
Record proposal := {
  id : string;
  onchainId : option string;
  metadata : option (option metadata_info);
  proposer : option proposer_info;
  status : option (option string);
  start_block : option block_info;
  end_block : option block_info;
  voteStats : option (list vote_stat)
}.

Record voter_info := {
  voter_address : option string
}.

Record vote := {
  vote_id : option string;
  vote_type : option (option string);
  amount : option Py.scalar;
  reason : option (option string);
  txHash : option string;
  voter : option voter_info;
  block : option (option block_info);
  createdAt : option string;
  platform : option string
}.

(** [d.get(k, default)] on an optional field. *)
Definition get {A} (o : option A) (default : A) : A :=
  match o with Some a => a | None => default end.

Definition is_not_None {A} (o : option A) : bool :=
  match o with Some _ => true | None => false end.

(** [d.get(k)] on a field that keeps its null apart: the value, or
    Python's [None] for an absent key and for a null alike. *)
Definition value {A} (o : option (option A)) : option A :=
  match o with Some x => x | None => None end.

End Data.

(** ** VoteNormalizer *)

Module Normalizer.
Import Data.

Definition type_mappings : list (string * string) :=
  [ ("for", "For"); ("yes", "For"); ("support", "For"); ("approve", "For");
    ("in_favor", "For"); ("infavor", "For"); ("aye", "For"); ("1", "For");
    ("true", "For");
    ("against", "Against"); ("no", "Against"); ("oppose", "Against");
    ("nay", "Against"); ("0", "Against"); ("false", "Against");
    ("abstain", "Abstain"); ("abstention", "Abstain"); ("present", "Abstain");
    ("2", "Abstain") ].

(** Rule 1: the stripped, lower-cased type looked up in the table; an
    empty type is not looked up at all.  [vote.get('type', '').strip()]
    raises on a type that is null. *)
Definition type_rule (v : vote) : Py.result (option string) :=
  type_ <- Py.attr (get (vote_type v) (Some "")) ;;
  let vote_type := Py.strip type_ in
  Py.Ok (if Py.truthy_str vote_type then Py.assoc (Py.lower vote_type) type_mappings
         else None).

(** [amount = float(amount) if amount else 0], with any exception of the
    conversion turned into 0. *)
Definition amount_value (v : vote) : Py.fclass :=
  let amount := get (amount v) (Py.SInt 0) in
  if Py.truthy amount then
    match Py.float amount with
    | Some f => f
    | None => Py.FZero
    end
  else Py.FZero.

Definition amount_positive (v : vote) : bool :=
  match amount_value v with Py.FPos => true | _ => false end.

(** Rule 3: keyword scan of the lower-cased reason.
    [vote.get('reason', '').lower()] raises on a reason that is null. *)
Definition reason_rule (v : vote) : Py.result (option string) :=
  reason_ <- Py.attr (get (reason v) (Some "")) ;;
  let reason := Py.lower reason_ in
  Py.Ok
    (if Py.truthy_str reason then
       if Py.any_in ["support"; "favor"; "yes"; "approve"; "agree"; "for"] reason
       then Some "For"
       else if Py.any_in ["against"; "oppose"; "no"; "disagree"; "reject"] reason
       then Some "Against"
       else if Py.any_in ["abstain"; "neutral"; "present"] reason
       then Some "Abstain"
       else None
     else None).

(** The function has no [try] of its own around the two method calls: a
    null type raises at once, a null reason when the reason is reached. *)
Definition normalize_vote_type (v : vote) : Py.result string :=
  by_type <- type_rule v ;;
  match by_type with
  | Some outcome => Py.Ok outcome
  | None =>
      if amount_positive v then Py.Ok "For"
      else
        by_reason <- reason_rule v ;;
        match by_reason with
        | Some outcome => Py.Ok outcome
        | None => Py.Ok (if Py.truthy_opt (txHash v) then "Voted" else "Unknown")
        end
  end.

(** [validate_vote_data]: the body runs under [try]; the only operation
    that can raise is [.get] on a null [block], reached when [txHash] is
    [None], and the handler answers [False].  A timestamp that is null is
    [None] to the [is not None] test. *)
Definition validate_vote_data (v : vote) : bool :=
  match voter v with
  | None => false
  | Some w =>
      if negb (Py.truthy_opt (voter_address w)) then false
      else
        let has_id := is_not_None (vote_id v) in
        let has_type := is_not_None (value (vote_type v)) in
        let has_onchain_signal : option bool :=
          if is_not_None (txHash v) then Some true
          else match block v with
               | None => Some false
               | Some None => None
               | Some (Some b) =>
                   Some (match timestamp b with
                         | None | Some Py.SNull => false
                         | Some _ => true
                         end)
               end in
        let has_offchain_signal :=
          is_not_None (value (reason v)) || is_not_None (createdAt v)
          || is_not_None (platform v) in
        match has_onchain_signal with
        | None => false
        | Some onchain => has_id || has_type || onchain || has_offchain_signal
        end
  end.

End Normalizer.

(** ** RateLimitedClient ([OptimizedTallyAPI])

    Time is not modelled: [smart_rate_limit] and the back-off sleeps only
    delay a call, and the four counters and the adaptive delay feed
    [get_stats] alone.  What remains of [make_request_optimized] is its
    retry policy over the replies of the transport. *)

Module Client.

(** The JSON body of a 200 reply: whether it has an [errors] key, and its
    [data] when that is a non-empty object. *)
Record body (A : Type) := {
  has_errors : bool;
  data : option A
}.
Arguments has_errors {A} _.
Arguments data {A} _.

(** One attempt: an HTTP response whose body parsed as JSON or did not
    ([None]: [response.json()] raises), or an exception of [requests]. *)
Inductive reply (A : Type) :=
| Response (status_code : nat) (json : option (body A))
| Timeout
| ConnectionError
| Unexpected.
Arguments Response {A} status_code json.
Arguments Timeout {A}.
Arguments ConnectionError {A}.
Arguments Unexpected {A}.

Definition max_retries : nat := 3.

Inductive attempt_result (A : Type) :=
| Return (r : option (body A))
| Continue.
Arguments Return {A} r.
Arguments Continue {A}.

(** The body of the [for attempt in range(max_retries)] loop. *)
Definition attempt_body {A} (attempt : nat) (r : reply A) : attempt_result A :=
  match r with
  | Response status_code json =>
      if (status_code =? 200)%nat then
        match json with
        | Some d =>
            if has_errors d then
              if (attempt =? max_retries - 1)%nat then Return None else Continue
            else Return (Some d)
        | None => Continue
        end
      else if (status_code =? 429)%nat then Continue
      else if existsb (Nat.eqb status_code) [502; 503; 504]%nat then Continue
      else Return None
  | Timeout | ConnectionError | Unexpected => Continue
  end.

(** [attempts_from a n]: attempts [a], [a+1], ... for [n] more rounds;
    falling out of the loop is the final [return None]. *)
Fixpoint attempts_from {A} (transport : nat -> reply A) (attempt n : nat)
  : option (body A) :=
  match n with
  | O => None
  | S n' =>
      match attempt_body attempt (transport attempt) with
      | Return r => r
      | Continue => attempts_from transport (S attempt) n'
      end
  end.

Definition make_request_optimized {A} (transport : nat -> reply A)
  : option (body A) :=
  attempts_from transport 0 max_retries.

End Client.

(** ** CheckpointStore *)

Module Checkpoint.
Import Data.

(** *** Loading

    [json.load] may hand back any JSON value. *)

#[local] Set Warnings "-register-all".
Inductive json :=
| JNull
| JBool (b : bool)
| JInt (z : Z)
| JFloat (mantissa exponent10 : Z)
| JStr (s : string)
| JArr (l : list json)
| JObj (members : list (string * json)).
#[local] Set Warnings "register-all".








(** *** The loaded dictionary, as the fetcher uses it

    The paginators read and write the dictionary through six keys; the
    record is that view.  [delegates_complete] is a key that
    [save_checkpoint] creates, absent ([None]) until then. *)

Record checkpoint := {
  delegates : list delegate;
  proposals : list proposal;
  last_delegate_cursor : option string;
  votes_cache : gmap string (list vote);
  processed_proposals : list Z;
  delegates_complete : option bool
}.

Definition default_checkpoint : checkpoint :=
  {| delegates := [];
     proposals := [];
     last_delegate_cursor := None;
     votes_cache := ∅;
     processed_proposals := [];
     delegates_complete := None |}.

(** The fetcher's side of the store: the dictionary in memory and the
    file on disk ([None]: no file).  [writable] is whether [open(..., 'w')]
    succeeds; a failed write is printed and ignored. *)
Record store := {
  checkpoint_data : checkpoint;
  checkpoint_file : option checkpoint;
  writable : bool
}.

Definition update {A} (new : option A) (old : A) : A :=
  match new with Some a => a | None => old end.

(** [save_checkpoint(delegates, proposals, cursor, votes_cache,
    processed_proposals)]: every argument defaults to [None], and an
    argument that is [None] leaves its key as it is. *)
Definition save_checkpoint
    (delegates' : option (list delegate))
    (proposals' : option (list proposal))
    (cursor : option string)
    (votes_cache' : option (gmap string (list vote)))
    (processed_proposals' : option (list Z))
    (s : store) : store :=
  let d := checkpoint_data s in
  let d' :=
    {| delegates := update delegates' (delegates d);
       proposals := update proposals' (proposals d);
       last_delegate_cursor :=
         match cursor with
         | Some c => Some c
         | None => last_delegate_cursor d
         end;
       votes_cache := update votes_cache' (votes_cache d);
       processed_proposals := update processed_proposals' (processed_proposals d);
       delegates_complete :=
         match cursor with
         | Some _ => Some false
         | None => delegates_complete d
         end |} in
  {| checkpoint_data := d';
     checkpoint_file := if writable s then Some d' else checkpoint_file s;
     writable := writable s |}.

(** A fetcher that starts with no checkpoint file. *)
Definition fresh_store : store :=
  {| checkpoint_data := default_checkpoint;
     checkpoint_file := None;
     writable := true |}.

(** A fetcher that starts from a checkpoint file it could load. *)
Definition store_of (c : checkpoint) : store :=
  {| checkpoint_data := c;
     checkpoint_file := Some c;
     writable := true |}.

End Checkpoint.

(** ** The fetcher object ([FastDAOFetcher])

    What a run reads from outside is an oracle indexed by the number of
    requests made so far ([self.api.request_count]): the client's answer to
    the request, which may also depend on the cursor sent, and the reading
    of the clock taken before it. *)

Module Fetcher.

Record env (P : Type) := {
  now : nat -> Z;
  api : nat -> option string -> option (Client.body P)
}.
Arguments now {P} _ _.
Arguments api {P} _ _ _.

(** The attributes of the object that the paginators read or write.
    The vote-cursor file maps a proposal id to its saved [after_cursor]
    (the time stamp stored next to it is never read); a file that is
    missing or unreadable is the empty map. *)
Record fetcher := {
  request_count : nat;
  store : Checkpoint.store;
  force_refresh_votes : bool;
  vote_batch_size : nat;
  vote_checkpoint_file : gmap string (option string)
}.

Definition with_store (f : fetcher) (s : Checkpoint.store) : fetcher :=
  {| request_count := request_count f;
     store := s;
     force_refresh_votes := force_refresh_votes f;
     vote_batch_size := vote_batch_size f;
     vote_checkpoint_file := vote_checkpoint_file f |}.

Definition count_request (f : fetcher) : fetcher :=
  {| request_count := S (request_count f);
     store := store f;
     force_refresh_votes := force_refresh_votes f;
     vote_batch_size := vote_batch_size f;
     vote_checkpoint_file := vote_checkpoint_file f |}.

Definition with_vote_batch_size (f : fetcher) (n : nat) : fetcher :=
  {| request_count := request_count f;
     store := store f;
     force_refresh_votes := force_refresh_votes f;
     vote_batch_size := n;
     vote_checkpoint_file := vote_checkpoint_file f |}.

Definition with_vote_checkpoint_file (f : fetcher) (m : gmap string (option string))
  : fetcher :=
  {| request_count := request_count f;
     store := store f;
     force_refresh_votes := force_refresh_votes f;
     vote_batch_size := vote_batch_size f;
     vote_checkpoint_file := m |}.

(** [FastDAOFetcher.__init__] over a given checkpoint store. *)
Definition init (s : Checkpoint.store) (force_refresh : bool) : fetcher :=
  {| request_count := 0;
     store := s;
     force_refresh_votes := force_refresh;
     vote_batch_size := 5000;
     vote_checkpoint_file := ∅ |}.

(** One page of a connection: its nodes and [pageInfo.lastCursor]. *)
Record page (N : Type) := {
  nodes : list N;
  lastCursor : option string
}.
Arguments nodes {N} _.
Arguments lastCursor {N} _.

(** [if after_cursor: page_input["afterCursor"] = after_cursor]: the
    cursor travels only when it is truthy. *)
Definition page_input (after_cursor : option string) : option string :=
  if Py.truthy_opt after_cursor then after_cursor else None.

(** [not result or not result.get('data')]. *)
Definition payload {P} (result : option (Client.body P)) : option P :=
  match result with
  | Some b => Client.data b
  | None => None
  end.

(** [new_cursor == after_cursor] on optional strings. *)
Definition same_cursor (a b : option string) : bool :=
  match a, b with
  | Some x, Some y => String.eqb x y
  | None, None => true
  | _, _ => false
  end.

End Fetcher.

(** ** CursorPaginator, for delegates *)

Module Delegates.
Import Data Checkpoint Fetcher.

Definition no_account : account_info :=
  {| address := None; name := None; ens := None |}.

(** [float(...)] or [int(...)] of a key that is present does not raise. *)
Definition coerces {A} (conv : Py.scalar -> option A) (field : option Py.scalar) : bool :=
  match field with
  | None => true
  | Some x => is_not_None (conv x)
  end.

(** [validate_delegate_data].  The whole body is under [try], and any
    exception answers [False].  The function also stores the coerced
    counters back into the dictionary; nothing modelled here reads them
    back in a way that depends on it, and the model leaves the record as
    it is. *)
Definition validate_delegate_data (d : delegate) : bool :=
  match get (account d) (Some no_account) with
  | None => false   (* [.get] on a null account raises *)
  | Some account_info =>
      if negb (Py.truthy_opt (value (address account_info))) then false
      else coerces Py.float (votesCount d) && coerces Py.int (delegatorsCount d)
  end.

(** [d['account']['address']] and [d['account']['address'].lower()].
    The subscripts are applied to delegates that passed
    [validate_delegate_data], now or before they were checkpointed, for
    which both keys are present and hold a dictionary and a string. *)
Definition address_text (d : delegate) : string :=
  get (value (address (get (value (account d)) no_account))) "".

Definition address_key (d : delegate) : string := Py.lower (address_text d).

Definition address_set (l : list delegate) : gset string :=
  list_to_set (List.map address_key l).

(** The validation and the duplicate check of one page: the delegates of
    the batch that get appended to [all_delegates]. *)
Definition new_delegates (all_delegates delegates_batch : list delegate)
  : list delegate :=
  let valid_delegates := List.filter validate_delegate_data delegates_batch in
  let new_addresses := address_set valid_delegates in
  let existing_addresses := address_set all_delegates in
  let duplicates := new_addresses ∩ existing_addresses in
  if bool_decide (duplicates ≠ ∅) then
    List.filter (fun d => bool_decide (address_key d ∉ existing_addresses))
                valid_delegates
  else valid_delegates.

(** [all_delegates.extend(valid_delegates)]. *)
Definition merge_page (all_delegates delegates_batch : list delegate)
  : list delegate :=
  all_delegates ++ new_delegates all_delegates delegates_batch.

(** The local variables of [get_all_delegates_optimized] with the
    object.  [backoff_seconds] only sets the length of a sleep and is
    left out.  After a save the dictionary in memory holds the list object
    itself, which later turns extend; every save passes the list again
    before the file is written, so neither the file nor any read of the
    dictionary sees the difference, and the model stores the list as it
    was at the save. *)
Record state := {
  all_delegates : list delegate;
  after_cursor : option string;
  page_count : nat;
  consecutive_failures : nat;
  last_checkpoint_time : Z;
  self : fetcher
}.

Definition max_consecutive_failures : nat := 15.

(** How the [while] loop was left. *)
Inductive exit :=
| FailureBound        (* the loop condition turned false *)
| NoMoreDelegates     (* break: empty page, no new cursor *)
| ReachedEnd.         (* break: no cursor, or the cursor did not move *)

Inductive outcome :=
| Continue (st : state)
| Break (e : exit) (st : state).

Definition checkpoint_now (st : state) : Checkpoint.store :=
  save_checkpoint (Some (all_delegates st)) None (after_cursor st) None None
                  (store (self st)).

(** Top of the loop body: the five-minute checkpoint. *)
Definition periodic_checkpoint (current_time : Z) (st : state) : state :=
  if (current_time - last_checkpoint_time st >? 300)%Z then
    {| all_delegates := all_delegates st;
       after_cursor := after_cursor st;
       page_count := page_count st;
       consecutive_failures := consecutive_failures st;
       last_checkpoint_time := current_time;
       self := with_store (self st) (checkpoint_now st) |}
  else st.

Section Loop.
Variable world : env (page delegate).

(** One turn of the [while] loop. *)
Definition loop_body (st0 : state) : outcome :=
  let n := request_count (self st0) in
  let st := periodic_checkpoint (now world n) st0 in
  let result := api world n (page_input (after_cursor st)) in
  let self1 := count_request (self st) in
  match payload result with
  | None =>
      (* failed page: save progress, back off, retry *)
      Continue
        {| all_delegates := all_delegates st;
           after_cursor := after_cursor st;
           page_count := page_count st;
           consecutive_failures := S (consecutive_failures st);
           last_checkpoint_time := last_checkpoint_time st;
           self := with_store self1 (checkpoint_now st) |}
  | Some delegates_data =>
      let delegates_batch := nodes delegates_data in
      let new_cursor := lastCursor delegates_data in
      match delegates_batch with
      | [] =>
          if Py.truthy_opt new_cursor
             && negb (same_cursor new_cursor (after_cursor st)) then
            Continue
              {| all_delegates := all_delegates st;
                 after_cursor := new_cursor;
                 page_count := S (page_count st);
                 consecutive_failures := S (consecutive_failures st);
                 last_checkpoint_time := last_checkpoint_time st;
                 self := self1 |}
          else
            Break NoMoreDelegates
              {| all_delegates := all_delegates st;
                 after_cursor := after_cursor st;
                 page_count := page_count st;
                 consecutive_failures := S (consecutive_failures st);
                 last_checkpoint_time := last_checkpoint_time st;
                 self := self1 |}
      | _ :: _ =>
          let all' := merge_page (all_delegates st) delegates_batch in
          if negb (Py.truthy_opt new_cursor)
             || same_cursor new_cursor (after_cursor st) then
            Break ReachedEnd
              {| all_delegates := all';
                 after_cursor := after_cursor st;
                 page_count := S (page_count st);
                 consecutive_failures := 0;
                 last_checkpoint_time := last_checkpoint_time st;
                 self := self1 |}
          else
            Continue
              {| all_delegates := all';
                 after_cursor := new_cursor;
                 page_count := S (page_count st);
                 consecutive_failures := 0;
                 last_checkpoint_time := last_checkpoint_time st;
                 self := self1 |}
      end
  end.

(** [while consecutive_failures < max_consecutive_failures], run for at
    most [fuel] turns; [None] when the fuel runs out first. *)
Fixpoint while (fuel : nat) (st : state) : option (exit * state) :=
  if (consecutive_failures st <? max_consecutive_failures)%nat then
    match fuel with
    | O => None
    | S fuel' =>
        match loop_body st with
        | Continue st' => while fuel' st'
        | Break e st' => Some (e, st')
        end
    end
  else Some (FailureBound, st).

(** The start of the function: resume from the checkpoint when it has
    both delegates and a cursor, else start over. *)
Definition initial_state (f : fetcher) : state :=
  let existing_delegates := delegates (checkpoint_data (store f)) in
  let start_cursor := last_delegate_cursor (checkpoint_data (store f)) in
  let resume :=
    match existing_delegates with [] => false | _ :: _ => true end
    && Py.truthy_opt start_cursor in
  {| all_delegates := if resume then existing_delegates else [];
     after_cursor := if resume then start_cursor else None;
     page_count := 0;
     consecutive_failures := 0;
     last_checkpoint_time := now world (request_count f);
     self := f |}.

(** After the loop: "mark completion by saving delegates with no
    cursor", then return the list. *)
Definition finish (st : state) : list delegate * fetcher :=
  (all_delegates st,
   with_store (self st)
     (save_checkpoint (Some (all_delegates st)) None None None None
                      (store (self st)))).

Definition get_all_delegates_optimized (fuel : nat) (f : fetcher)
  : option (exit * list delegate * fetcher) :=
  match while fuel (initial_state f) with
  | None => None
  | Some (e, st) => let '(l, f') := finish st in Some (e, l, f')
  end.

End Loop.

End Delegates.

(** ** CursorPaginator, for proposals *)

Module Proposals.
Import Data Checkpoint Fetcher.

Definition no_metadata : metadata_info := {| title := None; description := None |}.
Definition no_proposer : proposer_info := {| proposer_address := None |}.

(** [validate_proposal_data_improved].  The body is under [try] and any
    exception answers [False]: that is what a null [metadata] does when
    the [or] chain gets as far as its title, and what a null [proposer]
    does, which a [None] proposer stands for as well. *)
Definition validate_proposal_data_improved (p : proposal) : bool :=
  if negb (Py.truthy_str (id p)) then false
  else if is_not_None (value (status p)) || is_not_None (onchainId p) then true
  else
    match get (metadata p) (Some no_metadata) with
    | None => false   (* [.get] on a null metadata raises *)
    | Some metadata_ =>
        let has_basic_structure :=
          Py.truthy_opt (value (title metadata_))
          || Py.truthy_opt (description metadata_) in
        if negb has_basic_structure then
          Py.truthy_opt (proposer_address (get (proposer p) no_proposer))
        else true
    end.

Record state := {
  all_proposals : list proposal;
  after_cursor : option string;
  page_count : nat;
  consecutive_failures : nat;
  self : fetcher
}.

Definition max_pages : nat := 100.
Definition max_failures : nat := 10.
Definition expected_proposals : nat := 37.

Inductive exit :=
| LoopBound       (* the loop condition turned false *)
| NoMoreCursor    (* break: the page has no cursor *)
| CursorStuck.    (* break: the cursor did not move *)

Inductive outcome :=
| Continue (st : state)
| Break (e : exit) (st : state).

(** [result.get('data')]: [result] is whatever the client returned, and
    [None] has no [get]. *)
Definition get_data {P} (result : option (Client.body P)) : Py.result (option P) :=
  match result with
  | None => Py.Raise Py.AttributeError
  | Some b => Py.Ok (Client.data b)
  end.

Section Loop.
Variable world : env (page proposal).

Definition loop_body (st : state) : Py.result outcome :=
  let n := request_count (self st) in
  let result := api world n (page_input (after_cursor st)) in
  let self1 := count_request (self st) in
  data <- get_data result ;;
  match data with
  | None =>
      Py.Ok (Continue
        {| all_proposals := all_proposals st;
           after_cursor := after_cursor st;
           page_count := page_count st;
           consecutive_failures := S (consecutive_failures st);
           self := self1 |})
  | Some proposals_data =>
      let proposals_batch := nodes proposals_data in
      match proposals_batch with
      | [] =>
          Py.Ok (Continue
            {| all_proposals := all_proposals st;
               after_cursor := after_cursor st;
               page_count := page_count st;
               consecutive_failures := S (consecutive_failures st);
               self := self1 |})
      | _ :: _ =>
          let valid_proposals :=
            List.filter validate_proposal_data_improved proposals_batch in
          let new_cursor := lastCursor proposals_data in
          let st' after :=
            {| all_proposals := all_proposals st ++ valid_proposals;
               after_cursor := after;
               page_count := S (page_count st);
               consecutive_failures := 0;
               self := self1 |} in
          if negb (Py.truthy_opt new_cursor) then
            Py.Ok (Break NoMoreCursor (st' (after_cursor st)))
          else if same_cursor new_cursor (after_cursor st) then
            Py.Ok (Break CursorStuck (st' (after_cursor st)))
          else Py.Ok (Continue (st' new_cursor))
      end
  end.

(** [while page_count < max_pages and consecutive_failures < 10]. *)
Fixpoint while (fuel : nat) (st : state) : option (Py.result (exit * state)) :=
  if (page_count st <? max_pages)%nat
     && (consecutive_failures st <? max_failures)%nat then
    match fuel with
    | O => None
    | S fuel' =>
        match loop_body st with
        | Py.Raise e => Some (Py.Raise e)
        | Py.Ok (Continue st') => while fuel' st'
        | Py.Ok (Break e st') => Some (Py.Ok (e, st'))
        end
    end
  else Some (Py.Ok (LoopBound, st)).

(** [None]: out of fuel; [Some (Raise e)]: the call raised [e];
    [Some (Ok (l, f))]: it returned [l]. *)
Definition get_all_proposals_optimized (fuel : nat) (f : fetcher)
  : option (Py.result (list proposal * fetcher)) :=
  let existing_proposals := proposals (checkpoint_data (store f)) in
  if (expected_proposals <=? List.length existing_proposals)%nat then
    Some (Py.Ok (existing_proposals, f))
  else
    match while fuel {| all_proposals := [];
                        after_cursor := None;
                        page_count := 0;
                        consecutive_failures := 0;
                        self := f |} with
    | None => None
    | Some (Py.Raise e) => Some (Py.Raise e)
    | Some (Py.Ok (_, st)) =>
        Some (Py.Ok
          (all_proposals st,
           with_store (self st)
             (save_checkpoint None (Some (all_proposals st)) None None None
                              (store (self st)))))
    end.

End Loop.

End Proposals.

(** ** CursorPaginator, for the votes of one proposal *)

Module Votes.
Import Data Checkpoint Fetcher.

Definition max_vote_pages : nat := 100 * 1000.
Definition max_failures : nat := 50.

(** [load_vote_cursor]. *)
Definition load_vote_cursor (f : fetcher) (proposal_id : string) : option string :=
  match vote_checkpoint_file f !! proposal_id with
  | Some c => c
  | None => None
  end.

(** [save_vote_cursor]. *)
Definition save_vote_cursor (proposal_id : string) (after_cursor : option string)
    (f : fetcher) : fetcher :=
  with_vote_checkpoint_file f (<[proposal_id := after_cursor]> (vote_checkpoint_file f)).

(** [live] tells whether [votes_cache[str(proposal_id)]] has been bound
    to the list [all_votes]: from then on the cache entry in memory is
    that very list and grows with it. *)
Record state := {
  all_votes : list vote;
  after_cursor : option string;
  page_count : nat;
  consecutive_failures : nat;
  last_save_time : Z;
  live : bool;
  self : fetcher
}.

Inductive exit :=
| LoopBound      (* the loop condition turned false *)
| NoMoreVotes    (* break: empty page, no new cursor *)
| ReachedEnd.    (* break: no cursor or same cursor, nothing more expected *)

Inductive outcome :=
| Continue (st : state)
| Break (e : exit) (st : state).

(** [votes_cache[str(proposal_id)] = all_votes] followed by
    [self.save_checkpoint(votes_cache=votes_cache)]. *)
Definition cache_votes (proposal_id : string) (votes : list vote) (f : fetcher)
  : fetcher :=
  let votes_cache' := <[proposal_id := votes]> (votes_cache (checkpoint_data (store f))) in
  with_store f (save_checkpoint None None None (Some votes_cache') None (store f)).

(** [all_votes.extend(valid_votes)] as the dictionary in memory sees it
    when the cache entry is the same list. *)
Definition alias_extend (proposal_id : string) (is_live : bool) (votes : list vote)
    (f : fetcher) : fetcher :=
  if is_live then
    let s := store f in
    let d := checkpoint_data s in
    with_store f
      {| checkpoint_data :=
           {| delegates := delegates d;
              proposals := proposals d;
              last_delegate_cursor := last_delegate_cursor d;
              votes_cache := <[proposal_id := votes]> (votes_cache d);
              processed_proposals := processed_proposals d;
              delegates_complete := delegates_complete d |};
         checkpoint_file := checkpoint_file s;
         writable := writable s |}
  else f.

Section Loop.
Variable world : env (page vote).
Variable proposal_id : string.
Variable expected_total_votes : option Z.

Definition loop_body (st : state) : outcome :=
  let n := request_count (self st) in
  let result := api world n (page_input (after_cursor st)) in
  let self1 := count_request (self st) in
  match payload result with
  | None =>
      let failures := S (consecutive_failures st) in
      let self2 :=
        save_vote_cursor proposal_id (after_cursor st)
          (cache_votes proposal_id (all_votes st) self1) in
      let self3 :=
        if (failures mod 5 =? 0)%nat then
          with_vote_batch_size self2 (Nat.max 100 (vote_batch_size self2 / 2))
        else self2 in
      Continue
        {| all_votes := all_votes st;
           after_cursor := after_cursor st;
           page_count := page_count st;
           consecutive_failures := failures;
           last_save_time := last_save_time st;
           live := true;
           self := self3 |}
  | Some votes_data =>
      let votes_batch := nodes votes_data in
      let new_cursor := lastCursor votes_data in
      match votes_batch with
      | [] =>
          if Py.truthy_opt new_cursor
             && negb (same_cursor new_cursor (after_cursor st)) then
            Continue
              {| all_votes := all_votes st;
                 after_cursor := new_cursor;
                 page_count := page_count st;
                 consecutive_failures := S (consecutive_failures st);
                 last_save_time := last_save_time st;
                 live := live st;
                 self := save_vote_cursor proposal_id new_cursor self1 |}
          else
            Break NoMoreVotes
              {| all_votes := all_votes st;
                 after_cursor := after_cursor st;
                 page_count := page_count st;
                 consecutive_failures := consecutive_failures st;
                 last_save_time := last_save_time st;
                 live := live st;
                 self := self1 |}
      | _ :: _ =>
          let valid_votes := List.filter Normalizer.validate_vote_data votes_batch in
          let all' := all_votes st ++ valid_votes in
          let self2 := alias_extend proposal_id (live st) all' self1 in
          let current_time := now world (S n) in
          let save_due := (current_time - last_save_time st >? 60)%Z in
          let self3 :=
            if save_due then
              save_vote_cursor proposal_id (after_cursor st)
                (cache_votes proposal_id all' self2)
            else self2 in
          let st' after failures f :=
            {| all_votes := all';
               after_cursor := after;
               page_count := S (page_count st);
               consecutive_failures := failures;
               last_save_time := if save_due then current_time else last_save_time st;
               live := live st || save_due;
               self := f |} in
          if negb (Py.truthy_opt new_cursor)
             || same_cursor new_cursor (after_cursor st) then
            match expected_total_votes with
            | None => Break ReachedEnd (st' (after_cursor st) 0%nat self3)
            | Some expected_total =>
                if (expected_total <=? Z.of_nat (List.length all'))%Z then
                  Break ReachedEnd (st' (after_cursor st) 0%nat self3)
                else
                  (* "Cursor stalled ... Retrying" *)
                  Continue (st' (after_cursor st) 1%nat self3)
            end
          else
            Continue (st' new_cursor 0%nat (save_vote_cursor proposal_id new_cursor self3))
      end
  end.

(** [while page_count < self.max_vote_pages and consecutive_failures < 50]. *)
Fixpoint while (fuel : nat) (st : state) : option (exit * state) :=
  if (page_count st <? max_vote_pages)%nat
     && (consecutive_failures st <? max_failures)%nat then
    match fuel with
    | O => None
    | S fuel' =>
        match loop_body st with
        | Continue st' => while fuel' st'
        | Break e st' => Some (e, st')
        end
    end
  else Some (LoopBound, st).

(** After the loop: a non-empty result is cached and the proposal's
    entry in the vote-cursor file is removed. *)
Definition finish (st : state) : list vote * fetcher :=
  match all_votes st with
  | [] => ([], self st)
  | _ :: _ =>
      let f := cache_votes proposal_id (all_votes st) (self st) in
      (all_votes st,
       with_vote_checkpoint_file f (delete proposal_id (vote_checkpoint_file f)))
  end.

Definition get_votes_for_proposal_high_volume (fuel : nat) (f : fetcher)
  : option (list vote * fetcher) :=
  let cached := votes_cache (checkpoint_data (store f)) !! proposal_id in
  match (if force_refresh_votes f then None else cached) with
  | Some cached_votes => Some (cached_votes, f)
  | None =>
      match while fuel {| all_votes := [];
                          after_cursor := load_vote_cursor f proposal_id;
                          page_count := 0;
                          consecutive_failures := 0;
                          last_save_time := now world (request_count f);
                          live := false;
                          self := f |} with
      | None => None
      | Some (_, st) => Some (finish st)
      end
  end.

End Loop.

End Votes.

(** ** VotingMatrixBuilder *)

Module Matrix.
Import Data Checkpoint Fetcher.

(** The value stored in [vote_map] for one voter. *)
Record vote_info := {
  vi_vote : string;
  vi_amount : string;
  vi_raw_type : option string;
  vi_reason : string;
  vi_block_timestamp : Py.scalar;
  vi_block_number : Py.scalar;
  vi_tx_hash : string
}.

(** One row of the matrix ([record_data]).  A field that is an [option]
    holds what [.get] handed back, which may be [None]. *)
Record record := {
  delegate_address : string;
  delegate_name : string;
  delegate_ens : option string;
  delegate_votes_count : Py.fclass;
  delegate_delegators_count : Z;
  has_statement : bool;
  seeking_delegation : option bool;
  proposal_id : string;
  proposal_onchain_id : string;
  proposal_title : option string;
  proposal_status : option string;
  proposal_start_timestamp : Py.scalar;
  proposal_end_timestamp : Py.scalar;
  proposal_start_block : Py.scalar;
  proposal_end_block : Py.scalar;
  is_active_delegate : bool;
  dao_name : string;
  vote : string;
  voting_amount : string;
  vote_type_raw : option string;
  vote_reason : string;
  vote_timestamp : Py.scalar;
  vote_block_number : Py.scalar;
  vote_tx_hash : string;
  participated : bool
}.

Definition empty : Py.scalar := Py.SStr "".

(** [str(x)] of a scalar that is not [None]. *)
Definition str (x : Py.scalar) : string :=
  match x with
  | Py.SStr s => s
  | Py.SInt z => pretty z
  | Py.SNull => "None"
  end.

(** [str(vote.get('amount', '0') or '0')]. *)
Definition amount_string (v : Data.vote) : string :=
  let a := get (amount v) (Py.SStr "0") in
  str (if Py.truthy a then a else Py.SStr "0").

(** [safe_get_nested(vote, 'block', key, default=...)]. *)
Definition block_field (key : block_info -> option Py.scalar) (v : Data.vote)
    (default : Py.scalar) : Py.scalar :=
  match block v with
  | Some (Some b) =>
      match key b with
      | Some Py.SNull | None => default
      | Some x => x
      end
  | _ => default
  end.

Definition vote_info_of (v : Data.vote) (normalized_vote : string) : vote_info :=
  {| vi_vote := normalized_vote;
     vi_amount := amount_string v;
     vi_raw_type := value (vote_type v);
     vi_reason := get (value (reason v)) "";
     vi_block_timestamp :=
       block_field timestamp v
         (match createdAt v with Some t => Py.SStr t | None => empty end);
     vi_block_number := block_field number v empty;
     vi_tx_hash := get (txHash v) "" |}.

(** The [for vote in votes] loop that fills [vote_map]: a vote without
    a voter address is passed over, a later vote of the same voter
    replaces an earlier one.  The loop stands under no [try]: what
    [normalize_vote_type] raises ends it. *)
Fixpoint fill_vote_map (votes : list Data.vote) (vote_map : gmap string vote_info)
  : Py.result (gmap string vote_info) :=
  match votes with
  | [] => Py.Ok vote_map
  | v :: rest =>
      match voter v with
      | Some w =>
          if Py.truthy_opt (voter_address w) then
            normalized_vote <- Normalizer.normalize_vote_type v ;;
            fill_vote_map rest
              (<[Py.lower (get (voter_address w) "")
                 := vote_info_of v normalized_vote]> vote_map)
          else fill_vote_map rest vote_map
      | None => fill_vote_map rest vote_map
      end
  end.

(** [safe_get_nested(proposal, side, key, default='')]. *)
Definition proposal_block (side : option block_info)
    (key : block_info -> option Py.scalar) : Py.scalar :=
  match side with
  | Some b =>
      match key b with
      | Some Py.SNull | None => empty
      | Some x => x
      end
  | None => empty
  end.

(** The [try] around the two counters: if either conversion raises,
    both are 0. *)
Definition counters (d : delegate) : Py.fclass * Z :=
  match Py.float (get (votesCount d) (Py.SInt 0)),
        Py.int (get (delegatorsCount d) (Py.SInt 0)) with
  | Some votes_count, Some delegators_count => (votes_count, delegators_count)
  | _, _ => (Py.FZero, 0%Z)
  end.

Definition no_statement : statement_info :=
  {| statement := None; isSeekingDelegation := None |}.

Section Builder.
Variable dao_config_name : string.

(** The body of the [for delegate in delegates] loop: [None] is the
    [continue] taken for a delegate without an address.  Three chains of
    calls stand under no [try] and raise on a null:
    [delegate.get('account', {}).get('address', '').lower()],
    [delegate.get('statement', {}).get('statement', '').strip()] and
    [proposal.get('metadata', {}).get('title', ...)]. *)
Definition delegate_record (p : proposal) (vote_map : gmap string vote_info)
    (d : delegate) : Py.result (option record) :=
  account_info <- Py.attr (get (account d) (Some Delegates.no_account)) ;;
  address_ <- Py.attr (get (address account_info) (Some "")) ;;
  let delegate_address := Py.lower address_ in
  if negb (Py.truthy_str delegate_address) then Py.Ok None
  else
    let name' := get (name account_info) "" in
    let delegate_name :=
      if Py.truthy_str name' then name'
      else String.append (String.substring 0 10 address_) "..." in
    let '(votes_count, delegators_count) := counters d in
    statement_info <- Py.attr (get (delegate_statement d) (Some no_statement)) ;;
    statement_ <- Py.attr (get (statement statement_info) (Some "")) ;;
    metadata_ <- Py.attr (get (metadata p) (Some Proposals.no_metadata)) ;;
    let base vote' amount' raw' reason' timestamp' number' tx' participated' :=
      {| delegate_address := address_;
         delegate_name := delegate_name;
         delegate_ens := get (ens account_info) (Some "");
         delegate_votes_count := votes_count;
         delegate_delegators_count := delegators_count;
         has_statement := Py.truthy_str (Py.strip statement_);
         seeking_delegation :=
           get (isSeekingDelegation statement_info) (Some false);
         proposal_id := id p;
         proposal_onchain_id := get (onchainId p) "";
         proposal_title :=
           get (title metadata_) (Some (String.append "Proposal " (id p)));
         proposal_status := get (status p) (Some "unknown");
         proposal_start_timestamp := proposal_block (start_block p) timestamp;
         proposal_end_timestamp := proposal_block (end_block p) timestamp;
         proposal_start_block := proposal_block (start_block p) number;
         proposal_end_block := proposal_block (end_block p) number;
         is_active_delegate :=
           match votes_count with Py.FPos => true | _ => false end;
         dao_name := dao_config_name;
         vote := vote';
         voting_amount := amount';
         vote_type_raw := raw';
         vote_reason := reason';
         vote_timestamp := timestamp';
         vote_block_number := number';
         vote_tx_hash := tx';
         participated := participated' |} in
    match vote_map !! delegate_address with
    | Some vote_info =>
        Py.Ok (Some (base (vi_vote vote_info) (vi_amount vote_info)
                          (vi_raw_type vote_info) (vi_reason vote_info)
                          (vi_block_timestamp vote_info) (vi_block_number vote_info)
                          (vi_tx_hash vote_info) true))
    | None =>
        Py.Ok (Some (base "Did Not Vote" "0" (Some "") "" empty empty "" false))
    end.

(** The loop over the delegates: the first delegate whose row raises ends
    it, and no row is returned. *)
Fixpoint process_all_delegates_for_proposal (delegates : list delegate)
    (p : proposal) (votes : list Data.vote) (vote_map : gmap string vote_info)
  : Py.result (list record) :=
  match delegates with
  | [] => Py.Ok []
  | d :: rest =>
      record_data <- delegate_record p vote_map d ;;
      proposal_data <- process_all_delegates_for_proposal rest p votes vote_map ;;
      Py.Ok match record_data with
            | Some r => r :: proposal_data
            | None => proposal_data
            end
  end.

(** [expected_total_votes]: the sum of the [votersCount] of the
    proposal's statistics, or [None] when a count does not convert. *)
Fixpoint sum_voters (stats : list vote_stat) : option Z :=
  match stats with
  | [] => Some 0%Z
  | s :: rest =>
      let c := get (votersCount s) Py.SNull in
      match Py.int (if Py.truthy c then c else Py.SInt 0), sum_voters rest with
      | Some n, Some m => Some (n + m)%Z
      | _, _ => None
      end
  end.

Definition expected_total_votes (p : proposal) : option Z :=
  sum_voters (get (voteStats p) []).

(** What the builder hands to the exporter. *)
Record matrix := {
  all_voting_data : list record;
  total_votes_found : nat;
  proposals_with_votes : nat
}.

Section Run.
Variable world : env (page Data.vote).
Variable fuel : nat.
Variable delegates : list delegate.

(** The [for i, proposal in enumerate(proposals)] loop; [fuel]
    bounds each vote pagination.  Nothing in the loop catches what the
    vote map or the rows of a proposal raise: the builder ends there and
    hands nothing to the exporter. *)
Fixpoint proposals_loop (proposals : list proposal) (m : matrix) (f : fetcher)
  : option (Py.result (matrix * fetcher)) :=
  match proposals with
  | [] => Some (Py.Ok (m, f))
  | p :: rest =>
      match Votes.get_votes_for_proposal_high_volume
              world (id p) (expected_total_votes p) fuel f with
      | None => None
      | Some (votes, f') =>
          let voted := match votes with [] => false | _ :: _ => true end in
          match (vote_map <- fill_vote_map votes ∅ ;;
                 process_all_delegates_for_proposal delegates p votes vote_map) with
          | Py.Raise e => Some (Py.Raise e)
          | Py.Ok proposal_data =>
              proposals_loop rest
                {| all_voting_data := all_voting_data m ++ proposal_data;
                   total_votes_found :=
                     total_votes_found m + List.length votes;
                   proposals_with_votes :=
                     proposals_with_votes m + (if voted then 1 else 0) |}
                f'
          end
      end
  end.

Definition create_voting_matrix_fast (proposals : list proposal) (f : fetcher)
  : option (Py.result (matrix * fetcher)) :=
  proposals_loop proposals
    {| all_voting_data := []; total_votes_found := 0; proposals_with_votes := 0 |}
    f.

End Run.
End Builder.

End Matrix.

(** ** Nested lookups ([safe_get_nested])

    The walk follows the keys through dictionaries; a key that is missing,
    or a value on the way that is not a dictionary, gives the default, and
    so does a [None] at the end.  Nothing in the body raises. *)

Module Nested.
Import Checkpoint.

Fixpoint safe_get_nested (data : json) (keys : list string) (default : json) : json :=
  match keys with
  | [] => match data with JNull => default | _ => data end
  | key :: rest =>
      match data with
      | JObj members =>
          match Py.assoc key members with
          | Some result => safe_get_nested result rest default
          | None => default
          end
      | _ => default
      end
  end.

End Nested.

(** ** The streamed fallback of [save_optimized_results]

    When the pandas path raises, the exporter walks the rows once and keeps
    three sets of figures: the counters of the performance report, one
    rollup per delegate and one per proposal.  The two rollup dictionaries
    are association lists in insertion order; writing the files is not
    modelled. *)

Module Report.

(** [if k not in d: d[k] = init] followed by an update of [d[k]] in
    place: the entry keeps its position. *)
Fixpoint upsert {K V : Type} (eqb : K -> K -> bool) (k : K) (init : V)
    (f : V -> V) (d : list (K * V)) : list (K * V) :=
  match d with
  | [] => [(k, f init)]
  | (k', v) :: rest =>
      if eqb k k' then (k', f v) :: rest
      else (k', v) :: upsert eqb k init f rest
  end.

(** [vote_val and vote_val != 'Did Not Vote']. *)
Definition is_actual_vote (vote_val : string) : bool :=
  Py.truthy_str vote_val && negb (String.eqb vote_val "Did Not Vote").

(** The [if]/[elif] chain that picks the column of the vote breakdown. *)
Inductive column := ColFor | ColAgainst | ColAbstain | ColVoted | ColUnknown.

Definition breakdown (vnorm : string) : column :=
  if String.eqb vnorm "For" then ColFor
  else if String.eqb vnorm "Against" then ColAgainst
  else if String.eqb vnorm "Abstain" then ColAbstain
  else if String.eqb vnorm "Voted" then ColVoted
  else ColUnknown.

Definition column_eqb (a b : column) : bool :=
  match a, b with
  | ColFor, ColFor | ColAgainst, ColAgainst | ColAbstain, ColAbstain
  | ColVoted, ColVoted | ColUnknown, ColUnknown => true
  | _, _ => false
  end.

Module DelegateAgg.

Definition key : Type := string * string * option string.

Definition key_eqb (a b : key) : bool :=
  let '(a1, a2, a3) := a in
  let '(b1, b2, b3) := b in
  String.eqb a1 b1 && String.eqb a2 b2
  && match a3, b3 with
     | Some x, Some y => String.eqb x y
     | None, None => true
     | _, _ => false
     end.

Record rollup := {
  votes_cast : nat;
  total_proposals : nat;
  actual_votes : nat;
  vote_for : nat;
  vote_against : nat;
  vote_abstain : nat;
  vote_voted : nat;
  vote_unknown : nat;
  delegate_power : Py.fclass;
  delegators_count : Z;
  has_statement : bool;
  seeking_delegation : option bool;
  is_active_delegate : bool
}.

Definition dkey (row : Matrix.record) : key :=
  (Matrix.delegate_address row, Matrix.delegate_name row, Matrix.delegate_ens row).

Definition init (row : Matrix.record) : rollup :=
  {| votes_cast := 0;
     total_proposals := 0;
     actual_votes := 0;
     vote_for := 0;
     vote_against := 0;
     vote_abstain := 0;
     vote_voted := 0;
     vote_unknown := 0;
     delegate_power := Matrix.delegate_votes_count row;
     delegators_count := Matrix.delegate_delegators_count row;
     has_statement := Matrix.has_statement row;
     seeking_delegation := Matrix.seeking_delegation row;
     is_active_delegate := Matrix.is_active_delegate row |}.

Definition add (row : Matrix.record) (aggd : rollup) : rollup :=
  let vote_val := Matrix.vote row in
  let actual := is_actual_vote vote_val in
  let bump (c : column) : nat :=
    if actual && column_eqb (breakdown vote_val) c then 1 else 0 in
  {| votes_cast := votes_cast aggd + (if Matrix.participated row then 1 else 0);
     total_proposals := total_proposals aggd + 1;
     actual_votes := actual_votes aggd + (if actual then 1 else 0);
     vote_for := vote_for aggd + bump ColFor;
     vote_against := vote_against aggd + bump ColAgainst;
     vote_abstain := vote_abstain aggd + bump ColAbstain;
     vote_voted := vote_voted aggd + bump ColVoted;
     vote_unknown := vote_unknown aggd + bump ColUnknown;
     delegate_power := delegate_power aggd;
     delegators_count := delegators_count aggd;
     has_statement := has_statement aggd;
     seeking_delegation := seeking_delegation aggd;
     is_active_delegate := is_active_delegate aggd |}.

End DelegateAgg.

Module ProposalAgg.

Record rollup := {
  proposal_title : option string;
  proposal_status : option string;
  start_time : Py.scalar;
  end_time : Py.scalar;
  actual_votes : nat;
  total_delegates : nat;
  unique_delegates_set : gset string;
  vote_for : nat;
  vote_against : nat;
  vote_abstain : nat;
  vote_voted : nat;
  vote_unknown : nat
}.

Definition init (row : Matrix.record) : rollup :=
  {| proposal_title := Matrix.proposal_title row;
     proposal_status := Matrix.proposal_status row;
     start_time := Matrix.proposal_start_timestamp row;
     end_time := Matrix.proposal_end_timestamp row;
     actual_votes := 0;
     total_delegates := 0;
     unique_delegates_set := ∅;
     vote_for := 0;
     vote_against := 0;
     vote_abstain := 0;
     vote_voted := 0;
     vote_unknown := 0 |}.

Definition add (row : Matrix.record) (aggp : rollup) : rollup :=
  let vote_val := Matrix.vote row in
  let actual := is_actual_vote vote_val in
  let bump (c : column) : nat :=
    if actual && column_eqb (breakdown vote_val) c then 1 else 0 in
  {| proposal_title := proposal_title aggp;
     proposal_status := proposal_status aggp;
     start_time := start_time aggp;
     end_time := end_time aggp;
     actual_votes := actual_votes aggp + (if actual then 1 else 0);
     total_delegates := total_delegates aggp + 1;
     unique_delegates_set := {[ Matrix.delegate_address row ]} ∪ unique_delegates_set aggp;
     vote_for := vote_for aggp + bump ColFor;
     vote_against := vote_against aggp + bump ColAgainst;
     vote_abstain := vote_abstain aggp + bump ColAbstain;
     vote_voted := vote_voted aggp + bump ColVoted;
     vote_unknown := vote_unknown aggp + bump ColUnknown |}.

End ProposalAgg.

(** The figures of the loop. *)
Record state := {
  delegate_agg : list (DelegateAgg.key * DelegateAgg.rollup);
  proposal_agg : list (string * ProposalAgg.rollup);
  total_records : nat;
  unique_delegates_set : gset string;
  unique_proposals_set : gset string;
  total_votes_extracted : nat;
  unique_voters_set : gset string;
  proposals_with_votes_set : gset string;
  participated_sum : nat;
  active_delegates_count : nat
}.

Definition initial_state : state :=
  {| delegate_agg := [];
     proposal_agg := [];
     total_records := 0;
     unique_delegates_set := ∅;
     unique_proposals_set := ∅;
     total_votes_extracted := 0;
     unique_voters_set := ∅;
     proposals_with_votes_set := ∅;
     participated_sum := 0;
     active_delegates_count := 0 |}.

(** The body of [for row in all_voting_data]. *)
Definition loop_body (st : state) (row : Matrix.record) : state :=
  let addr := Matrix.delegate_address row in
  let vote_val := Matrix.vote row in
  let prop_id := Matrix.proposal_id row in
  let actual := is_actual_vote vote_val in
  {| delegate_agg :=
       upsert DelegateAgg.key_eqb (DelegateAgg.dkey row) (DelegateAgg.init row)
              (DelegateAgg.add row) (delegate_agg st);
     proposal_agg :=
       upsert String.eqb prop_id (ProposalAgg.init row)
              (ProposalAgg.add row) (proposal_agg st);
     total_records := total_records st + 1;
     unique_delegates_set := {[ addr ]} ∪ unique_delegates_set st;
     unique_proposals_set := {[ prop_id ]} ∪ unique_proposals_set st;
     total_votes_extracted :=
       total_votes_extracted st + (if actual then 1 else 0);
     unique_voters_set :=
       if actual then {[ addr ]} ∪ unique_voters_set st else unique_voters_set st;
     proposals_with_votes_set :=
       if actual then {[ prop_id ]} ∪ proposals_with_votes_set st
       else proposals_with_votes_set st;
     participated_sum :=
       participated_sum st + (if Matrix.participated row then 1 else 0);
     active_delegates_count :=
       active_delegates_count st
       + (if Matrix.is_active_delegate row then 1 else 0) |}.

Definition rollup (all_voting_data : list Matrix.record) : state :=
  fold_left loop_body all_voting_data initial_state.

(** The divisors of the two participation rates and the guarded rate of
    the report: [x or 1], and [... if total_records else 0.0]. *)
Definition or_1 (n : nat) : nat := if Nat.eqb n 0 then 1 else n.

Definition total_props (aggd : DelegateAgg.rollup) : nat :=
  or_1 (DelegateAgg.total_proposals aggd).

Definition unique_del (aggp : ProposalAgg.rollup) : nat :=
  or_1 (size (ProposalAgg.unique_delegates_set aggp)).

End Report.

(** ** Vocabulary of the statements and the concrete runs they are tried on *)

Module Scenario.
Import Data Checkpoint Fetcher.

(** A vote as the API serves it, with the four fields the normaliser
    reads spelled out. *)
Definition a_vote (type_ : string) (amount_ : string) (reason_ : string)
    (txHash_ : string) : vote :=
  {| vote_id := Some "1";
     vote_type := Some (Some type_);
     amount := Some (Py.SStr amount_);
     reason := Some (Some reason_);
     txHash := Some txHash_;
     voter := Some {| voter_address := Some "0x00000000000000000000000000000000000000a1" |};
     block := None;
     createdAt := None;
     platform := None |}.

(** A delegate has an address when the key is there and its value is
    neither null nor empty. *)
Definition has_address (d : delegate) : bool :=
  Py.truthy_opt (value (address (get (value (account d)) Delegates.no_account))).

(** A field that is present with the value null. *)
Definition null {A} (o : option (option A)) : bool :=
  match o with Some None => true | _ => false end.

(** The builder can read the delegate: its account and its address are
    not null and, if it has an address, neither its statement nor the text
    of its statement is null. *)
Definition readable (d : delegate) : bool :=
  negb (null (account d))
  && negb (null (address (get (value (account d)) Delegates.no_account)))
  && (negb (has_address d)
      || (negb (null (delegate_statement d))
          && negb (null (statement (get (value (delegate_statement d))
                                        Matrix.no_statement))))).

(** The metadata of the proposal is not null. *)
Definition titled (p : proposal) : bool := negb (null (metadata p)).

(** The "Did Not Vote" row: the sentinel, amount "0", the other vote
    fields empty, no participation. *)
Definition did_not_vote (r : Matrix.record) : Prop :=
  Matrix.vote r = "Did Not Vote"
  /\ Matrix.voting_amount r = "0"
  /\ Matrix.vote_type_raw r = Some ""
  /\ Matrix.vote_reason r = ""
  /\ Matrix.vote_timestamp r = Py.SStr ""
  /\ Matrix.vote_block_number r = Py.SStr ""
  /\ Matrix.vote_tx_hash r = ""
  /\ Matrix.participated r = false.

(** A number of turns that every vote pagination ends within: a turn
    either adds a page, of which there are at most [max_vote_pages], or
    adds a failure, of which fewer than 50 follow each other. *)
Definition vote_fuel : nat := S (Votes.max_vote_pages * 51 + 50).

(** No page served carries two valid delegates with the same lower-cased
    address. *)
Definition distinct_pages (world : env (page delegate)) : Prop :=
  forall n c delegates_data,
    payload (api world n c) = Some delegates_data ->
    List.NoDup (List.map Delegates.address_key
                  (List.filter Delegates.validate_delegate_data
                               (nodes delegates_data))).

Definition served (l : list delegate) (c : option string)
  : option (Client.body (page delegate)) :=
  Some {| Client.has_errors := false;
          Client.data := Some {| nodes := l; lastCursor := c |} |}.

(** What a turn of the vote loop makes smaller. *)
Definition vote_measure (st : Votes.state) : nat :=
  (Votes.max_vote_pages - Votes.page_count st) * 51
  + (Votes.max_failures - Votes.consecutive_failures st).

(** No proposal has any vote: the service never serves a vote, and no
    vote is cached. *)
Definition no_votes_served (world : env (page vote)) : Prop :=
  forall n c votes_data,
    payload (api world n c) = Some votes_data -> nodes votes_data = [].

Definition no_votes_cached (f : fetcher) : Prop :=
  forall k votes,
    votes_cache (checkpoint_data (store f)) !! k = Some votes -> votes = [].

Definition a_delegate (address_ : option string) : delegate :=
  {| account :=
       Some (Some {| address := option_map Some address_;
                     name := Some "alice"; ens := None |});
     votesCount := Some (Py.SStr "1250000000000000000");
     delegatorsCount := Some (Py.SInt 3);
     delegate_statement := None |}.

Definition a_proposal (id_ : string) : proposal :=
  {| id := id_;
     onchainId := Some "42";
     metadata := Some (Some {| title := Some (Some "Upgrade"); description := None |});
     proposer := None;
     status := Some (Some "executed");
     start_block := None;
     end_block := None;
     voteStats := None |}.

(** The delegate with its statement set to null, as the API serves a
    delegate that wrote none. *)
Definition with_null_statement (d : delegate) : delegate :=
  {| account := account d;
     votesCount := votesCount d;
     delegatorsCount := delegatorsCount d;
     delegate_statement := Some None |}.


(** A service without votes: every votes page is empty and has no
    cursor. *)
Definition silent_votes : env (page vote) :=
  {| now := fun _ => 0%Z;
     api := fun _ _ =>
       Some {| Client.has_errors := false;
               Client.data := Some {| nodes := []; lastCursor := None |} |} |}.

(** One page with the same address twice, in two spellings. *)
Definition twice_on_a_page : env (page delegate) :=
  {| now := fun _ => 0%Z;
     api := fun _ _ =>
       served [a_delegate (Some "0xAbCd"); a_delegate (Some "0xabcd")] None |}.

(** A service that serves a first page with cursor c1, fails the next
    request once (the client gave up on it), then serves the last page. *)
Definition one_failed_request : env (page delegate) :=
  {| now := fun _ => 0%Z;
     api := fun n _ =>
       match n with
       | 0 => served [a_delegate (Some "0xA1")] (Some "c1")
       | 1 => None
       | _ => served [a_delegate (Some "0xB2")] None
       end |}.

(** A service that cannot be reached: every attempt of every request
    times out. *)
Definition unreachable {P} : env P :=
  {| now := fun _ => 0%Z;
     api := fun _ _ => Client.make_request_optimized (fun _ => Client.Timeout) |}.

(** A service whose second page returns the cursor of the first. *)
Definition repeated_cursor : env (page delegate) :=
  {| now := fun _ => 0%Z;
     api := fun _ c =>
       match c with
       | None => served [a_delegate (Some "0xA1")] (Some "c1")
       | Some _ => served [a_delegate (Some "0xB2")] (Some "c1")
       end |}.

(** The delegate loop on that service after its first turn. *)
Definition after_first_page : Delegates.state :=
  match Delegates.loop_body repeated_cursor
          (Delegates.initial_state repeated_cursor (init fresh_store false)) with
  | Delegates.Continue st | Delegates.Break _ st => st
  end.

(** A service that answers by the cursor alone, whatever the time read
    on [clock]. *)
Definition deterministic
    (serve : option string -> option (Client.body (page delegate)))
    (clock : nat -> Z) : env (page delegate) :=
  {| now := clock; api := fun _ c => serve c |}.

(** The state after [k] more turns of the delegate loop, when the loop
    has not ended by then: a page boundary. *)
Fixpoint turns (world : env (page delegate)) (k : nat) (st : Delegates.state)
  : option Delegates.state :=
  match k with
  | O => Some st
  | S k' =>
      if (Delegates.consecutive_failures st <? Delegates.max_consecutive_failures)%nat
      then match Delegates.loop_body world st with
           | Delegates.Continue st' => turns world k' st'
           | Delegates.Break _ _ => None
           end
      else None
  end.

(** The process stops at a page boundary once the checkpoint of that
    boundary is written ([save_checkpoint(delegates=all_delegates,
    cursor=after_cursor)]), and a new process loads the file. *)
Definition restart (st : Delegates.state) (force : bool) : fetcher :=
  init (match checkpoint_file (Delegates.checkpoint_now st) with
        | Some c => store_of c
        | None => fresh_store
        end) force.

(** Two states of the delegate loop with the same list and cursor, the
    second with no more failures counted than the first. *)
Definition same_progress (st st' : Delegates.state) : Prop :=
  Delegates.all_delegates st = Delegates.all_delegates st'
  /\ Delegates.after_cursor st = Delegates.after_cursor st'
  /\ Delegates.consecutive_failures st' <= Delegates.consecutive_failures st.

(** The checkpoint in memory agrees with the cursor of the loop: no cursor
    is stored while the loop has none, and a cursor of the loop is never
    the empty string. *)
Definition coherent (st : Delegates.state) : Prop :=
  writable (store (Delegates.self st)) = true
  /\ match Delegates.after_cursor st with
     | None =>
         last_delegate_cursor (checkpoint_data (store (Delegates.self st))) = None
     | Some c => Py.truthy_str c = true
     end.

(** A first page, then fifteen empty pages that each move the cursor,
    then a last page. *)
Definition long_gap (c : option string) : option (Client.body (page delegate)) :=
  match c with
  | None => served [a_delegate (Some "0xA1")] (Some "c1")
  | Some s =>
      match Py.assoc s
              [("c1", "c2"); ("c2", "c3"); ("c3", "c4"); ("c4", "c5");
               ("c5", "c6"); ("c6", "c7"); ("c7", "c8"); ("c8", "c9");
               ("c9", "c10"); ("c10", "c11"); ("c11", "c12"); ("c12", "c13");
               ("c13", "c14"); ("c14", "c15"); ("c15", "c16")] with
      | Some next => served [] (Some next)
      | None =>
          if String.eqb s "c16" then served [a_delegate (Some "0xB2")] None
          else None
      end
  end.

(** Three pages in a row. *)
Definition three_pages (c : option string) : option (Client.body (page delegate)) :=
  match c with
  | None => served [a_delegate (Some "0xA1")] (Some "c1")
  | Some s =>
      if String.eqb s "c1" then served [a_delegate (Some "0xB2")] (Some "c2")
      else served [a_delegate (Some "0xC3"); a_delegate (Some "0xa1")] None
  end.

Definition still_clock : nat -> Z := fun _ => 0%Z.

(** The boundary after the first of the three pages. *)
Definition first_boundary : Delegates.state :=
  let world := deterministic three_pages still_clock in
  let start := Delegates.initial_state world (init fresh_store false) in
  match turns world 1 start with Some st => st | None => start end.

(** The checkpoint does not say that the delegates are complete. *)
Definition not_marked_complete (s : Checkpoint.store) : Prop :=
  delegates_complete (checkpoint_data s) <> Some true.

(** What a turn of the proposal loop makes smaller, and a number of turns
    that every proposal pagination ends within. *)
Definition proposal_measure (st : Proposals.state) : nat :=
  (Proposals.max_pages - Proposals.page_count st) * 11
  + (Proposals.max_failures - Proposals.consecutive_failures st).

Definition proposal_fuel : nat := 1111.

(** A service that answers every proposals request and never has a
    proposal: a body without data, or an empty page. *)
Definition no_proposals_served (world : env (page proposal)) : Prop :=
  forall n c, exists b,
    api world n c = Some b
    /\ match Client.data b with
       | None => True
       | Some proposals_data => nodes proposals_data = []
       end.

(** The state in which the proposal loop starts. *)
Definition proposal_start (f : fetcher) : Proposals.state :=
  {| Proposals.all_proposals := [];
     Proposals.after_cursor := None;
     Proposals.page_count := 0;
     Proposals.consecutive_failures := 0;
     Proposals.self := f |}.

(** The cursors that the proposal loop sends with its requests, turn
    after turn, from a state on. *)
Fixpoint proposal_cursors (world : env (page proposal)) (fuel : nat)
    (st : Proposals.state) : list (option string) :=
  if (Proposals.page_count st <? Proposals.max_pages)%nat
     && (Proposals.consecutive_failures st <? Proposals.max_failures)%nat then
    match fuel with
    | O => []
    | S fuel' =>
        page_input (Proposals.after_cursor st)
        :: match Proposals.loop_body world st with
           | Py.Ok (Proposals.Continue st') => proposal_cursors world fuel' st'
           | _ => []
           end
    end
  else [].

Definition empty_proposal_pages : env (page proposal) :=
  {| now := fun _ => 0%Z;
     api := fun _ _ =>
       Some {| Client.has_errors := false;
               Client.data := Some {| nodes := []; lastCursor := Some "c1" |} |} |}.

(** A service whose first answer has no data and whose second is the
    only page of proposals. *)
Definition one_proposal_page : env (page proposal) :=
  {| now := fun _ => 0%Z;
     api := fun n _ =>
       match n with
       | 0 => Some {| Client.has_errors := false; Client.data := None |}
       | _ => Some {| Client.has_errors := false;
                      Client.data :=
                        Some {| nodes := [a_proposal "1"]; lastCursor := None |} |}
       end |}.

(** What the vote loop keeps from one state to a later one: the
    force-refresh flag; the votes read so far, to which it only appends
    validated votes; a batch size of at least 100, which it never
    raises. *)
Definition vote_turn_keeps (st st' : Votes.state) : Prop :=
  force_refresh_votes (Votes.self st') = force_refresh_votes (Votes.self st)
  /\ (exists added,
        Votes.all_votes st' = Votes.all_votes st ++ added
        /\ Forall (fun v => Normalizer.validate_vote_data v = true) added)
  /\ (100 <= vote_batch_size (Votes.self st) ->
      100 <= vote_batch_size (Votes.self st') <= vote_batch_size (Votes.self st)).

(** A vote has a voter address when the key is there and not empty. *)
Definition has_voter_address (v : vote) : bool :=
  match voter v with
  | Some w => Py.truthy_opt (voter_address w)
  | None => false
  end.

(** A service with one page of two votes, the second without a voter. *)
Definition one_vote_page : env (page vote) :=
  {| now := fun _ => 0%Z;
     api := fun _ _ =>
       Some {| Client.has_errors := false;
               Client.data :=
                 Some {| nodes :=
                           [a_vote "for" "12" "" "0xfeed";
                            {| vote_id := Some "2"; vote_type := Some (Some "against");
                               amount := None; reason := None; txHash := None;
                               voter := None; block := None; createdAt := None;
                               platform := None |}];
                         lastCursor := None |} |} |}.

(** The key under which the builder files a vote in its vote map: the
    lower-cased address of the voter, when there is one. *)
Definition voter_key (v : vote) : option string :=
  match voter v with
  | Some w =>
      if Py.truthy_opt (voter_address w)
      then Some (Py.lower (get (voter_address w) ""))
      else None
  | None => None
  end.

(** The proposal and the delegate of the rows of a matrix, in order. *)
Definition cells (rows : list Matrix.record) : list (string * string) :=
  List.map (fun r => (Matrix.proposal_id r, Matrix.delegate_address r)) rows.

(** Proposals in order and, for each, the delegates that have an address,
    in order. *)
Definition grid (ps : list proposal) (ds : list delegate) : list (string * string) :=
  List.flat_map
    (fun p =>
       List.map
         (fun d => (id p, Delegates.address_text d))
         (List.filter has_address ds))
    ps.

(** The labels the normaliser can give. *)
Definition labels : list string := ["For"; "Against"; "Abstain"; "Voted"; "Unknown"].

(** The sum of a figure over the entries of a rollup dictionary. *)
Definition total {K V : Type} (figure : V -> nat) (d : list (K * V)) : nat :=
  list_sum (List.map (fun e => figure (snd e)) d).

(** A list written out [n] times in a row. *)
Definition copies {A : Type} (n : nat) (l : list A) : list A :=
  List.concat (List.repeat l n).

(** A service that answers every votes request with the same page. *)
Definition always_serves (world : env (page vote)) (votes_data : page vote) : Prop :=
  forall n c, payload (api world n c) = Some votes_data.

(** What every entry of the delegate rollup satisfies. *)
Definition delegate_entry_ok (aggd : Report.DelegateAgg.rollup) : Prop :=
  1 <= Report.DelegateAgg.total_proposals aggd
  /\ Report.DelegateAgg.votes_cast aggd <= Report.DelegateAgg.total_proposals aggd
  /\ Report.DelegateAgg.actual_votes aggd <= Report.DelegateAgg.total_proposals aggd
  /\ Report.DelegateAgg.vote_for aggd + Report.DelegateAgg.vote_against aggd
     + Report.DelegateAgg.vote_abstain aggd + Report.DelegateAgg.vote_voted aggd
     + Report.DelegateAgg.vote_unknown aggd
     = Report.DelegateAgg.actual_votes aggd.

(** What every entry of the proposal rollup satisfies. *)
Definition proposal_entry_ok (aggp : Report.ProposalAgg.rollup) : Prop :=
  1 <= size (Report.ProposalAgg.unique_delegates_set aggp)
  /\ size (Report.ProposalAgg.unique_delegates_set aggp)
     <= Report.ProposalAgg.total_delegates aggp
  /\ Report.ProposalAgg.actual_votes aggp <= Report.ProposalAgg.total_delegates aggp
  /\ Report.ProposalAgg.vote_for aggp + Report.ProposalAgg.vote_against aggp
     + Report.ProposalAgg.vote_abstain aggp + Report.ProposalAgg.vote_voted aggp
     + Report.ProposalAgg.vote_unknown aggp
     = Report.ProposalAgg.actual_votes aggp.

(** The counters of the report against the rows seen so far. *)
Definition counters_ok (st : Report.state) : Prop :=
  Report.total_votes_extracted st <= Report.total_records st
  /\ Report.participated_sum st <= Report.total_records st
  /\ Report.active_delegates_count st <= Report.total_records st
  /\ Report.unique_voters_set st ⊆ Report.unique_delegates_set st
  /\ Report.proposals_with_votes_set st ⊆ Report.unique_proposals_set st
  /\ size (Report.unique_voters_set st) <= Report.total_votes_extracted st
  /\ size (Report.proposals_with_votes_set st) <= Report.total_votes_extracted st
  /\ total Report.DelegateAgg.actual_votes (Report.delegate_agg st)
     = Report.total_votes_extracted st
  /\ total Report.ProposalAgg.actual_votes (Report.proposal_agg st)
     = Report.total_votes_extracted st.

(** The votes of a page that pass validation. *)
Definition valid_votes (votes_data : page vote) : list vote :=
  List.filter Normalizer.validate_vote_data (nodes votes_data).

(** A vote of the voter at an address, with its type and a null reason. *)
Definition cast (address_ type_ : string) : vote :=
  {| vote_id := None;
     vote_type := Some (Some type_);
     amount := None;
     reason := Some None;
     txHash := None;
     voter := Some {| voter_address := Some address_ |};
     block := None;
     createdAt := None;
     platform := None |}.

(** A service with one page of three votes for every proposal: two of
    one voter, in two spellings of the address, and one of another. *)
Definition three_votes : env (page vote) :=
  {| now := fun _ => 0%Z;
     api := fun _ _ =>
       Some {| Client.has_errors := false;
               Client.data :=
                 Some {| nodes := [cast "0xA1" "for"; cast "0xa1" "AGAINST";
                                   cast "0xC3" "abstain"];
                         lastCursor := None |} |} |}.

(** A small run of the builder: two proposals, and four delegates of
    which one voted and one has no address. *)
Definition small_run (fuel : nat)
  : option (Py.result (Matrix.matrix * fetcher)) :=
  Matrix.create_voting_matrix_fast "Compound DAO" three_votes fuel
    [a_delegate (Some "0xA1"); a_delegate None; a_delegate (Some "0xB2");
     with_null_statement (a_delegate (Some ""))]
    [a_proposal "7"; a_proposal "8"]
    (init fresh_store false).

(** The answer to the request of the turn of the delegate loop that
    starts in [st]. *)
Definition answer (world : env (page delegate)) (st : Delegates.state)
  : option (page delegate) :=
  payload (api world (request_count (Delegates.self st))
               (page_input (Delegates.after_cursor st))).

End Scenario.

(** * Properties *)

(** ** VoteNormalizer *)

Section NormalizerFacts.
Import Data Normalizer.

(** C6.  A vote whose raw type is "FOR" is normalised to "For" whatever
    its other fields hold: the table look-up of rule 1 answers before
    the amount is even read.  In particular this is so for amount "0",
    empty reason and empty transaction hash. *)
Theorem normalize_FOR_takes_precedence :
  (forall i a r t w b c p,
      normalize_vote_type
        {| vote_id := i; vote_type := Some (Some "FOR"); amount := a; reason := r;
           txHash := t; voter := w; block := b; createdAt := c; platform := p |}
      = Py.Ok "For")
  /\ (forall i w b c p,
      normalize_vote_type
        {| vote_id := i; vote_type := Some (Some "FOR"); amount := Some (Py.SStr "0");
           reason := Some (Some ""); txHash := Some ""; voter := w; block := b;
           createdAt := c; platform := p |}
      = Py.Ok "For").
Proof.
  split; intros; reflexivity.
Qed.

(** A vote is unmatched by rule 1 exactly when its stripped type is
    empty or its lower-cased form is no key of the table. *)
Lemma type_rule_None (v : vote) :
  type_rule v = Py.Ok None <->
  exists type_,
    get (vote_type v) (Some "") = Some type_
    /\ (Py.strip type_ = ""
        \/ Py.assoc (Py.lower (Py.strip type_)) type_mappings = None).
Proof.
  unfold type_rule.
  destruct (get (vote_type v) (Some "")) as [type_|]; cbn [Py.attr Py.bind].
  - destruct (Py.strip type_) as [|c s] eqn:E; cbn [Py.truthy_str].
    + split; [intros _; exists type_; rewrite E; auto | reflexivity].
    + split.
      * intros [= H]. exists type_. rewrite E. auto.
      * intros (type' & [= <-] & H). rewrite E in H.
        destruct H as [H | H]; [discriminate | rewrite H; reflexivity].
  - split; [discriminate | intros (type_ & H & _); discriminate].
Qed.

(** C7.  A vote whose type matches no entry of the table, whose amount
    converts to zero, whose reason is the empty string (or is not there,
    which the code reads as the empty string) and whose transaction hash
    is not empty is normalised to "Voted". *)
Theorem normalize_unmatched_with_txhash (v : vote) :
  type_rule v = Py.Ok None ->
  amount_value v = Py.FZero ->
  get (reason v) (Some "") = Some "" ->
  Py.truthy_opt (txHash v) = true ->
  normalize_vote_type v = Py.Ok "Voted".
Proof.
  intros Htype Hamount Hreason Htx.
  unfold normalize_vote_type, amount_positive, reason_rule.
  rewrite Htype, Hamount, Hreason, Htx. reflexivity.
Qed.

Lemma normalize_unmatched_with_txhash_witness :
  normalize_vote_type (Scenario.a_vote "MAYBE" "0" "" "0xfeed") = Py.Ok "Voted".
Proof.
  apply normalize_unmatched_with_txhash; reflexivity.
Defined.

End NormalizerFacts.

(** ** CheckpointStore: loading *)

Section LoadFacts.
Import Checkpoint.




End LoadFacts.

(** ** Vote pagination always ends *)

Section VotesTermination.
Import Data Checkpoint Fetcher Votes.
Variable world : env (page vote).
Variable proposal_id : string.
Variable expected : option Z.

Lemma vote_loop_body_measure (st st' : state) :
  (page_count st <? max_vote_pages)%nat
  && (consecutive_failures st <? max_failures)%nat = true ->
  loop_body world proposal_id expected st = Continue st' ->
  Scenario.vote_measure st' < Scenario.vote_measure st.
Proof.
  intros Hc Hb. apply andb_true_iff in Hc as [Hp Hf].
  apply Nat.ltb_lt in Hp, Hf.
  unfold Scenario.vote_measure, max_failures in *.
  generalize dependent max_vote_pages; intros M Hp.
  unfold loop_body in Hb.
  destruct (payload _) as [votes_data|].
  - destruct (nodes votes_data) as [|v batch].
    + destruct (_ && _); [|discriminate].
      injection Hb as <-; cbn; lia.
    + destruct (_ || _).
      * destruct expected as [expected_total|]; [|discriminate].
        destruct (_ <=? _)%Z; [discriminate|].
        injection Hb as <-; cbn; lia.
      * injection Hb as <-; cbn; lia.
  - injection Hb as <-; cbn; lia.
Qed.

Lemma vote_while_total (fuel : nat) :
  forall st, Scenario.vote_measure st < fuel ->
  exists r, while world proposal_id expected fuel st = Some r.
Proof.
  induction fuel as [|fuel IH]; intros st Hm; [lia|].
  cbn [while].
  destruct (_ && _) eqn:Hc; [|eauto].
  destruct (loop_body world proposal_id expected st) as [st'|e st'] eqn:Hb; [|eauto].
  apply IH. pose proof (vote_loop_body_measure st st' Hc Hb). lia.
Qed.

Lemma vote_fuel_enough (st : state) : Scenario.vote_measure st < Scenario.vote_fuel.
Proof.
  unfold Scenario.vote_measure, Scenario.vote_fuel, max_failures.
  generalize max_vote_pages; intros M. nia.
Qed.

Lemma get_votes_total (f : fetcher) :
  exists votes f',
    get_votes_for_proposal_high_volume world proposal_id expected
      Scenario.vote_fuel f = Some (votes, f').
Proof.
  unfold get_votes_for_proposal_high_volume.
  destruct (if force_refresh_votes f then None else _) as [cached|]; [eauto|].
  match goal with |- context [while _ _ _ _ ?st] =>
    destruct (vote_while_total Scenario.vote_fuel st (vote_fuel_enough st))
      as [[e st'] ->] end.
  destruct (finish proposal_id st') as [votes f'] eqn:E. eauto.
Qed.

End VotesTermination.

(** ** VotingMatrixBuilder *)

Section MatrixFacts.
Import Data Checkpoint Fetcher Matrix.
Variable dao : string.

Lemma truthy_lower (s : string) : Py.truthy_str (Py.lower s) = Py.truthy_str s.
Proof. destruct s; reflexivity. Qed.

(** One step through the body of [delegate_record]: the next value read
    is there, null or absent, the address is empty or not. *)
Ltac read_next :=
  match goal with
  | |- context [Py.attr (get ?o _)] => destruct o as [[?|]|]
  | |- context [negb (Py.truthy_str ?s)] => destruct (Py.truthy_str s) eqn:?
  | |- context [counters ?d] => destruct (counters d) as [? ?]
  end;
  cbn [get Py.attr Py.bind value Scenario.null negb andb orb Py.truthy_opt];
  rewrite ?truthy_lower;
  try discriminate; try reflexivity.

Ltac read_delegate :=
  unfold Scenario.readable, Scenario.titled, Scenario.has_address,
    Delegates.address_text, delegate_record;
  repeat read_next.

(** What the row of a delegate is, case by case: the builder raises on a
    delegate it cannot read, passes over one without an address, raises on
    a proposal whose metadata is null, and makes a row otherwise. *)
Lemma delegate_record_unreadable p vote_map (d : delegate) :
  Scenario.readable d = false ->
  delegate_record dao p vote_map d = Py.Raise Py.AttributeError.
Proof. read_delegate. Qed.

Lemma delegate_record_skip p vote_map (d : delegate) :
  Scenario.readable d = true ->
  Scenario.has_address d = false ->
  delegate_record dao p vote_map d = Py.Ok None.
Proof. read_delegate. Qed.

Lemma delegate_record_untitled p vote_map (d : delegate) :
  Scenario.has_address d = true ->
  Scenario.titled p = false ->
  delegate_record dao p vote_map d = Py.Raise Py.AttributeError.
Proof. read_delegate. Qed.

Lemma delegate_record_emit p vote_map (d : delegate) :
  Scenario.readable d = true ->
  Scenario.has_address d = true ->
  Scenario.titled p = true ->
  exists r, delegate_record dao p vote_map d = Py.Ok (Some r).
Proof. read_delegate; destruct (_ !! _); eauto. Qed.

Lemma delegate_record_raises p vote_map (d : delegate) e :
  delegate_record dao p vote_map d = Py.Raise e ->
  e = Py.AttributeError
  /\ (Scenario.readable d = false
      \/ Scenario.has_address d = true /\ Scenario.titled p = false).
Proof.
  read_delegate; try (destruct (_ !! _); discriminate); intros [= <-]; auto.
Qed.

Lemma delegate_record_no_row p vote_map (d : delegate) :
  delegate_record dao p vote_map d = Py.Ok None ->
  Scenario.has_address d = false /\ Scenario.readable d = true.
Proof. read_delegate; try (destruct (_ !! _); discriminate); auto. Qed.

(** What a row says of its delegate, of its proposal and of the vote map. *)
Lemma delegate_record_row p vote_map (d : delegate) r :
  delegate_record dao p vote_map d = Py.Ok (Some r) ->
  Scenario.has_address d = true
  /\ Scenario.readable d = true
  /\ Scenario.titled p = true
  /\ Py.truthy_str (delegate_address r) = true
  /\ delegate_address r = Delegates.address_text d
  /\ proposal_id r = id p
  /\ match vote_map !! Py.lower (delegate_address r) with
     | Some vote_info => vote r = vi_vote vote_info /\ participated r = true
     | None => Scenario.did_not_vote r
     end.
Proof.
  read_delegate;
    match goal with |- context [vote_map !! ?k] =>
      destruct (vote_map !! k) eqn:E end;
    intros [= <-]; cbn [delegate_address proposal_id vote participated];
    rewrite E; repeat split; assumption.
Qed.

(** X26.  The row of a delegate raises exactly on a null: when the
    account or the address of the delegate is null, when the delegate has
    an address and its statement or the text of its statement is null,
    and when the delegate has an address and the metadata of the proposal
    is null.  What it raises is [AttributeError]; the vote map plays no
    part in it. *)
Theorem row_raises_exactly_on_a_null p vote_map (d : delegate) :
  (delegate_record dao p vote_map d = Py.Raise Py.AttributeError
   <-> Scenario.readable d = false
       \/ Scenario.has_address d = true /\ Scenario.titled p = false)
  /\ (forall e, delegate_record dao p vote_map d = Py.Raise e ->
                e = Py.AttributeError).
Proof.
  split; [split|].
  - intros H. apply delegate_record_raises in H. tauto.
  - intros [H|[Ha Hp]];
      [apply delegate_record_unreadable | apply delegate_record_untitled]; assumption.
  - intros e H. apply delegate_record_raises in H. tauto.
Qed.

(** The rows of a proposal, when the loop over the delegates returns: one
    per delegate with an address, in the order of the delegates. *)
Lemma process_all_rows ds p votes vote_map rows :
  process_all_delegates_for_proposal dao ds p votes vote_map = Py.Ok rows ->
  Forall2 (fun d r => delegate_record dao p vote_map d = Py.Ok (Some r))
          (List.filter Scenario.has_address ds) rows.
Proof.
  revert rows. induction ds as [|d ds IH]; intros rows;
    cbn [process_all_delegates_for_proposal List.filter].
  - intros [= <-]. constructor.
  - destruct (delegate_record dao p vote_map d) as [[r|]|e] eqn:E; cbn [Py.bind];
      [| |discriminate];
      (destruct (process_all_delegates_for_proposal dao ds p votes vote_map)
         as [rest|e']; cbn [Py.bind]; [|discriminate]); intros [= <-].
    + destruct (delegate_record_row _ _ _ _ E) as [-> _].
      constructor; [exact E | apply IH; reflexivity].
    + destruct (delegate_record_no_row _ _ _ E) as [-> _]. apply IH. reflexivity.
Qed.


Lemma process_all_length ds p votes vote_map rows :
  process_all_delegates_for_proposal dao ds p votes vote_map = Py.Ok rows ->
  List.length rows = List.length (List.filter Scenario.has_address ds).
Proof.
  intros H. apply process_all_rows in H.
  induction H as [|d r ds' rows' _ _ IH]; [reflexivity|].
  cbn [List.length]. rewrite IH. reflexivity.
Qed.

Lemma process_all_addresses ds p votes vote_map rows r :
  process_all_delegates_for_proposal dao ds p votes vote_map = Py.Ok rows ->
  In r rows ->
  exists d, In d ds /\ delegate_record dao p vote_map d = Py.Ok (Some r).
Proof.
  intros H. apply process_all_rows in H.
  remember (List.filter Scenario.has_address ds) as addressed eqn:Ha.
  assert (forall d, In d addressed -> In d ds) as Hsub
    by (intros d Hd; subst addressed; apply List.filter_In in Hd; tauto).
  clear Ha. induction H as [|d r' ds' rows' Hd _ IH]; [intros []|].
  intros [<-|Hin].
  - exists d. split; [apply Hsub; left; reflexivity | exact Hd].
  - apply IH; [|exact Hin]. intros d' Hd'. apply Hsub. right. exact Hd'.
Qed.

Lemma process_all_unvoted ds p votes rows :
  process_all_delegates_for_proposal dao ds p votes ∅ = Py.Ok rows ->
  Forall Scenario.did_not_vote rows.
Proof.
  intros H. apply List.Forall_forall. intros r Hin.
  destruct (process_all_addresses _ _ _ _ _ _ H Hin) as (d & _ & Hr).
  apply delegate_record_row in Hr as (_ & _ & _ & _ & _ & _ & Hr).
  rewrite lookup_empty in Hr. exact Hr.
Qed.

(** The loop over the delegates returns when it can read every delegate
    and the metadata of the proposal is not null. *)
Lemma process_all_returns ds p votes vote_map :
  forallb Scenario.readable ds = true ->
  Scenario.titled p = true ->
  exists rows,
    process_all_delegates_for_proposal dao ds p votes vote_map = Py.Ok rows.
Proof.
  intros Hds Hp. induction ds as [|d ds IH];
    cbn [process_all_delegates_for_proposal]; [eauto|].
  cbn [forallb] in Hds. apply andb_true_iff in Hds as [Hd Hds].
  destruct (IH Hds) as [rows ->].
  destruct (Scenario.has_address d) eqn:Ha.
  - destruct (delegate_record_emit p vote_map d Hd Ha Hp) as [r ->]. cbn. eauto.
  - rewrite (delegate_record_skip p vote_map d Hd Ha). cbn. eauto.
Qed.


(** Each proposal adds one row per delegate with an address. *)
Lemma proposals_loop_length world fuel ds ps :
  forall m f m' f',
    proposals_loop dao world fuel ds ps m f = Some (Py.Ok (m', f')) ->
    List.length (all_voting_data m')
    = List.length (all_voting_data m)
      + List.length ps * List.length (List.filter Scenario.has_address ds).
Proof.
  induction ps as [|p ps IH]; intros m f m' f'; cbn [proposals_loop].
  - intros [= <- <-]. cbn. lia.
  - destruct (Votes.get_votes_for_proposal_high_volume _ _ _ _ _)
      as [[votes f1]|]; [|discriminate].
    destruct (fill_vote_map votes ∅) as [vote_map|e]; cbn [Py.bind]; [|discriminate].
    destruct (process_all_delegates_for_proposal dao ds p votes vote_map)
      as [rows|e] eqn:Hrows; [|discriminate].
    intros H. apply IH in H. rewrite H. cbn [all_voting_data List.length].
    rewrite length_app, (process_all_length _ _ _ _ _ Hrows). lia.
Qed.

(** What holds of the rows of every proposal holds of the rows of the
    matrix. *)
Lemma proposals_loop_rows (P : record -> Prop) world fuel ds ps :
  (forall p votes vote_map rows,
      fill_vote_map votes ∅ = Py.Ok vote_map ->
      process_all_delegates_for_proposal dao ds p votes vote_map = Py.Ok rows ->
      Forall P rows) ->
  forall m f m' f',
    Forall P (all_voting_data m) ->
    proposals_loop dao world fuel ds ps m f = Some (Py.Ok (m', f')) ->
    Forall P (all_voting_data m').
Proof.
  intros Hrows.
  induction ps as [|p ps IH]; intros m f m' f' Hm; cbn [proposals_loop].
  - intros [= <- <-]. exact Hm.
  - destruct (Votes.get_votes_for_proposal_high_volume _ _ _ _ _)
      as [[votes f1]|]; [|discriminate].
    destruct (fill_vote_map votes ∅) as [vote_map|e] eqn:Hmap; cbn [Py.bind];
      [|discriminate].
    destruct (process_all_delegates_for_proposal dao ds p votes vote_map)
      as [rows|e] eqn:Hp; [|discriminate].
    apply IH. cbn [all_voting_data].
    apply List.Forall_app. split; [exact Hm | eapply Hrows; eauto].
Qed.

End MatrixFacts.

Section SilentVotes.
Import Data Checkpoint Fetcher Votes.
Variable world : env (page vote).
Variable proposal_id : string.
Variable expected : option Z.
Hypothesis silent : Scenario.no_votes_served world.

Lemma no_votes_cached_insert (f : fetcher) :
  Scenario.no_votes_cached f ->
  Scenario.no_votes_cached (cache_votes proposal_id [] f).
Proof.
  intros H k votes. cbn. rewrite lookup_insert.
  destruct (decide (proposal_id = k)); [intros [= <-]; reflexivity | apply H].
Qed.

Lemma silent_loop_body (st : state) :
  all_votes st = [] ->
  Scenario.no_votes_cached (self st) ->
  match loop_body world proposal_id expected st with
  | Continue st' | Break _ st' =>
      all_votes st' = [] /\ Scenario.no_votes_cached (self st')
  end.
Proof.
  intros Hv Hc. unfold loop_body.
  destruct (payload _) as [votes_data|] eqn:Hp.
  - rewrite (silent _ _ _ Hp).
    destruct (_ && _); cbn; auto.
  - rewrite Hv. cbn [all_votes self].
    split; [reflexivity|].
    assert (Scenario.no_votes_cached
              (save_vote_cursor proposal_id (after_cursor st)
                 (cache_votes proposal_id [] (count_request (self st))))) as H
      by (apply (no_votes_cached_insert (count_request (self st))); exact Hc).
    destruct (_ =? _)%nat; exact H.
Qed.

Lemma silent_while (fuel : nat) :
  forall st e st',
    all_votes st = [] ->
    Scenario.no_votes_cached (self st) ->
    while world proposal_id expected fuel st = Some (e, st') ->
    all_votes st' = [] /\ Scenario.no_votes_cached (self st').
Proof.
  induction fuel as [|fuel IH]; intros st e st' Hv Hc; cbn [while];
    destruct (_ && _); try discriminate; try (intros [= <- <-]; auto).
  pose proof (silent_loop_body st Hv Hc) as Hb.
  destruct (loop_body world proposal_id expected st) as [st1|e1 st1].
  - destruct Hb. apply IH; assumption.
  - intros [= <- <-]. exact Hb.
Qed.

Lemma silent_get_votes (fuel : nat) (f : fetcher) votes f' :
  Scenario.no_votes_cached f ->
  get_votes_for_proposal_high_volume world proposal_id expected fuel f
  = Some (votes, f') ->
  votes = [] /\ Scenario.no_votes_cached f'.
Proof.
  intros Hc. unfold get_votes_for_proposal_high_volume.
  destruct (if force_refresh_votes f then None else _) as [cached|] eqn:Hcache.
  - intros [= <- <-]. split; [|exact Hc].
    destruct (force_refresh_votes f); [discriminate|]. eapply Hc; eauto.
  - destruct (while _ _ _ _ _) as [[e st']|] eqn:Hw; [|discriminate].
    apply silent_while in Hw as [Hv' Hc']; [|reflexivity|exact Hc].
    unfold finish. rewrite Hv'. intros [= <- <-]. auto.
Qed.

End SilentVotes.

Section CrossJoin.
Import Data Checkpoint Fetcher Matrix.
Variable dao : string.

Lemma proposals_loop_unvoted world fuel ds ps :
  Scenario.no_votes_served world ->
  forall m f m' f',
    Scenario.no_votes_cached f ->
    Forall Scenario.did_not_vote (all_voting_data m) ->
    proposals_loop dao world fuel ds ps m f = Some (Py.Ok (m', f')) ->
    Forall Scenario.did_not_vote (all_voting_data m').
Proof.
  intros silent.
  induction ps as [|p ps IH]; intros m f m' f' Hc Hm; cbn [proposals_loop].
  - intros [= <- <-]. exact Hm.
  - destruct (Votes.get_votes_for_proposal_high_volume _ _ _ _ _)
      as [[votes f1]|] eqn:Hg; [|discriminate].
    apply silent_get_votes in Hg as [-> Hc1]; [|exact silent|exact Hc].
    cbn [fill_vote_map Py.bind].
    destruct (process_all_delegates_for_proposal dao ds p [] ∅) as [rows|e] eqn:Hp;
      [|discriminate].
    apply IH; [exact Hc1|]. cbn [all_voting_data].
    apply List.Forall_app. split; [exact Hm | eapply process_all_unvoted; eauto].
Qed.

(** Without votes the builder returns when it can read every delegate and
    no proposal has a null metadata. *)
Lemma proposals_loop_unvoted_returns world ds ps :
  Scenario.no_votes_served world ->
  forallb Scenario.readable ds = true ->
  forallb Scenario.titled ps = true ->
  forall m f,
    Scenario.no_votes_cached f ->
    exists m' f',
      proposals_loop dao world Scenario.vote_fuel ds ps m f = Some (Py.Ok (m', f')).
Proof.
  intros silent Hds.
  induction ps as [|p ps IH]; intros Hps m f Hc; cbn [proposals_loop]; [eauto|].
  cbn [forallb] in Hps. apply andb_true_iff in Hps as [Hp Hps].
  destruct (get_votes_total world (id p) (expected_total_votes p) f)
    as (votes & f1 & Hg).
  rewrite Hg. apply silent_get_votes in Hg as [-> Hc1]; [|exact silent|exact Hc].
  cbn [fill_vote_map Py.bind].
  destruct (process_all_returns dao ds p [] ∅ Hds Hp) as [rows ->].
  apply IH; assumption.
Qed.

End CrossJoin.

Section MatrixClaims.
Import Data Checkpoint Fetcher Matrix.





(** C5, as the code has it.  When no proposal has any vote, the builder
    can read every delegate and no proposal has a null metadata, the
    builder returns one row per proposal and per delegate that has an
    address: P times D rows when every delegate has one.  Every row is
    the "Did Not Vote" row: amount "0", the other vote fields empty, no
    participation. *)
Theorem cross_join_without_votes
    (dao : string) (world : env (page Data.vote))
    (ds : list delegate) (ps : list proposal) (f : fetcher) :
  Scenario.no_votes_served world ->
  Scenario.no_votes_cached f ->
  forallb Scenario.readable ds = true ->
  forallb Scenario.titled ps = true ->
  exists m f',
    create_voting_matrix_fast dao world Scenario.vote_fuel ds ps f
    = Some (Py.Ok (m, f'))
    /\ List.length (all_voting_data m)
       = List.length ps * List.length (List.filter Scenario.has_address ds)
    /\ (forallb Scenario.has_address ds = true ->
        List.length (all_voting_data m) = List.length ps * List.length ds)
    /\ Forall Scenario.did_not_vote (all_voting_data m).
Proof.
  intros silent Hc Hds Hps. unfold create_voting_matrix_fast.
  destruct (proposals_loop_unvoted_returns dao world ds ps silent Hds Hps
              {| all_voting_data := []; total_votes_found := 0;
                 proposals_with_votes := 0 |} f Hc) as (m & f' & H).
  exists m, f'. split; [exact H|].
  pose proof (proposals_loop_length _ _ _ _ _ _ _ _ _ H) as Hlen.
  cbn [all_voting_data List.length Nat.add] in Hlen.
  split; [exact Hlen|]. split.
  - intros Hall. rewrite Hlen. f_equal. f_equal.
    clear -Hall. induction ds as [|d ds' IH]; [reflexivity|].
    cbn in Hall |- *. apply andb_true_iff in Hall as [-> Hall].
    rewrite (IH Hall). reflexivity.
  - eapply proposals_loop_unvoted; [exact silent|exact Hc| |exact H]. constructor.
Qed.

Lemma silent_votes_serves_none : Scenario.no_votes_served Scenario.silent_votes.
Proof. intros n c votes_data [= <-]. reflexivity. Qed.

Lemma fresh_fetcher_caches_none :
  Scenario.no_votes_cached (init fresh_store false).
Proof. intros k votes H. cbn in H. rewrite lookup_empty in H. discriminate. Qed.

Lemma cross_join_without_votes_witness :
  exists m f',
    create_voting_matrix_fast "Compound DAO" Scenario.silent_votes Scenario.vote_fuel
      [Scenario.a_delegate (Some "0xA1"); Scenario.a_delegate None;
       Scenario.a_delegate (Some "0xB2")]
      [Scenario.a_proposal "1"; Scenario.a_proposal "2"]
      (init fresh_store false) = Some (Py.Ok (m, f'))
    /\ List.length (all_voting_data m) = 2 * 2
    /\ (false = true -> List.length (all_voting_data m) = 2 * 3)
    /\ Forall Scenario.did_not_vote (all_voting_data m).
Proof.
  apply (cross_join_without_votes "Compound DAO" Scenario.silent_votes
           [Scenario.a_delegate (Some "0xA1"); Scenario.a_delegate None;
            Scenario.a_delegate (Some "0xB2")]
           [Scenario.a_proposal "1"; Scenario.a_proposal "2"]
           (init fresh_store false)
           silent_votes_serves_none fresh_fetcher_caches_none);
    reflexivity.
Defined.

(** C5 as stated fails.  One proposal, one delegate (without an address),
    no votes: the matrix has no row at all instead of one.  And one
    proposal, one delegate with an address and a null statement, no votes:
    the builder raises and there is no matrix. *)
Lemma cross_join_counterexample :
  Scenario.no_votes_served Scenario.silent_votes
  /\ Scenario.no_votes_cached (init fresh_store false)
  /\ (exists m f',
       create_voting_matrix_fast "Compound DAO" Scenario.silent_votes 3
         [Scenario.a_delegate None] [Scenario.a_proposal "1"]
         (init fresh_store false) = Some (Py.Ok (m, f'))
       /\ all_voting_data m = []
       /\ List.length (all_voting_data m)
          <> List.length [Scenario.a_proposal "1"]
             * List.length [Scenario.a_delegate None])
  /\ create_voting_matrix_fast "Compound DAO" Scenario.silent_votes 3
       [Scenario.with_null_statement (Scenario.a_delegate (Some "0xA1"))]
       [Scenario.a_proposal "1"]
       (init fresh_store false)
     = Some (Py.Raise Py.AttributeError).
Proof.
  split; [exact silent_votes_serves_none|].
  split; [exact fresh_fetcher_caches_none|].
  split; [|vm_compute; reflexivity].
  eexists _, _. split; [vm_compute; reflexivity|].
  split; [reflexivity | cbn; lia].
Qed.

End MatrixClaims.

(** ** Delegates: the duplicate check of a page *)

Section Deduplication.
Import Data Checkpoint Fetcher Delegates.

Lemma in_address_set (k : string) (l : list delegate) :
  k ∈ address_set l <-> In k (List.map address_key l).
Proof.
  unfold address_set. rewrite elem_of_list_to_set. apply list_elem_of_In.
Qed.

(** The test [if duplicates:] only saves work: filtering is the identity
    when no address of the page is known. *)
Lemma new_delegates_filter (all batch : list delegate) :
  new_delegates all batch
  = List.filter (fun d => bool_decide (address_key d ∉ address_set all))
                (List.filter validate_delegate_data batch).
Proof.
  unfold new_delegates.
  set (valid := List.filter validate_delegate_data batch).
  destruct (bool_decide _) eqn:Hd; [reflexivity|].
  apply bool_decide_eq_false in Hd.
  assert (address_set valid ∩ address_set all = ∅) as He
    by (destruct (decide (address_set valid ∩ address_set all = ∅)); tauto).
  assert (forall d, In d valid -> address_key d ∉ address_set all) as Hall.
  { intros d Hin Hex.
    assert (address_key d ∈ address_set valid ∩ address_set all) as H.
    { apply elem_of_intersection. split; [|exact Hex].
      apply in_address_set, in_map, Hin. }
    rewrite He in H. exact (not_elem_of_empty _ H). }
  clear -Hall. induction valid as [|d valid IH]; [reflexivity|].
  cbn [List.filter]. rewrite bool_decide_eq_true_2 by (apply Hall; left; reflexivity).
  f_equal. apply IH. intros d' Hin. apply Hall. right. exact Hin.
Qed.

Lemma in_new_delegates (all batch : list delegate) (d : delegate) :
  In d (new_delegates all batch) <->
  In d batch /\ validate_delegate_data d = true
  /\ ~ In (address_key d) (List.map address_key all).
Proof.
  rewrite new_delegates_filter, !filter_In, bool_decide_eq_true, in_address_set.
  tauto.
Qed.

Lemma NoDup_map_filter {A B} (key : A -> B) (keep : A -> bool) (l : list A) :
  List.NoDup (List.map key l) -> List.NoDup (List.map key (List.filter keep l)).
Proof.
  induction l as [|a l IH]; cbn [List.map List.filter]; [auto|].
  intros H. apply List.NoDup_cons_iff in H as [Hn Hd].
  destruct (keep a); [|auto].
  cbn [List.map]. apply List.NoDup_cons; [|auto].
  intros Hin. apply Hn. apply in_map_iff in Hin as (x & Hx & Hin).
  apply filter_In in Hin as [Hin _]. rewrite <- Hx. apply in_map. exact Hin.
Qed.

Lemma merge_page_NoDup (all batch : list delegate) :
  List.NoDup (List.map address_key all) ->
  List.NoDup (List.map address_key (List.filter validate_delegate_data batch)) ->
  List.NoDup (List.map address_key (merge_page all batch)).
Proof.
  intros Hall Hbatch. unfold merge_page. rewrite map_app.
  apply List.NoDup_app; [exact Hall| |].
  - rewrite new_delegates_filter. apply NoDup_map_filter. exact Hbatch.
  - intros k Hk Hk'.
    apply in_map_iff in Hk' as (d & <- & Hd).
    apply in_new_delegates in Hd as (_ & _ & Hn). exact (Hn Hk).
Qed.

Lemma fold_merge_prefix (pages : list (list delegate)) :
  forall all, exists added, fold_left merge_page pages all = all ++ added.
Proof.
  induction pages as [|batch pages IH]; intros all; cbn [fold_left].
  - exists []. rewrite app_nil_r. reflexivity.
  - destruct (IH (merge_page all batch)) as (added & ->).
    unfold merge_page. rewrite <- app_assoc. eauto.
Qed.

Lemma fold_merge_NoDup (pages : list (list delegate)) :
  forall all,
    List.NoDup (List.map address_key all) ->
    Forall (fun batch =>
              List.NoDup (List.map address_key
                            (List.filter validate_delegate_data batch))) pages ->
    List.NoDup (List.map address_key (fold_left merge_page pages all)).
Proof.
  induction pages as [|batch pages IH]; intros all Hall Hpages; cbn [fold_left];
    [exact Hall|].
  apply List.Forall_cons_iff in Hpages as [Hb Hpages].
  apply IH; [|exact Hpages]. apply merge_page_NoDup; assumption.
Qed.

End Deduplication.

(** ** Delegates: what one turn of the loop does *)

Section DelegateLoop.
Import Data Checkpoint Fetcher Delegates.
Variable world : env (page delegate).

Lemma periodic_all t st : all_delegates (periodic_checkpoint t st) = all_delegates st.
Proof. unfold periodic_checkpoint. destruct (_ >? _)%Z; reflexivity. Qed.

Lemma periodic_cursor t st : after_cursor (periodic_checkpoint t st) = after_cursor st.
Proof. unfold periodic_checkpoint. destruct (_ >? _)%Z; reflexivity. Qed.

Lemma periodic_failures t st :
  consecutive_failures (periodic_checkpoint t st) = consecutive_failures st.
Proof. unfold periodic_checkpoint. destruct (_ >? _)%Z; reflexivity. Qed.

Lemma periodic_requests t st :
  request_count (self (periodic_checkpoint t st)) = request_count (self st).
Proof. unfold periodic_checkpoint. destruct (_ >? _)%Z; reflexivity. Qed.

(** The three ways a turn can go, read off the answer. *)
Lemma loop_body_failed st :
  Scenario.answer world st = None ->
  exists st', loop_body world st = Continue st'
    /\ all_delegates st' = all_delegates st
    /\ after_cursor st' = after_cursor st
    /\ consecutive_failures st' = S (consecutive_failures st).
Proof.
  unfold Scenario.answer, loop_body. cbv zeta. intros H.
  rewrite periodic_cursor, H.
  eexists; split; [reflexivity|].
  cbn [all_delegates after_cursor consecutive_failures].
  rewrite ?periodic_all, ?periodic_cursor, ?periodic_failures. auto.
Qed.

Lemma loop_body_empty st delegates_data :
  Scenario.answer world st = Some delegates_data ->
  nodes delegates_data = [] ->
  let moved := Py.truthy_opt (lastCursor delegates_data)
               && negb (same_cursor (lastCursor delegates_data) (after_cursor st)) in
  exists st',
    loop_body world st
    = (if moved then Continue st' else Break NoMoreDelegates st')
    /\ all_delegates st' = all_delegates st
    /\ after_cursor st'
       = (if moved then lastCursor delegates_data else after_cursor st)
    /\ consecutive_failures st' = S (consecutive_failures st).
Proof.
  intros H Hn moved. unfold Scenario.answer in H. unfold loop_body. cbv zeta.
  rewrite periodic_cursor, H, Hn. fold moved.
  destruct moved; eexists; (split; [reflexivity|]);
    cbn [all_delegates after_cursor consecutive_failures];
    rewrite ?periodic_all, ?periodic_cursor, ?periodic_failures; auto.
Qed.

Lemma loop_body_page st delegates_data :
  Scenario.answer world st = Some delegates_data ->
  nodes delegates_data <> [] ->
  let stuck := negb (Py.truthy_opt (lastCursor delegates_data))
               || same_cursor (lastCursor delegates_data) (after_cursor st) in
  exists st',
    loop_body world st
    = (if stuck then Break ReachedEnd st' else Continue st')
    /\ all_delegates st' = merge_page (all_delegates st) (nodes delegates_data)
    /\ after_cursor st'
       = (if stuck then after_cursor st else lastCursor delegates_data)
    /\ consecutive_failures st' = 0
    /\ request_count (self st') = S (request_count (self st)).
Proof.
  intros H Hn stuck. unfold Scenario.answer in H. unfold loop_body. cbv zeta.
  rewrite periodic_cursor, H. fold stuck.
  destruct (nodes delegates_data) as [|d batch]; [congruence|].
  destruct stuck; eexists; (split; [reflexivity|]);
    cbn [all_delegates after_cursor consecutive_failures self count_request
         request_count];
    rewrite ?periodic_all, ?periodic_cursor, ?periodic_requests; auto.
Qed.

(** A turn leaves the list as it is or merges the page served. *)
Lemma loop_body_merges st :
  match loop_body world st with
  | Continue st' | Break _ st' =>
      all_delegates st' = all_delegates st
      \/ exists delegates_data,
           Scenario.answer world st = Some delegates_data
           /\ all_delegates st' = merge_page (all_delegates st) (nodes delegates_data)
  end.
Proof.
  destruct (Scenario.answer world st) as [delegates_data|] eqn:Ha.
  - destruct (nodes delegates_data) as [|d batch] eqn:Hn.
    + destruct (loop_body_empty st delegates_data Ha Hn) as (st' & -> & H & _).
      destruct (_ && _); auto.
    + assert (nodes delegates_data <> []) as Hne by congruence.
      destruct (loop_body_page st delegates_data Ha Hne) as (st' & -> & H & _).
      destruct (_ || _); right; exists delegates_data; auto.
  - destruct (loop_body_failed st Ha) as (st' & -> & H & _). auto.
Qed.

Lemma while_NoDup (fuel : nat) :
  Scenario.distinct_pages world ->
  forall st e st',
    List.NoDup (List.map address_key (all_delegates st)) ->
    while world fuel st = Some (e, st') ->
    List.NoDup (List.map address_key (all_delegates st')).
Proof.
  intros Hw. induction fuel as [|fuel IH]; intros st e st' Hst; cbn [while];
    destruct (_ <? _)%nat; try discriminate; try (intros [= <- <-]; exact Hst).
  pose proof (loop_body_merges st) as Hm.
  assert (forall s, (all_delegates s = all_delegates st
             \/ exists delegates_data, Scenario.answer world st = Some delegates_data
                  /\ all_delegates s
                     = merge_page (all_delegates st) (nodes delegates_data)) ->
            List.NoDup (List.map address_key (all_delegates s))) as Hkeep.
  { intros s [-> | (delegates_data & Ha & ->)]; [exact Hst|].
    apply merge_page_NoDup; [exact Hst|]. eapply Hw. exact Ha. }
  destruct (loop_body world st) as [st1|e1 st1].
  - apply IH. apply Hkeep, Hm.
  - intros [= <- <-]. apply Hkeep, Hm.
Qed.

End DelegateLoop.

Section DeduplicationClaim.
Import Data Checkpoint Fetcher Delegates.

(** C8, as the code has it.  Of a page, exactly the valid delegates whose
    lower-cased address is not yet in the accumulated list are appended;
    the accumulated records stay as they are, in place.  So a list with at
    most one record per lower-cased address keeps that property through
    any sequence of page merges, and through a whole run from an empty
    checkpoint, provided no single page carries the same lower-cased
    address on two valid records. *)
Theorem page_merge_drops_known_addresses :
  (forall all batch d,
      In d (new_delegates all batch) <->
      In d batch /\ validate_delegate_data d = true
      /\ ~ In (address_key d) (List.map address_key all))
  /\ (forall pages all, exists added, fold_left merge_page pages all = all ++ added)
  /\ (forall pages all,
        List.NoDup (List.map address_key all) ->
        Forall (fun batch =>
                  List.NoDup (List.map address_key
                                (List.filter validate_delegate_data batch))) pages ->
        List.NoDup (List.map address_key (fold_left merge_page pages all)))
  /\ (forall world fuel force e l f',
        Scenario.distinct_pages world ->
        get_all_delegates_optimized world fuel (init fresh_store force)
        = Some (e, l, f') ->
        List.NoDup (List.map address_key l)).
Proof.
  split; [exact in_new_delegates|].
  split; [exact fold_merge_prefix|].
  split; [exact fold_merge_NoDup|].
  intros world fuel force e l f' Hw. unfold get_all_delegates_optimized.
  destruct (while world fuel _) as [[e' st]|] eqn:Hrun; [|discriminate].
  cbn [finish]. intros [= _ <- _].
  eapply while_NoDup; [exact Hw| |exact Hrun]. constructor.
Qed.

Lemma page_merge_drops_known_addresses_witness :
  List.NoDup
    (List.map address_key
       (fold_left merge_page
          [[Scenario.a_delegate (Some "0xB2"); Scenario.a_delegate (Some "0xa1")];
           [Scenario.a_delegate (Some "0xC3"); Scenario.a_delegate (Some "0xb2")]]
          [Scenario.a_delegate (Some "0xA1")])).
Proof.
  apply (proj1 (proj2 (proj2 page_merge_drops_known_addresses))).
  - vm_compute. repeat constructor; cbn; intuition discriminate.
  - repeat constructor; vm_compute; repeat constructor; cbn; intuition discriminate.
Defined.

(** C8 as stated fails: a single page that carries one address twice, in
    two spellings, leaves two records with the same lower-cased address
    in the collection. *)
Lemma page_merge_counterexample :
  exists f',
    get_all_delegates_optimized Scenario.twice_on_a_page 2 (init fresh_store false)
    = Some (ReachedEnd,
            [Scenario.a_delegate (Some "0xAbCd"); Scenario.a_delegate (Some "0xabcd")],
            f')
    /\ address_key (Scenario.a_delegate (Some "0xAbCd"))
       = address_key (Scenario.a_delegate (Some "0xabcd"))
    /\ ~ List.NoDup
           (List.map address_key
              [Scenario.a_delegate (Some "0xAbCd"); Scenario.a_delegate (Some "0xabcd")]).
Proof.
  eexists. split; [vm_compute; reflexivity|].
  split; [reflexivity|].
  intros H. apply List.NoDup_cons_iff in H as [H _]. apply H. left. reflexivity.
Qed.

End DeduplicationClaim.

(** ** Delegates: the checkpoint after a completed run *)

Section CompletedRun.
Import Data Checkpoint Fetcher Delegates.

(** The save that ends the function passes [cursor=None], and so leaves
    the stored cursor and the completion flag as they were. *)
Lemma finish_keeps_cursor (st : state) :
  let c := checkpoint_data (store (self st)) in
  let c' := checkpoint_data (store (snd (finish st))) in
  last_delegate_cursor c' = last_delegate_cursor c
  /\ delegates_complete c' = delegates_complete c
  /\ delegates c' = all_delegates st.
Proof. repeat split. Qed.

(** C1 on the code.  The first page comes with cursor c1, the next request
    fails once, which checkpoints the list with that cursor, and the retry
    brings the last page: the run ends at its end-of-pagination exit and
    returns both delegates, yet the checkpoint it leaves, in memory and
    on disk, still holds the cursor c1 and [delegates_complete = False]:
    the final [save_checkpoint(..., cursor=None)] does not touch the
    cursor.  A fetcher started from that file resumes at c1. *)
Theorem completed_run_keeps_stale_cursor :
  exists f' c,
    get_all_delegates_optimized Scenario.one_failed_request 3 (init fresh_store false)
    = Some (ReachedEnd,
            [Scenario.a_delegate (Some "0xA1"); Scenario.a_delegate (Some "0xB2")],
            f')
    /\ checkpoint_file (store f') = Some c
    /\ checkpoint_data (store f') = c
    /\ delegates c
       = [Scenario.a_delegate (Some "0xA1"); Scenario.a_delegate (Some "0xB2")]
    /\ last_delegate_cursor c = Some "c1"
    /\ delegates_complete c = Some false
    /\ after_cursor (initial_state Scenario.one_failed_request (init (store_of c) false))
       = Some "c1".
Proof.
  eexists _, _. split; [vm_compute; reflexivity|].
  repeat split.
Qed.

End CompletedRun.

(** ** Proposals: a request the client gave up on *)

Section TerminalFailure.
Import Data Checkpoint Fetcher.

Lemma client_gives_up {A} :
  Client.make_request_optimized (A := A) (fun _ => Client.Timeout) = None.
Proof. reflexivity. Qed.

(** Whenever the client returns [None], the turn of the proposal loop
    raises. *)
Lemma proposal_turn_raises_on_None (world : env (page Data.proposal))
    (st : Proposals.state) :
  api world (request_count (Proposals.self st))
      (page_input (Proposals.after_cursor st)) = None ->
  Proposals.loop_body world st = Py.Raise Py.AttributeError.
Proof. unfold Proposals.loop_body. cbv zeta. intros ->. reflexivity. Qed.

(** The delegate loop on the same answer checkpoints its list and cursor
    and goes on. *)
Lemma delegate_turn_checkpoints_on_None (world : env (page Data.delegate))
    (st : Delegates.state) :
  api world (request_count (Delegates.self st))
      (page_input (Delegates.after_cursor st)) = None ->
  writable (store (Delegates.self st)) = true ->
  exists st',
    Delegates.loop_body world st = Delegates.Continue st'
    /\ Delegates.all_delegates st' = Delegates.all_delegates st
    /\ Delegates.consecutive_failures st' = S (Delegates.consecutive_failures st)
    /\ exists c, checkpoint_file (store (Delegates.self st')) = Some c
                 /\ delegates c = Delegates.all_delegates st.
Proof.
  intros Ha Hw. unfold Delegates.loop_body. cbv zeta.
  rewrite periodic_cursor, Ha. cbn [payload].
  eexists. split; [reflexivity|].
  cbn [Delegates.all_delegates Delegates.consecutive_failures Delegates.self
       with_store store].
  rewrite periodic_all, periodic_failures. split; [reflexivity|].
  split; [reflexivity|].
  unfold Delegates.checkpoint_now, save_checkpoint.
  assert (writable (store (Delegates.self
            (Delegates.periodic_checkpoint
               (now world (request_count (Delegates.self st))) st))) = true) as ->.
  { unfold Delegates.periodic_checkpoint. destruct (_ >? _)%Z; [|exact Hw].
    cbn. exact Hw. }
  eexists. split; [reflexivity|]. cbn. apply periodic_all.
Qed.

(** C3 on the code.  When the client has used up its retries it returns
    [None]; the proposal loop then calls [result.get] on it and the call
    raises [AttributeError] on the first turn: nothing is checkpointed and
    no list is returned.  The delegate loop, on the same service, counts
    fifteen failures, checkpoints at each, and returns its (empty) list. *)
Theorem proposal_loop_raises_on_None :
  Client.make_request_optimized (A := page Data.proposal) (fun _ => Client.Timeout)
  = None
  /\ (forall fuel,
        Proposals.get_all_proposals_optimized Scenario.unreachable (S fuel)
          (init fresh_store false)
        = Some (Py.Raise Py.AttributeError))
  /\ exists f',
       Delegates.get_all_delegates_optimized Scenario.unreachable 15
         (init fresh_store false)
       = Some (Delegates.FailureBound, [], f')
       /\ checkpoint_file (store f') = Some default_checkpoint.
Proof.
  split; [reflexivity|]. split; [intros fuel; reflexivity|].
  eexists. split; [vm_compute; reflexivity | reflexivity].
Qed.

End TerminalFailure.

(** ** A cursor that comes back unchanged *)

Section RepeatedCursor.
Import Data Checkpoint Fetcher.

Lemma same_cursor_refl (c : option string) : same_cursor c c = true.
Proof. destruct c; [apply String.eqb_refl | reflexivity]. Qed.

Lemma delegates_stop_on_repeated_cursor
    (world : env (page delegate)) (st : Delegates.state)
    (delegates_data : page delegate) (fuel : nat) :
  Scenario.answer world st = Some delegates_data ->
  nodes delegates_data <> [] ->
  lastCursor delegates_data = Delegates.after_cursor st ->
  Delegates.consecutive_failures st < Delegates.max_consecutive_failures ->
  exists st',
    Delegates.while world (S fuel) st = Some (Delegates.ReachedEnd, st')
    /\ Delegates.all_delegates st'
       = Delegates.merge_page (Delegates.all_delegates st) (nodes delegates_data)
    /\ Delegates.consecutive_failures st' = 0
    /\ request_count (Delegates.self st') = S (request_count (Delegates.self st)).
Proof.
  intros Ha Hn Hc Hf.
  destruct (loop_body_page world st delegates_data Ha Hn)
    as (st' & Hb & Hall & _ & Hcf & Hrc).
  rewrite Hc, same_cursor_refl, orb_true_r in Hb.
  exists st'. cbn [Delegates.while].
  apply Nat.ltb_lt in Hf. rewrite Hf, Hb. auto.
Qed.

Lemma proposals_stop_on_repeated_cursor
    (world : env (page proposal)) (st : Proposals.state)
    (proposals_data : page proposal) (fuel : nat) :
  payload (api world (request_count (Proposals.self st))
               (page_input (Proposals.after_cursor st))) = Some proposals_data ->
  nodes proposals_data <> [] ->
  lastCursor proposals_data = Proposals.after_cursor st ->
  Py.truthy_opt (Proposals.after_cursor st) = true ->
  Proposals.page_count st < Proposals.max_pages ->
  Proposals.consecutive_failures st < Proposals.max_failures ->
  exists st',
    Proposals.while world (S fuel) st = Some (Py.Ok (Proposals.CursorStuck, st'))
    /\ Proposals.all_proposals st'
       = Proposals.all_proposals st
         ++ List.filter Proposals.validate_proposal_data_improved
                        (nodes proposals_data)
    /\ Proposals.consecutive_failures st' = 0
    /\ request_count (Proposals.self st') = S (request_count (Proposals.self st)).
Proof.
  intros Ha Hn Hc Ht Hp Hf.
  cbn [Proposals.while]. apply Nat.ltb_lt in Hp, Hf. rewrite Hp, Hf. cbn [andb].
  unfold Proposals.loop_body. cbv zeta.
  unfold payload in Ha.
  destruct (api world _ _) as [b|]; [|discriminate].
  cbn [Proposals.get_data Py.bind]. rewrite Ha.
  destruct (nodes proposals_data) as [|p batch]; [congruence|].
  rewrite Hc, Ht, same_cursor_refl. cbn [negb].
  eexists. split; [reflexivity|]. auto.
Qed.

Lemma votes_stop_on_repeated_cursor
    (world : env (page vote)) (proposal_id : string) (expected : option Z)
    (st : Votes.state) (votes_data : page vote) (fuel : nat) :
  payload (api world (request_count (Votes.self st))
               (page_input (Votes.after_cursor st))) = Some votes_data ->
  nodes votes_data <> [] ->
  lastCursor votes_data = Votes.after_cursor st ->
  match expected with
  | None => True
  | Some expected_total =>
      (expected_total
       <= Z.of_nat (List.length
                      (Votes.all_votes st
                       ++ List.filter Normalizer.validate_vote_data
                                      (nodes votes_data))))%Z
  end ->
  Votes.page_count st < Votes.max_vote_pages ->
  Votes.consecutive_failures st < Votes.max_failures ->
  exists st',
    Votes.while world proposal_id expected (S fuel) st
    = Some (Votes.ReachedEnd, st')
    /\ Votes.all_votes st'
       = Votes.all_votes st
         ++ List.filter Normalizer.validate_vote_data (nodes votes_data)
    /\ Votes.consecutive_failures st' = 0.
Proof.
  intros Ha Hn Hc He Hp Hf.
  cbn [Votes.while]. apply Nat.ltb_lt in Hp, Hf. rewrite Hp, Hf. cbn [andb].
  unfold Votes.loop_body. cbv zeta. rewrite Ha.
  destruct (nodes votes_data) as [|v batch]; [congruence|].
  rewrite Hc, same_cursor_refl, orb_true_r.
  destruct expected as [expected_total|].
  - apply Z.leb_le in He. rewrite He. eexists. split; [reflexivity|]. auto.
  - eexists. split; [reflexivity|]. auto.
Qed.

(** The one place where a repeated cursor is retried: the vote loop with
    an expected total that is not reached yet.  The turn ends with the
    page appended, one failure counted, and the same cursor to ask
    again. *)
Lemma votes_retry_on_repeated_cursor
    (world : env (page vote)) (proposal_id : string) (expected_total : Z)
    (st : Votes.state) (votes_data : page vote) :
  payload (api world (request_count (Votes.self st))
               (page_input (Votes.after_cursor st))) = Some votes_data ->
  nodes votes_data <> [] ->
  lastCursor votes_data = Votes.after_cursor st ->
  (Z.of_nat (List.length
               (Votes.all_votes st
                ++ List.filter Normalizer.validate_vote_data (nodes votes_data)))
   < expected_total)%Z ->
  exists st',
    Votes.loop_body world proposal_id (Some expected_total) st = Votes.Continue st'
    /\ Votes.all_votes st'
       = Votes.all_votes st
         ++ List.filter Normalizer.validate_vote_data (nodes votes_data)
    /\ Votes.after_cursor st' = Votes.after_cursor st
    /\ Votes.page_count st' = S (Votes.page_count st)
    /\ Votes.consecutive_failures st' = 1.
Proof.
  intros Ha Hn Hc He.
  unfold Votes.loop_body. cbv zeta. rewrite Ha.
  destruct (nodes votes_data) as [|v batch]; [congruence|].
  rewrite Hc, same_cursor_refl, orb_true_r.
  apply Z.leb_gt in He. rewrite He.
  eexists. split; [reflexivity|]. auto.
Qed.

(** C2, as the code has it.  When a non-empty page comes back with the very
    cursor it was asked with, no paginator loops on: the delegate loop
    leaves at once through its end-of-pagination exit, the proposal loop
    through its cursor-did-not-advance exit, and the vote loop through its
    end exit when no total is expected or the expected total is reached.
    The page is merged, the failure counter is at zero, and the turn made
    one request; no retry takes place. *)
Theorem repeated_cursor_ends_pagination :
  (forall (world : env (page delegate)) st delegates_data fuel,
      Scenario.answer world st = Some delegates_data ->
      nodes delegates_data <> [] ->
      lastCursor delegates_data = Delegates.after_cursor st ->
      Delegates.consecutive_failures st < Delegates.max_consecutive_failures ->
      exists st',
        Delegates.while world (S fuel) st = Some (Delegates.ReachedEnd, st')
        /\ Delegates.all_delegates st'
           = Delegates.merge_page (Delegates.all_delegates st) (nodes delegates_data)
        /\ Delegates.consecutive_failures st' = 0
        /\ request_count (Delegates.self st') = S (request_count (Delegates.self st)))
  /\ (forall (world : env (page proposal)) st proposals_data fuel,
        payload (api world (request_count (Proposals.self st))
                     (page_input (Proposals.after_cursor st))) = Some proposals_data ->
        nodes proposals_data <> [] ->
        lastCursor proposals_data = Proposals.after_cursor st ->
        Py.truthy_opt (Proposals.after_cursor st) = true ->
        Proposals.page_count st < Proposals.max_pages ->
        Proposals.consecutive_failures st < Proposals.max_failures ->
        exists st',
          Proposals.while world (S fuel) st
          = Some (Py.Ok (Proposals.CursorStuck, st'))
          /\ Proposals.all_proposals st'
             = Proposals.all_proposals st
               ++ List.filter Proposals.validate_proposal_data_improved
                              (nodes proposals_data)
          /\ Proposals.consecutive_failures st' = 0
          /\ request_count (Proposals.self st')
             = S (request_count (Proposals.self st)))
  /\ (forall (world : env (page vote)) proposal_id expected st votes_data fuel,
        payload (api world (request_count (Votes.self st))
                     (page_input (Votes.after_cursor st))) = Some votes_data ->
        nodes votes_data <> [] ->
        lastCursor votes_data = Votes.after_cursor st ->
        match expected with
        | None => True
        | Some expected_total =>
            (expected_total
             <= Z.of_nat (List.length
                            (Votes.all_votes st
                             ++ List.filter Normalizer.validate_vote_data
                                            (nodes votes_data))))%Z
        end ->
        Votes.page_count st < Votes.max_vote_pages ->
        Votes.consecutive_failures st < Votes.max_failures ->
        exists st',
          Votes.while world proposal_id expected (S fuel) st
          = Some (Votes.ReachedEnd, st')
          /\ Votes.all_votes st'
             = Votes.all_votes st
               ++ List.filter Normalizer.validate_vote_data (nodes votes_data)
          /\ Votes.consecutive_failures st' = 0).
Proof.
  split; [exact delegates_stop_on_repeated_cursor|].
  split; [exact proposals_stop_on_repeated_cursor|].
  exact votes_stop_on_repeated_cursor.
Qed.

Lemma repeated_cursor_ends_pagination_witness :
  exists st',
    Delegates.while Scenario.repeated_cursor 1 Scenario.after_first_page
    = Some (Delegates.ReachedEnd, st')
    /\ Delegates.all_delegates st'
       = Delegates.merge_page
           (Delegates.all_delegates Scenario.after_first_page)
           [Scenario.a_delegate (Some "0xB2")]
    /\ Delegates.consecutive_failures st' = 0
    /\ request_count (Delegates.self st')
       = S (request_count (Delegates.self Scenario.after_first_page)).
Proof.
  apply (proj1 repeated_cursor_ends_pagination
           Scenario.repeated_cursor Scenario.after_first_page
           {| nodes := [Scenario.a_delegate (Some "0xB2")];
              lastCursor := Some "c1" |} 0).
  - reflexivity.
  - discriminate.
  - reflexivity.
  - vm_compute. lia.
Defined.

(** C2 as stated fails: the second page returns the cursor of the first,
    and the delegate loop stops there through its end-of-pagination
    exit, after two requests and no retry; the failure bound is not the
    way out, whatever the fuel. *)
Lemma repeated_cursor_counterexample :
  api Scenario.repeated_cursor 0 None
  = Scenario.served [Scenario.a_delegate (Some "0xA1")] (Some "c1")
  /\ api Scenario.repeated_cursor 1 (Some "c1")
     = Scenario.served [Scenario.a_delegate (Some "0xB2")] (Some "c1")
  /\ (exists f',
        Delegates.get_all_delegates_optimized Scenario.repeated_cursor 2
          (init fresh_store false)
        = Some (Delegates.ReachedEnd,
                [Scenario.a_delegate (Some "0xA1"); Scenario.a_delegate (Some "0xB2")],
                f')
        /\ request_count f' = 2)
  /\ (forall fuel e l f',
        Delegates.get_all_delegates_optimized Scenario.repeated_cursor fuel
          (init fresh_store false) = Some (e, l, f') ->
        e = Delegates.ReachedEnd /\ e <> Delegates.FailureBound).
Proof.
  split; [reflexivity|]. split; [reflexivity|]. split.
  - eexists. split; [vm_compute; reflexivity | reflexivity].
  - intros [|[|fuel]] e l f'; try (vm_compute; discriminate).
    vm_compute. intros [= <- _ _]. split; [reflexivity | discriminate].
Qed.

End RepeatedCursor.

(** ** Delegates: resuming from a checkpoint *)

Section Resume.
Import Data Checkpoint Fetcher Delegates.

Lemma while_fuel_mono world (fuel : nat) :
  forall st r fuel',
    while world fuel st = Some r -> fuel <= fuel' -> while world fuel' st = Some r.
Proof.
  induction fuel as [|fuel IH]; intros st r fuel' H Hle.
  - cbn [while] in H. destruct fuel'; cbn [while];
      destruct (_ <? _)%nat; congruence.
  - destruct fuel' as [|fuel']; [lia|].
    cbn [while] in H |- *. destruct (_ <? _)%nat; [|exact H].
    destruct (loop_body world st) as [st1|e st1]; [|exact H].
    apply IH; [exact H | lia].
Qed.

Lemma turns_while world (k : nat) :
  forall fuel st st_k r,
    Scenario.turns world k st = Some st_k ->
    while world fuel st = Some r ->
    exists fuel', fuel' <= fuel /\ while world fuel' st_k = Some r.
Proof.
  induction k as [|k IH]; intros fuel st st_k r Ht Hw; cbn [Scenario.turns] in Ht.
  - injection Ht as <-. eauto.
  - destruct (_ <? _)%nat eqn:Hc; [|discriminate].
    destruct fuel as [|fuel]; cbn [while] in Hw; rewrite Hc in Hw; [discriminate|].
    destruct (loop_body world st) as [st1|e st1]; [|discriminate].
    destruct (IH fuel st1 st_k r Ht Hw) as (fuel' & Hle & H).
    exists fuel'. split; [lia | exact H].
Qed.

(** The fuel does not change what a run returns. *)
Lemma run_fuel_unique world f (fuel fuel' : nat) r r' :
  get_all_delegates_optimized world fuel f = Some r ->
  get_all_delegates_optimized world fuel' f = Some r' ->
  r = r'.
Proof.
  unfold get_all_delegates_optimized.
  destruct (while world fuel (initial_state world f)) as [[e s]|] eqn:Hw;
    [|discriminate].
  destruct (while world fuel' (initial_state world f)) as [[e' s']|] eqn:Hw';
    [|discriminate].
  apply (while_fuel_mono world fuel _ _ (fuel + fuel')) in Hw; [|lia].
  apply (while_fuel_mono world fuel' _ _ (fuel + fuel')) in Hw'; [|lia].
  rewrite Hw in Hw'. injection Hw' as <- <-. congruence.
Qed.

Section Simulation.
Variable serve : option string -> option (Client.body (page delegate)).
Variables clock clock' : nat -> Z.
Let world := Scenario.deterministic serve clock.
Let world' := Scenario.deterministic serve clock'.

Lemma same_answer st st' :
  after_cursor st = after_cursor st' ->
  Scenario.answer world' st' = Scenario.answer world st.
Proof. unfold Scenario.answer. cbn. intros ->. reflexivity. Qed.

(** A run that leaves through a [break] is followed turn by turn by a run
    that started with the same list and cursor and fewer failures. *)
Lemma while_same_progress (fuel : nat) :
  forall st st' e s1,
    Scenario.same_progress st st' ->
    while world fuel st = Some (e, s1) ->
    e <> FailureBound ->
    exists s1', while world' fuel st' = Some (e, s1')
                /\ all_delegates s1' = all_delegates s1.
Proof.
  induction fuel as [|fuel IH]; intros st st' e s1 (Hall & Hcur & Hcf) Hw He;
    cbn [while] in Hw; destruct (_ <? _)%nat eqn:Hc;
    try discriminate; try (injection Hw as <- <-; congruence).
  apply Nat.ltb_lt in Hc.
  assert ((consecutive_failures st' <? max_consecutive_failures)%nat = true) as Hc'
    by (apply Nat.ltb_lt; lia).
  cbn [while]. rewrite Hc'.
  pose proof (same_answer st st' Hcur) as Hans.
  destruct (Scenario.answer world st) as [delegates_data|] eqn:Ha.
  - destruct (nodes delegates_data) as [|d batch] eqn:Hn.
    + destruct (loop_body_empty world st delegates_data Ha Hn)
        as (t & Hb & Ht1 & Ht2 & Ht3).
      destruct (loop_body_empty world' st' delegates_data Hans Hn)
        as (t' & Hb' & Ht1' & Ht2' & Ht3').
      rewrite <- Hcur in Hb', Ht2'. rewrite Hb in Hw. rewrite Hb'.
      destruct (_ && _).
      * eapply IH; [|exact Hw|exact He].
        repeat split; [congruence | congruence | lia].
      * injection Hw as <- <-. exists t'. split; [reflexivity | congruence].
    + assert (nodes delegates_data <> []) as Hne by congruence.
      destruct (loop_body_page world st delegates_data Ha Hne)
        as (t & Hb & Ht1 & Ht2 & Ht3 & _).
      destruct (loop_body_page world' st' delegates_data Hans Hne)
        as (t' & Hb' & Ht1' & Ht2' & Ht3' & _).
      rewrite <- Hcur in Hb', Ht2'. rewrite Hb in Hw. rewrite Hb'.
      destruct (_ || _).
      * injection Hw as <- <-. exists t'. split; [reflexivity | congruence].
      * eapply IH; [|exact Hw|exact He].
        repeat split; [congruence | congruence | lia].
  - destruct (loop_body_failed world st Ha) as (t & Hb & Ht1 & Ht2 & Ht3).
    destruct (loop_body_failed world' st' Hans) as (t' & Hb' & Ht1' & Ht2' & Ht3').
    rewrite Hb in Hw. rewrite Hb'.
    eapply IH; [|exact Hw|exact He].
    repeat split; [congruence | congruence | lia].
Qed.

End Simulation.

Section Coherence.
Variable world : env (page delegate).

Lemma coherent_periodic t st :
  Scenario.coherent st -> Scenario.coherent (periodic_checkpoint t st).
Proof.
  unfold Scenario.coherent, periodic_checkpoint. intros [Hw Hc].
  destruct (_ >? _)%Z; [|auto].
  cbn. rewrite Hw. split; [reflexivity|].
  destruct (after_cursor st); [exact Hc | exact Hc].
Qed.

Lemma truthy_opt_Some (c : option string) :
  Py.truthy_opt c = true -> exists s, c = Some s /\ Py.truthy_str s = true.
Proof. destruct c as [s|]; [eauto | discriminate]. Qed.

Lemma coherent_step st st' :
  Scenario.coherent st -> loop_body world st = Continue st' -> Scenario.coherent st'.
Proof.
  intros H. apply (coherent_periodic (now world (request_count (self st)))) in H.
  unfold loop_body. cbv zeta.
  set (st_p := periodic_checkpoint _ st) in *.
  destruct H as [Hw Hc]. unfold Scenario.coherent.
  destruct (payload _) as [delegates_data|].
  - destruct (nodes delegates_data) as [|d batch].
    + destruct (Py.truthy_opt (lastCursor delegates_data)) eqn:Ht;
        cbn [andb]; [|discriminate].
      destruct (negb _); [|discriminate].
      intros [= <-]. cbn. split; [exact Hw|].
      apply truthy_opt_Some in Ht as (s & -> & Hs). exact Hs.
    + destruct (Py.truthy_opt (lastCursor delegates_data)) eqn:Ht;
        cbn [negb orb]; [|discriminate].
      destruct (same_cursor _ _); [discriminate|].
      intros [= <-]. cbn. split; [exact Hw|].
      apply truthy_opt_Some in Ht as (s & -> & Hs). exact Hs.
  - intros [= <-]. cbn. rewrite Hw. split; [reflexivity|].
    destruct (after_cursor st_p); [exact Hc | exact Hc].
Qed.

Lemma coherent_turns (k : nat) :
  forall st st_k,
    Scenario.coherent st -> Scenario.turns world k st = Some st_k ->
    Scenario.coherent st_k.
Proof.
  induction k as [|k IH]; intros st st_k H; cbn [Scenario.turns].
  - intros [= <-]. exact H.
  - destruct (_ <? _)%nat; [|discriminate].
    destruct (loop_body world st) as [st1|e st1] eqn:Hb; [|discriminate].
    apply IH. eapply coherent_step; eauto.
Qed.

Lemma coherent_fresh force :
  Scenario.coherent (initial_state world (init fresh_store force)).
Proof. split; reflexivity. Qed.

(** What the restarted process starts from: the list and the cursor of
    the boundary when both are there, nothing otherwise. *)
Lemma restart_initial_state world' st force :
  Scenario.coherent st ->
  let resumed := initial_state world' (Scenario.restart st force) in
  consecutive_failures resumed = 0
  /\ ((all_delegates resumed = all_delegates st
       /\ after_cursor resumed = after_cursor st)
      \/ (all_delegates resumed = [] /\ after_cursor resumed = None)).
Proof.
  intros [Hw Hc] resumed. split; [reflexivity|].
  unfold resumed, initial_state, Scenario.restart, checkpoint_now, save_checkpoint.
  rewrite Hw. cbn.
  destruct (all_delegates st) as [|d l]; [right; split; reflexivity|].
  destruct (after_cursor st) as [c|].
  - cbn. rewrite Hc. cbn. left. split; reflexivity.
  - rewrite Hc. cbn. right. split; reflexivity.
Qed.

End Coherence.

(** C4, as the code has it.  The service answers by the cursor alone.  If
    the uninterrupted run from an empty checkpoint leaves its loop through
    a [break] and returns [l], then stopping it at any page boundary, once
    the checkpoint of that boundary (the list so far and the cursor) is
    written, and running a new process from that file returns the same
    list [l], through the same exit and within the same number of turns,
    and leaves [l] in its checkpoint.  The lists are equal, hence so are
    their sets of lower-cased addresses. *)
Theorem resume_reaches_the_same_list
    (serve : option string -> option (Client.body (page delegate)))
    (clock clock' : nat -> Z) (fuel k : nat) (force force' : bool)
    (st : state) (e : exit) (l : list delegate) (f1 : fetcher) :
  get_all_delegates_optimized (Scenario.deterministic serve clock) fuel
    (init fresh_store force) = Some (e, l, f1) ->
  e <> FailureBound ->
  Scenario.turns (Scenario.deterministic serve clock) k
    (initial_state (Scenario.deterministic serve clock) (init fresh_store force))
  = Some st ->
  exists f2,
    get_all_delegates_optimized (Scenario.deterministic serve clock') fuel
      (Scenario.restart st force') = Some (e, l, f2)
    /\ delegates (checkpoint_data (store f2)) = l.
Proof.
  intros Hrun He Hturns.
  set (world := Scenario.deterministic serve clock) in *.
  set (world' := Scenario.deterministic serve clock').
  unfold get_all_delegates_optimized in Hrun.
  destruct (while world fuel _) as [[e0 s]|] eqn:Hw; [|discriminate].
  cbn [finish] in Hrun. injection Hrun as <- <- _.
  assert (Scenario.coherent st) as Hco
    by (eapply coherent_turns; [apply coherent_fresh | exact Hturns]).
  destruct (restart_initial_state world' st force' Hco) as (Hcf & Hstart).
  assert (exists s', while world' fuel (initial_state world' (Scenario.restart st force'))
                     = Some (e0, s')
                     /\ all_delegates s' = all_delegates s) as (s' & Hw' & Hall).
  { destruct Hstart as [[Ha Hc] | [Ha Hc]].
    - destruct (turns_while world k fuel _ st _ Hturns Hw) as (fuel' & Hle & Hk).
      destruct (while_same_progress serve clock clock' fuel' st
                  (initial_state world' (Scenario.restart st force')) e0 s)
        as (s' & Hs' & Hall); [|exact Hk|exact He|].
      + repeat split; [congruence | congruence | lia].
      + exists s'. split; [|exact Hall].
        eapply while_fuel_mono; [exact Hs' | exact Hle].
    - eapply (while_same_progress serve clock clock'); [|exact Hw|exact He].
      repeat split; [rewrite Ha; reflexivity | rewrite Hc; reflexivity | lia]. }
  unfold get_all_delegates_optimized. rewrite Hw'. cbn [finish].
  rewrite Hall. eexists. split; reflexivity.
Qed.

Lemma resume_reaches_the_same_list_witness :
  exists f2,
    get_all_delegates_optimized
      (Scenario.deterministic Scenario.three_pages Scenario.still_clock) 5
      (Scenario.restart Scenario.first_boundary true)
    = Some (ReachedEnd,
            [Scenario.a_delegate (Some "0xA1"); Scenario.a_delegate (Some "0xB2");
             Scenario.a_delegate (Some "0xC3")],
            f2)
    /\ delegates (checkpoint_data (store f2))
       = [Scenario.a_delegate (Some "0xA1"); Scenario.a_delegate (Some "0xB2");
          Scenario.a_delegate (Some "0xC3")].
Proof.
  eapply (resume_reaches_the_same_list Scenario.three_pages Scenario.still_clock
            Scenario.still_clock 5 1 false true Scenario.first_boundary).
  - vm_compute. reflexivity.
  - discriminate.
  - vm_compute. reflexivity.
Defined.

(** C4 as stated fails.  After the first page the service sends fifteen
    empty pages that each move the cursor, then a last page.  The
    uninterrupted run counts fifteen failures in a row and gives up with
    the first delegate only.  Stopped after eight turns, with the list and
    the cursor c8 checkpointed, and started again from that file, the
    count starts from zero, the run gets through the gap and returns both
    delegates. *)
Lemma resume_counterexample :
  let world := Scenario.deterministic Scenario.long_gap Scenario.still_clock in
  let d1 := Scenario.a_delegate (Some "0xA1") in
  let d2 := Scenario.a_delegate (Some "0xB2") in
  exists st f1 f2,
    get_all_delegates_optimized world 20 (init fresh_store false)
    = Some (FailureBound, [d1], f1)
    /\ (forall fuel e l f,
          get_all_delegates_optimized world fuel (init fresh_store false)
          = Some (e, l, f) -> l = [d1])
    /\ Scenario.turns world 8 (initial_state world (init fresh_store false)) = Some st
    /\ delegates (checkpoint_data (checkpoint_now st)) = [d1]
    /\ last_delegate_cursor (checkpoint_data (checkpoint_now st)) = Some "c8"
    /\ get_all_delegates_optimized world 20 (Scenario.restart st false)
       = Some (ReachedEnd, [d1; d2], f2)
    /\ address_set [d1] <> address_set [d1; d2].
Proof.
  intros world d1 d2. eexists _, _, _.
  split; [vm_compute; reflexivity|].
  split.
  { intros fuel e l f H.
    assert (exists f0, get_all_delegates_optimized world 20 (init fresh_store false)
                       = Some (FailureBound, [d1], f0)) as (f0 & H20)
      by (eexists; vm_compute; reflexivity).
    pose proof (run_fuel_unique world _ _ _ _ _ H H20) as E.
    congruence. }
  split; [vm_compute; reflexivity|].
  split; [reflexivity|]. split; [reflexivity|].
  split; [vm_compute; reflexivity|].
  intros H.
  assert (address_key d2 ∈ address_set [d1; d2]) as Hin
    by (apply in_address_set; right; left; reflexivity).
  rewrite <- H in Hin. apply in_address_set in Hin.
  destruct Hin as [Hin | []]. vm_compute in Hin. discriminate.
Qed.

End Resume.

(** * Further properties of the code *)

(** ** The retry policy of the client *)

Section ClientFacts.
Context {A : Type}.
Implicit Types (transport : nat -> Client.reply A) (d : Client.body A).

Lemma attempt_body_returns_payload attempt (r : Client.reply A) d :
  Client.attempt_body attempt r = Client.Return (Some d) <->
  r = Client.Response 200 (Some d) /\ Client.has_errors d = false.
Proof.
  unfold Client.attempt_body. split.
  - destruct r as [status_code [b|]| | |]; try discriminate.
    + destruct (status_code =? 200)%nat eqn:Hs.
      * apply Nat.eqb_eq in Hs. subst.
        destruct (Client.has_errors b) eqn:He.
        -- destruct (_ =? _)%nat; discriminate.
        -- intros [= <-]. auto.
      * destruct (_ =? 429)%nat; [discriminate|].
        destruct (existsb _ _); discriminate.
    + destruct (status_code =? 200)%nat; [discriminate|].
      destruct (_ =? 429)%nat; [discriminate|].
      destruct (existsb _ _); discriminate.
  - intros [-> He]. cbn. rewrite He. reflexivity.
Qed.

(** X1.  The client hands a payload to its caller exactly when one of its
    three attempts got a 200 reply whose body has no [errors] key, every
    earlier attempt having asked for a retry; the payload is that body.
    A body with errors is never returned. *)
Theorem client_returns_only_clean_payloads transport d :
  Client.make_request_optimized transport = Some d <->
  exists attempt,
    attempt < Client.max_retries
    /\ transport attempt = Client.Response 200 (Some d)
    /\ Client.has_errors d = false
    /\ forall earlier, earlier < attempt ->
         Client.attempt_body earlier (transport earlier) = Client.Continue.
Proof.
  unfold Client.make_request_optimized, Client.max_retries.
  cbn [Client.attempts_from]. split.
  - destruct (Client.attempt_body 0 (transport 0)) as [r0|] eqn:H0.
    { intros ->. apply attempt_body_returns_payload in H0 as [Ht He].
      exists 0. repeat split; [lia | exact Ht | exact He | intros; lia]. }
    destruct (Client.attempt_body 1 (transport 1)) as [r1|] eqn:H1.
    { intros ->. apply attempt_body_returns_payload in H1 as [Ht He].
      exists 1. repeat split; [lia | exact Ht | exact He |].
      intros [|e] Hlt; [exact H0 | lia]. }
    destruct (Client.attempt_body 2 (transport 2)) as [r2|] eqn:H2; [|discriminate].
    intros ->. apply attempt_body_returns_payload in H2 as [Ht He].
    exists 2. repeat split; [lia | exact Ht | exact He |].
    intros [|[|e]] Hlt; [exact H0 | exact H1 | lia].
  - intros (attempt & Hlt & Ht & He & Hearlier).
    assert (Client.attempt_body attempt (transport attempt)
            = Client.Return (Some d)) as Hr
      by (apply attempt_body_returns_payload; auto).
    destruct attempt as [|[|[|attempt]]]; [| | |lia].
    + rewrite Hr. reflexivity.
    + rewrite (Hearlier 0), Hr by lia. reflexivity.
    + rewrite (Hearlier 0), (Hearlier 1), Hr by lia. reflexivity.
Qed.

(** X2.  The client reads at most three replies: two transports that agree
    on attempts 0, 1 and 2 give the same result.  A status other than
    200, 429, 502, 503 and 504 on the first attempt ends the call with
    [None] without a retry, and three timeouts in a row end it with
    [None]. *)
Theorem client_makes_at_most_three_attempts :
  (forall transport transport',
      (forall attempt, attempt < 3 -> transport attempt = transport' attempt) ->
      Client.make_request_optimized transport
      = Client.make_request_optimized transport')
  /\ (forall transport status_code json,
        transport 0 = Client.Response status_code json ->
        ~ In status_code [200; 429; 502; 503; 504] ->
        Client.make_request_optimized transport = None)
  /\ (forall transport,
        (forall attempt, attempt < 3 ->
           In (transport attempt)
              [Client.Timeout; Client.ConnectionError; Client.Unexpected]) ->
        Client.make_request_optimized transport = None).
Proof.
  unfold Client.make_request_optimized, Client.max_retries.
  cbn [Client.attempts_from]. repeat split.
  - intros transport transport' H.
    rewrite <- (H 0), <- (H 1), <- (H 2) by lia. reflexivity.
  - intros transport status_code json -> Hs.
    unfold Client.attempt_body.
    destruct (status_code =? 200)%nat eqn:H200;
      [apply Nat.eqb_eq in H200; subst; exfalso; apply Hs; cbn; auto|].
    destruct (status_code =? 429)%nat eqn:H429;
      [apply Nat.eqb_eq in H429; subst; exfalso; apply Hs; cbn; auto|].
    destruct (existsb _ _) eqn:He; [|reflexivity].
    apply existsb_exists in He as (x & Hx & Heq). apply Nat.eqb_eq in Heq. subst x.
    exfalso. apply Hs. cbn in Hx |- *. tauto.
  - intros transport H.
    assert (forall attempt, attempt < 3 ->
              Client.attempt_body attempt (transport attempt) = Client.Continue) as Hc.
    { intros attempt Hlt. specialize (H attempt Hlt). cbn in H.
      destruct H as [<- | [<- | [<- | []]]]; reflexivity. }
    rewrite (Hc 0), (Hc 1), (Hc 2) by lia. reflexivity.
Qed.

End ClientFacts.

(** ** The checkpoint store *)

Section StoreFacts.
Import Data Checkpoint Fetcher.

Lemma save_keeps_unmarked ds ps cursor cache processed (s : Checkpoint.store) :
  Scenario.not_marked_complete s ->
  Scenario.not_marked_complete (save_checkpoint ds ps cursor cache processed s).
Proof.
  unfold Scenario.not_marked_complete, save_checkpoint. cbn.
  destruct cursor; [discriminate | auto].
Qed.

Lemma delegate_turn_keeps_unmarked world (st : Delegates.state) :
  Scenario.not_marked_complete (store (Delegates.self st)) ->
  match Delegates.loop_body world st with
  | Delegates.Continue st' | Delegates.Break _ st' =>
      Scenario.not_marked_complete (store (Delegates.self st'))
  end.
Proof.
  intros H.
  assert (Scenario.not_marked_complete
            (store (Delegates.self
               (Delegates.periodic_checkpoint
                  (now world (request_count (Delegates.self st))) st)))) as Hp.
  { unfold Delegates.periodic_checkpoint. destruct (_ >? _)%Z; [|exact H].
    cbn. apply save_keeps_unmarked, H. }
  unfold Delegates.loop_body. cbv zeta.
  destruct (payload _) as [delegates_data|].
  - destruct (nodes delegates_data); [destruct (_ && _) | destruct (_ || _)];
      exact Hp.
  - cbn. apply save_keeps_unmarked, Hp.
Qed.

Lemma delegate_while_keeps_unmarked world (fuel : nat) :
  forall st e st',
    Scenario.not_marked_complete (store (Delegates.self st)) ->
    Delegates.while world fuel st = Some (e, st') ->
    Scenario.not_marked_complete (store (Delegates.self st')).
Proof.
  induction fuel as [|fuel IH]; intros st e st' H; cbn [Delegates.while];
    destruct (_ <? _)%nat; try discriminate; try (intros [= <- <-]; exact H).
  pose proof (delegate_turn_keeps_unmarked world st H) as Hb.
  destruct (Delegates.loop_body world st) as [st1|e1 st1].
  - apply IH. exact Hb.
  - intros [= <- <-]. exact Hb.
Qed.

(** X3.  Nothing ever marks the delegates complete.  [save_checkpoint]
    writes [delegates_complete] only to set it to [False], so a checkpoint
    that does not say [True] never comes to say it: not through any save,
    and not through a whole delegate run, however it ends.  A save with a
    cursor leaves the flag at [False]. *)
Theorem delegates_are_never_marked_complete :
  (forall ds ps cursor cache processed s,
      Scenario.not_marked_complete s ->
      Scenario.not_marked_complete (save_checkpoint ds ps cursor cache processed s))
  /\ (forall ds ps c cache processed s,
        delegates_complete
          (checkpoint_data (save_checkpoint ds ps (Some c) cache processed s))
        = Some false)
  /\ (forall world fuel f e l f',
        Scenario.not_marked_complete (store f) ->
        Delegates.get_all_delegates_optimized world fuel f = Some (e, l, f') ->
        Scenario.not_marked_complete (store f')).
Proof.
  split; [exact save_keeps_unmarked|]. split; [reflexivity|].
  intros world fuel f e l f' H. unfold Delegates.get_all_delegates_optimized.
  destruct (Delegates.while world fuel _) as [[e0 st]|] eqn:Hw; [|discriminate].
  cbn [Delegates.finish]. intros [= _ _ <-].
  cbn. apply save_keeps_unmarked.
  eapply delegate_while_keeps_unmarked; [|exact Hw]. exact H.
Qed.

Lemma delegates_are_never_marked_complete_witness :
  Scenario.not_marked_complete
    (save_checkpoint (Some [Scenario.a_delegate (Some "0xA1")]) None (Some "c1")
                     None None fresh_store).
Proof.
  apply (proj1 delegates_are_never_marked_complete). discriminate.
Defined.

End StoreFacts.

(** ** The delegate run as a whole *)

Section DelegateRun.
Import Data Checkpoint Fetcher Delegates.
Variable world : env (page delegate).

Lemma loop_body_failed_requests st :
  Scenario.answer world st = None ->
  exists st', loop_body world st = Continue st'
    /\ all_delegates st' = all_delegates st
    /\ after_cursor st' = after_cursor st
    /\ consecutive_failures st' = S (consecutive_failures st)
    /\ request_count (self st') = S (request_count (self st)).
Proof.
  unfold Scenario.answer, loop_body. cbv zeta. intros H.
  rewrite periodic_cursor, H.
  eexists; split; [reflexivity|].
  cbn [all_delegates after_cursor consecutive_failures self with_store
       count_request request_count].
  rewrite ?periodic_all, ?periodic_cursor, ?periodic_failures, ?periodic_requests.
  auto.
Qed.

Lemma while_only_failures (k : nat) :
  (forall n c, payload (api world n c) = None) ->
  forall st,
    consecutive_failures st + k = max_consecutive_failures ->
    exists st',
      while world k st = Some (FailureBound, st')
      /\ all_delegates st' = all_delegates st
      /\ after_cursor st' = after_cursor st
      /\ request_count (self st') = request_count (self st) + k.
Proof.
  intros Hfail. induction k as [|k IH]; intros st Hk; cbn [while].
  - replace (consecutive_failures st <? max_consecutive_failures)%nat with false
      by (symmetry; apply Nat.ltb_ge; lia).
    exists st. repeat split. lia.
  - replace (consecutive_failures st <? max_consecutive_failures)%nat with true
      by (symmetry; apply Nat.ltb_lt; lia).
    destruct (loop_body_failed_requests st (Hfail _ _))
      as (st1 & -> & Ha & Hc & Hf & Hr).
    destruct (IH st1) as (st' & Hw & Ha' & Hc' & Hr'); [lia|].
    exists st'. split; [exact Hw|]. repeat split; [congruence | congruence | lia].
Qed.

(** X4.  When no request gets an answer, the delegate run gives up after
    exactly fifteen requests: it leaves through the failure bound and
    returns the list it started from (the checkpointed delegates when it
    resumed, none otherwise), which is also what it leaves in the
    checkpoint. *)
Theorem delegates_give_up_after_fifteen_failures (f : fetcher) :
  (forall n c, payload (api world n c) = None) ->
  exists f',
    get_all_delegates_optimized world 15 f
    = Some (FailureBound, all_delegates (initial_state world f), f')
    /\ request_count f' = request_count f + 15
    /\ delegates (checkpoint_data (store f')) = all_delegates (initial_state world f).
Proof.
  intros Hfail. unfold get_all_delegates_optimized.
  destruct (while_only_failures 15 Hfail (initial_state world f))
    as (st' & -> & Ha & _ & Hr); [reflexivity|].
  cbn [finish]. rewrite Ha. eexists. split; [reflexivity|].
  split; [exact Hr | reflexivity].
Qed.

(** A delegate was served when some page of the service carries it. *)
Lemma while_extends (fuel : nat) :
  forall st e st',
    while world fuel st = Some (e, st') ->
    exists added,
      all_delegates st' = all_delegates st ++ added
      /\ Forall (fun d => validate_delegate_data d = true
                          /\ exists n c delegates_data,
                               payload (api world n c) = Some delegates_data
                               /\ In d (nodes delegates_data)) added.
Proof.
  induction fuel as [|fuel IH]; intros st e st'; cbn [while];
    destruct (_ <? _)%nat; try discriminate;
    try (intros [= <- <-]; exists []; rewrite app_nil_r; split; [reflexivity|constructor]).
  pose proof (loop_body_merges world st) as Hm.
  assert (forall s,
            (all_delegates s = all_delegates st
             \/ exists delegates_data,
                  Scenario.answer world st = Some delegates_data
                  /\ all_delegates s
                     = merge_page (all_delegates st) (nodes delegates_data)) ->
            exists added,
              all_delegates s = all_delegates st ++ added
              /\ Forall (fun d => validate_delegate_data d = true
                                  /\ exists n c delegates_data,
                                       payload (api world n c) = Some delegates_data
                                       /\ In d (nodes delegates_data)) added) as Hstep.
  { intros s [-> | (delegates_data & Ha & ->)].
    - exists []. rewrite app_nil_r. split; [reflexivity | constructor].
    - exists (new_delegates (all_delegates st) (nodes delegates_data)).
      split; [reflexivity|]. apply List.Forall_forall. intros d Hd.
      apply in_new_delegates in Hd as (Hin & Hv & _). split; [exact Hv|].
      unfold Scenario.answer in Ha. eauto. }
  destruct (loop_body world st) as [st1|e1 st1].
  - intros Hw. destruct (Hstep st1 Hm) as (added1 & Ha1 & Hf1).
    destruct (IH st1 e st' Hw) as (added2 & Ha2 & Hf2).
    exists (added1 ++ added2). rewrite Ha2, Ha1, app_assoc. split; [reflexivity|].
    apply List.Forall_app. auto.
  - intros [= <- <-]. apply Hstep, Hm.
Qed.

Lemma valid_has_address (d : delegate) :
  validate_delegate_data d = true -> Scenario.has_address d = true.
Proof.
  unfold validate_delegate_data, Scenario.has_address.
  destruct (account d) as [[account_info|]|]; cbn [get value];
    [| discriminate |];
    destruct (Py.truthy_opt _); (reflexivity || discriminate).
Qed.

(** X5.  A delegate run never loses and never invents a delegate: the
    list it returns starts with the list it started from, in the same
    order, and every delegate after that passed
    [validate_delegate_data], so has a non-empty address, and stood on a
    page that the service served. *)
Theorem delegate_run_extends_its_start (fuel : nat) (f : fetcher) e l f' :
  get_all_delegates_optimized world fuel f = Some (e, l, f') ->
  exists added,
    l = all_delegates (initial_state world f) ++ added
    /\ Forall (fun d => validate_delegate_data d = true
                        /\ Scenario.has_address d = true
                        /\ exists n c delegates_data,
                             payload (api world n c) = Some delegates_data
                             /\ In d (nodes delegates_data)) added.
Proof.
  unfold get_all_delegates_optimized.
  destruct (while world fuel _) as [[e0 st]|] eqn:Hw; [|discriminate].
  cbn [finish]. intros [= _ <- _].
  destruct (while_extends fuel _ _ _ Hw) as (added & Ha & Hf).
  exists added. split; [exact Ha|].
  eapply List.Forall_impl; [|exact Hf].
  intros d (Hv & Hs). auto using valid_has_address.
Qed.

End DelegateRun.

Section DelegateRunWitnesses.
Import Data Checkpoint Fetcher Delegates.

Lemma delegates_give_up_after_fifteen_failures_witness :
  exists f',
    get_all_delegates_optimized Scenario.unreachable 15 (init fresh_store false)
    = Some (FailureBound, [], f')
    /\ request_count f' = 15
    /\ delegates (checkpoint_data (store f')) = [].
Proof.
  apply (delegates_give_up_after_fifteen_failures Scenario.unreachable
           (init fresh_store false)).
  intros n c. reflexivity.
Defined.

Lemma delegate_run_extends_its_start_witness :
  exists added,
    [Scenario.a_delegate (Some "0xA1"); Scenario.a_delegate (Some "0xB2")]
    = [] ++ added
    /\ Forall (fun d => validate_delegate_data d = true
                        /\ Scenario.has_address d = true
                        /\ exists n c delegates_data,
                             payload (api Scenario.one_failed_request n c)
                             = Some delegates_data
                             /\ In d (nodes delegates_data)) added.
Proof.
  eapply (delegate_run_extends_its_start Scenario.one_failed_request 3
            (init fresh_store false)).
  vm_compute. reflexivity.
Defined.

End DelegateRunWitnesses.

(** ** The proposal run as a whole *)

Section ProposalRun.
Import Data Checkpoint Fetcher Proposals.
Variable world : env (page proposal).

(** A turn that goes on costs one request and makes the measure
    smaller; a turn never takes back a proposal, and adds validated
    proposals only. *)
Lemma proposal_turn st :
  (page_count st <? max_pages)%nat
  && (consecutive_failures st <? max_failures)%nat = true ->
  match loop_body world st with
  | Py.Raise _ => True
  | Py.Ok (Continue st') =>
      Scenario.proposal_measure st' < Scenario.proposal_measure st
      /\ request_count (self st') = S (request_count (self st))
      /\ page_count st' <= max_pages
      /\ exists added, all_proposals st' = all_proposals st ++ added
                       /\ Forall (fun p => validate_proposal_data_improved p = true) added
  | Py.Ok (Break _ st') =>
      Scenario.proposal_measure st' < Scenario.proposal_measure st
      /\ request_count (self st') = S (request_count (self st))
      /\ page_count st' <= max_pages
      /\ exists added, all_proposals st' = all_proposals st ++ added
                       /\ Forall (fun p => validate_proposal_data_improved p = true) added
  end.
Proof.
  intros Hc. apply andb_true_iff in Hc as [Hp Hf]. apply Nat.ltb_lt in Hp, Hf.
  unfold Scenario.proposal_measure, max_pages, max_failures in *.
  assert (forall l : list proposal, exists added : list proposal,
            l = l ++ added
            /\ Forall (fun p => validate_proposal_data_improved p = true) added) as Hnil
    by (intros l; exists []; rewrite app_nil_r; split; [reflexivity | constructor]).
  assert (forall batch,
            Forall (fun p => validate_proposal_data_improved p = true)
                   (List.filter validate_proposal_data_improved batch)) as Hvalid
    by (intros batch; apply List.Forall_forall; intros p Hin;
        apply filter_In in Hin; tauto).
  unfold loop_body. cbv zeta.
  destruct (api world _ _) as [b|]; cbn [get_data Py.bind]; [|exact I].
  destruct (Client.data b) as [proposals_data|].
  - destruct (nodes proposals_data) as [|p batch].
    + cbn. repeat split; [lia | lia | apply Hnil].
    + destruct (negb _); [|destruct (same_cursor _ _)];
        cbn [all_proposals page_count consecutive_failures self count_request
             request_count];
        repeat split; try lia; eexists; (split; [reflexivity | apply Hvalid]).
  - cbn. repeat split; [lia | lia | apply Hnil].
Qed.

Lemma proposal_while_total (fuel : nat) :
  forall st, Scenario.proposal_measure st < fuel ->
  exists r, while world fuel st = Some r.
Proof.
  induction fuel as [|fuel IH]; intros st Hm; [lia|].
  cbn [while]. destruct (_ && _) eqn:Hc; [|eauto].
  pose proof (proposal_turn st Hc) as Hb.
  destruct (loop_body world st) as [[st'|e st']|e]; eauto.
  apply IH. lia.
Qed.

Lemma proposal_while_results (fuel : nat) :
  forall st e st',
    page_count st <= max_pages ->
    while world fuel st = Some (Py.Ok (e, st')) ->
    request_count (self st') + Scenario.proposal_measure st'
    <= request_count (self st) + Scenario.proposal_measure st
    /\ page_count st' <= max_pages
    /\ exists added, all_proposals st' = all_proposals st ++ added
                     /\ Forall (fun p => validate_proposal_data_improved p = true) added.
Proof.
  induction fuel as [|fuel IH]; intros st e st' Hpc; cbn [while];
    destruct (_ && _) eqn:Hc; try discriminate;
    try (intros [= <- <-]; repeat split; [lia | exact Hpc |];
         exists []; rewrite app_nil_r; split; [reflexivity | constructor]).
  pose proof (proposal_turn st Hc) as Hb.
  destruct (loop_body world st) as [[st1|e1 st1]|e1]; [| |discriminate].
  - destruct Hb as (Hm & Hr & Hp1 & added1 & Ha1 & Hf1). intros Hw.
    apply IH in Hw as (Hm' & Hp' & added2 & Ha2 & Hf2); [|exact Hp1].
    repeat split; [lia | exact Hp' |].
    exists (added1 ++ added2). rewrite Ha2, Ha1, app_assoc.
    split; [reflexivity | apply List.Forall_app; auto].
  - destruct Hb as (Hm & Hr & Hp & Hadd). intros [= <- <-].
    repeat split; [lia | exact Hp | exact Hadd].
Qed.

(** X6.  Fetching the proposals always ends, by returning or by raising,
    within 1111 turns of the loop, whatever the service answers.  When it
    returns after fetching, it has made at most 1110 requests and every
    proposal of the list passed [validate_proposal_data_improved], so has
    a non-empty id; and when its loop ends without raising, the loop has
    read at most 100 pages. *)
Theorem proposal_run_always_ends (f : fetcher) :
  (exists r, get_all_proposals_optimized world Scenario.proposal_fuel f = Some r)
  /\ (forall fuel l f',
        List.length (proposals (checkpoint_data (store f))) < expected_proposals ->
        get_all_proposals_optimized world fuel f = Some (Py.Ok (l, f')) ->
        request_count f' <= request_count f + 1110
        /\ Forall (fun p => validate_proposal_data_improved p = true
                            /\ Py.truthy_str (id p) = true) l)
  /\ (forall fuel e st,
        while world fuel (Scenario.proposal_start f) = Some (Py.Ok (e, st)) ->
        page_count st <= 100
        /\ request_count (self st) <= request_count f + 1110).
Proof.
  split; [|split].
  - unfold get_all_proposals_optimized. destruct (_ <=? _)%nat; [eauto|].
    destruct (proposal_while_total Scenario.proposal_fuel
                {| all_proposals := []; after_cursor := None; page_count := 0;
                   consecutive_failures := 0; self := f |})
      as ([[e st]|e] & ->); [vm_compute; lia | eauto | eauto].
  - intros fuel l f' Hlen. unfold get_all_proposals_optimized.
    replace (expected_proposals <=? _)%nat with false
      by (symmetry; apply Nat.leb_gt; exact Hlen).
    destruct (while world fuel _) as [[[e st]|e]|] eqn:Hw; try discriminate.
    intros [= <- <-].
    apply proposal_while_results in Hw as (Hm & _ & added & Ha & Hf); [|cbn; lia].
    cbn [self with_store request_count] in *. split.
    + unfold Scenario.proposal_measure in Hm. cbn in Hm. lia.
    + rewrite Ha. cbn. eapply List.Forall_impl; [|exact Hf].
      intros p Hv. split; [exact Hv|].
      unfold validate_proposal_data_improved in Hv.
      destruct (Py.truthy_str (id p)); [reflexivity | discriminate].
  - intros fuel e st Hw.
    apply proposal_while_results in Hw as (Hm & Hp & _); [|cbn; lia].
    split; [exact Hp|].
    unfold Scenario.proposal_measure in Hm. cbn in Hm. lia.
Qed.

End ProposalRun.

Section ProposalRunEmpty.
Import Data Checkpoint Fetcher Proposals.
Variable world : env (page proposal).
Hypothesis nothing : Scenario.no_proposals_served world.

Lemma proposal_turn_without_proposals st :
  exists st',
    loop_body world st = Py.Ok (Continue st')
    /\ all_proposals st' = all_proposals st
    /\ after_cursor st' = after_cursor st
    /\ page_count st' = page_count st
    /\ consecutive_failures st' = S (consecutive_failures st)
    /\ request_count (self st') = S (request_count (self st))
    /\ store (self st') = store (self st).
Proof.
  unfold loop_body. cbv zeta.
  destruct (nothing (request_count (self st)) (page_input (after_cursor st)))
    as (b & -> & Hb).
  cbn [get_data Py.bind].
  destruct (Client.data b) as [proposals_data|].
  - rewrite Hb. eexists. split; [reflexivity|]. repeat split.
  - eexists. split; [reflexivity|]. repeat split.
Qed.

Lemma proposal_while_without_proposals (k : nat) :
  forall st,
    page_count st < max_pages ->
    consecutive_failures st + k = max_failures ->
    exists st',
      while world k st = Some (Py.Ok (LoopBound, st'))
      /\ all_proposals st' = all_proposals st
      /\ after_cursor st' = after_cursor st
      /\ request_count (self st') = request_count (self st) + k
      /\ store (self st') = store (self st)
      /\ Scenario.proposal_cursors world k st
         = List.repeat (page_input (after_cursor st)) k.
Proof.
  induction k as [|k IH]; intros st Hp Hk; cbn [while Scenario.proposal_cursors].
  - replace (consecutive_failures st <? max_failures)%nat with false
      by (symmetry; apply Nat.ltb_ge; lia).
    rewrite andb_false_r. exists st. repeat split. lia.
  - replace (consecutive_failures st <? max_failures)%nat with true
      by (symmetry; apply Nat.ltb_lt; lia).
    replace (page_count st <? max_pages)%nat with true
      by (symmetry; apply Nat.ltb_lt; lia).
    cbn [andb].
    destruct (proposal_turn_without_proposals st)
      as (st1 & -> & Ha & Hc & Hpc & Hf & Hr & Hs).
    destruct (IH st1) as (st' & Hw & Ha' & Hc' & Hr' & Hs' & Hq'); [lia | lia |].
    exists st'. split; [exact Hw|].
    repeat split; [congruence | congruence | lia | congruence |].
    cbn [List.repeat]. rewrite Hq', Hc. reflexivity.
Qed.

(** X7.  When the service answers every proposals request but never has
    a proposal (no data, or an empty page), a fetcher with fewer than 37
    cached proposals asks ten times, every time without a cursor (the
    cursor of an empty page is not taken up), an empty page counting as a
    failure, and returns the empty list; the cached proposals are not
    returned, and the checkpoint's proposals are replaced by the empty
    list. *)
Theorem proposal_run_without_proposals (f : fetcher) :
  List.length (proposals (checkpoint_data (store f))) < expected_proposals ->
  exists f',
    get_all_proposals_optimized world 10 f = Some (Py.Ok ([], f'))
    /\ request_count f' = request_count f + 10
    /\ Scenario.proposal_cursors world 10 (Scenario.proposal_start f)
       = List.repeat None 10
    /\ proposals (checkpoint_data (store f')) = []
    /\ (writable (store f) = true ->
        exists c, checkpoint_file (store f') = Some c /\ proposals c = []).
Proof.
  intros Hlen. unfold get_all_proposals_optimized.
  replace (expected_proposals <=? _)%nat with false
    by (symmetry; apply Nat.leb_gt; exact Hlen).
  destruct (proposal_while_without_proposals 10
              {| all_proposals := []; after_cursor := None; page_count := 0;
                 consecutive_failures := 0; self := f |})
    as (st' & -> & Ha & _ & Hr & Hs & Hq);
    [cbn; unfold max_pages; lia | reflexivity |].
  cbn in Ha, Hr, Hs. rewrite Ha. eexists. split; [reflexivity|].
  split; [exact Hr|]. split; [exact Hq|]. split; [reflexivity|].
  intros Hw. cbn. rewrite Hs, Hw. eexists. split; reflexivity.
Qed.

End ProposalRunEmpty.

Section ProposalRunWitnesses.
Import Data Checkpoint Fetcher Proposals.

Lemma empty_pages_serve_no_proposal :
  Scenario.no_proposals_served Scenario.empty_proposal_pages.
Proof. intros n c. eexists. split; reflexivity. Qed.

Lemma proposal_run_without_proposals_witness :
  exists f',
    get_all_proposals_optimized Scenario.empty_proposal_pages 10
      (init (store_of
               {| delegates := []; proposals := [Scenario.a_proposal "1"];
                  last_delegate_cursor := None; votes_cache := ∅;
                  processed_proposals := []; delegates_complete := None |}) false)
    = Some (Py.Ok ([], f'))
    /\ request_count f' = 0 + 10
    /\ Scenario.proposal_cursors Scenario.empty_proposal_pages 10
         (Scenario.proposal_start
            (init (store_of
                     {| delegates := []; proposals := [Scenario.a_proposal "1"];
                        last_delegate_cursor := None; votes_cache := ∅;
                        processed_proposals := []; delegates_complete := None |})
                  false))
       = List.repeat None 10
    /\ proposals (checkpoint_data (store f')) = []
    /\ (true = true ->
        exists c, checkpoint_file (store f') = Some c /\ proposals c = []).
Proof.
  apply (proposal_run_without_proposals Scenario.empty_proposal_pages
           empty_pages_serve_no_proposal).
  cbn. unfold expected_proposals. lia.
Defined.

Lemma proposal_run_always_ends_witness :
  exists l f',
    get_all_proposals_optimized Scenario.one_proposal_page 3 (init fresh_store false)
    = Some (Py.Ok (l, f'))
    /\ request_count f' <= request_count (init fresh_store false) + 1110
    /\ Forall (fun p => validate_proposal_data_improved p = true
                        /\ Py.truthy_str (id p) = true) l.
Proof.
  eexists _, _. split; [vm_compute; reflexivity|].
  apply (proj1 (proj2 (proposal_run_always_ends Scenario.one_proposal_page
                         (init fresh_store false))) 3).
  - cbn. unfold expected_proposals. lia.
  - vm_compute. reflexivity.
Defined.

End ProposalRunWitnesses.

(** ** The vote fetch as a whole *)

Section VoteRun.
Import Data Checkpoint Fetcher Votes.
Variable world : env (page vote).
Variable proposal_id : string.
Variable expected : option Z.

Lemma alias_extend_fields is_live votes f :
  force_refresh_votes (alias_extend proposal_id is_live votes f) = force_refresh_votes f
  /\ vote_batch_size (alias_extend proposal_id is_live votes f) = vote_batch_size f.
Proof. destruct is_live; split; reflexivity. Qed.

Lemma vote_turn st :
  match loop_body world proposal_id expected st with
  | Continue st' | Break _ st' => Scenario.vote_turn_keeps st st'
  end.
Proof.
  assert (forall l : list vote, exists added : list vote,
            l = l ++ added
            /\ Forall (fun v => Normalizer.validate_vote_data v = true) added) as Hnil
    by (intros l; exists []; rewrite app_nil_r; split; [reflexivity | constructor]).
  assert (forall batch,
            Forall (fun v => Normalizer.validate_vote_data v = true)
                   (List.filter Normalizer.validate_vote_data batch)) as Hvalid
    by (intros batch; apply List.Forall_forall; intros v Hin;
        apply filter_In in Hin; tauto).
  unfold loop_body, Scenario.vote_turn_keeps. cbv zeta.
  destruct (payload _) as [votes_data|].
  - destruct (nodes votes_data) as [|v batch] eqn:Hn.
    + destruct (_ && _); cbn; (split; [reflexivity|]);
        (split; [apply Hnil | intros; lia]).
    + rewrite <- Hn.
      set (valid := List.filter Normalizer.validate_vote_data (nodes votes_data)).
      set (f2 := alias_extend proposal_id (live st) (all_votes st ++ valid)
                   (count_request (self st))).
      destruct (alias_extend_fields (live st) (all_votes st ++ valid)
                  (count_request (self st))) as [Hforce Hsize].
      fold f2 in Hforce, Hsize.
      assert (force_refresh_votes
                (if (now world (S (request_count (self st))) - last_save_time st >? 60)%Z
                 then save_vote_cursor proposal_id (after_cursor st)
                        (cache_votes proposal_id (all_votes st ++ valid) f2)
                 else f2) = force_refresh_votes (self st)
              /\ vote_batch_size
                   (if (now world (S (request_count (self st))) - last_save_time st >? 60)%Z
                    then save_vote_cursor proposal_id (after_cursor st)
                           (cache_votes proposal_id (all_votes st ++ valid) f2)
                    else f2) = vote_batch_size (self st)) as [H3f H3s]
        by (destruct (_ >? _)%Z; cbn; rewrite ?Hforce, ?Hsize; split; reflexivity).
      assert (exists added, all_votes st ++ valid = all_votes st ++ added
                /\ Forall (fun v => Normalizer.validate_vote_data v = true) added)
        as Hadd by (exists valid; split; [reflexivity | apply Hvalid]).
      destruct (_ || _).
      * destruct expected as [expected_total|];
          [destruct (_ <=? _)%Z|];
          cbn [self all_votes]; (split; [exact H3f|]); (split; [exact Hadd|]);
          rewrite H3s; intros; lia.
      * cbn [self all_votes save_vote_cursor with_vote_checkpoint_file
             force_refresh_votes vote_batch_size].
        split; [exact H3f|]. split; [exact Hadd|]. rewrite H3s. intros; lia.
  - cbn [self all_votes]. split; [|split; [apply Hnil|]].
    + destruct (_ =? _)%nat; reflexivity.
    + intros H100.
      assert (vote_batch_size (self st) / 2 <= vote_batch_size (self st)) as Hhalf
        by (apply Nat.Div0.div_le_upper_bound; lia).
      destruct (_ =? _)%nat;
        cbn [self with_vote_batch_size vote_batch_size save_vote_cursor
             with_vote_checkpoint_file cache_votes with_store count_request];
        lia.
Qed.

Lemma vote_while_keeps (fuel : nat) :
  forall st e st',
    while world proposal_id expected fuel st = Some (e, st') ->
    Scenario.vote_turn_keeps st st'.
Proof.
  assert (forall st, Scenario.vote_turn_keeps st st) as Hrefl.
  { intros st. split; [reflexivity|]. split; [|intros; lia].
    exists []. rewrite app_nil_r. split; [reflexivity | constructor]. }
  induction fuel as [|fuel IH]; intros st e st'; cbn [while];
    destruct (_ && _); try discriminate; try (intros [= <- <-]; apply Hrefl).
  pose proof (vote_turn st) as Hb.
  destruct (loop_body world proposal_id expected st) as [st1|e1 st1].
  - intros Hw. apply IH in Hw.
    destruct Hb as (Hf1 & (a1 & Ha1 & Hv1) & Hs1).
    destruct Hw as (Hf2 & (a2 & Ha2 & Hv2) & Hs2).
    split; [congruence|]. split.
    + exists (a1 ++ a2). rewrite Ha2, Ha1, app_assoc.
      split; [reflexivity | apply List.Forall_app; auto].
    + intros H. specialize (Hs1 H). specialize (Hs2 ltac:(lia)). lia.
  - intros [= <- <-]. exact Hb.
Qed.

End VoteRun.

Section VoteFetch.
Import Data Checkpoint Fetcher Votes.
Variable world : env (page vote).
Variable proposal_id : string.
Variable expected : option Z.

Lemma valid_vote_has_voter (v : vote) :
  Normalizer.validate_vote_data v = true -> Scenario.has_voter_address v = true.
Proof.
  unfold Normalizer.validate_vote_data, Scenario.has_voter_address.
  destruct (voter v) as [w|]; [|discriminate].
  destruct (Py.truthy_opt (voter_address w)); [reflexivity | discriminate].
Qed.

(** X8.  Fetching the votes of a proposal always ends, whatever the
    service answers: every turn of the loop adds a page, of which there
    are at most 100000, or a failure, of which fewer than 50 follow each
    other, so 5100051 turns are always enough. *)
Theorem vote_fetch_always_ends (f : fetcher) :
  exists votes f',
    get_votes_for_proposal_high_volume world proposal_id expected
      Scenario.vote_fuel f = Some (votes, f').
Proof. apply get_votes_total. Qed.

Lemma vote_fetch_result (fuel : nat) (f : fetcher) votes f' :
  (if force_refresh_votes f then None
   else votes_cache (checkpoint_data (store f)) !! proposal_id) = None ->
  get_votes_for_proposal_high_volume world proposal_id expected fuel f
  = Some (votes, f') ->
  Forall (fun v => Normalizer.validate_vote_data v = true
                   /\ Scenario.has_voter_address v = true) votes
  /\ (votes <> [] ->
      votes_cache (checkpoint_data (store f')) !! proposal_id = Some votes)
  /\ force_refresh_votes f' = force_refresh_votes f
  /\ (100 <= vote_batch_size f ->
      100 <= vote_batch_size f' <= vote_batch_size f).
Proof.
  intros Hmiss. unfold get_votes_for_proposal_high_volume. rewrite Hmiss.
  destruct (while _ _ _ _ _) as [[e st]|] eqn:Hw; [|discriminate].
  apply vote_while_keeps in Hw as (Hforce & (added & Ha & Hv) & Hsize).
  cbn [all_votes self app] in Ha, Hforce, Hsize. subst added.
  unfold finish. destruct (all_votes st) as [|v l] eqn:Hall.
  - intros [= <- <-]. split; [constructor|]. split; [congruence|]. auto.
  - intros [= <- <-]. split.
    + eapply List.Forall_impl; [|exact Hv]. auto using valid_vote_has_voter.
    + split; [|split; [exact Hforce | exact Hsize]].
      intros _. cbn. rewrite lookup_insert_eq. reflexivity.
Qed.

(** X9.  When the votes of a proposal are not taken from the cache, every
    vote returned passed [validate_vote_data], so has a voter address; a
    non-empty result is stored in the cache under the proposal id; the
    force-refresh flag is as before; and the batch size, when it was at
    least 100, is still at least 100 and no larger than before. *)
Theorem fetched_votes_are_valid_and_cached (fuel : nat) (f : fetcher) votes f' :
  (if force_refresh_votes f then None
   else votes_cache (checkpoint_data (store f)) !! proposal_id) = None ->
  get_votes_for_proposal_high_volume world proposal_id expected fuel f
  = Some (votes, f') ->
  Forall (fun v => Normalizer.validate_vote_data v = true
                   /\ Scenario.has_voter_address v = true) votes
  /\ (votes <> [] ->
      votes_cache (checkpoint_data (store f')) !! proposal_id = Some votes)
  /\ force_refresh_votes f' = force_refresh_votes f
  /\ (100 <= vote_batch_size f ->
      100 <= vote_batch_size f' <= vote_batch_size f).
Proof. apply vote_fetch_result. Qed.

(** X10.  Once the votes of a proposal were fetched and some were found,
    asking again without force-refresh returns the same list from the
    cache, whatever the service would answer now: no request is made and
    nothing of the fetcher changes. *)
Theorem second_vote_fetch_comes_from_cache (fuel : nat) (f : fetcher) votes f' :
  force_refresh_votes f = false ->
  votes <> [] ->
  get_votes_for_proposal_high_volume world proposal_id expected fuel f
  = Some (votes, f') ->
  forall world' expected' fuel',
    get_votes_for_proposal_high_volume world' proposal_id expected' fuel' f'
    = Some (votes, f').
Proof.
  intros Hforce Hne Hget world' expected' fuel'.
  assert (force_refresh_votes f' = false
          /\ votes_cache (checkpoint_data (store f')) !! proposal_id = Some votes)
    as [Hf' Hc'].
  { destruct (votes_cache (checkpoint_data (store f)) !! proposal_id)
      as [cached|] eqn:Hc.
    - unfold get_votes_for_proposal_high_volume in Hget.
      rewrite Hforce, Hc in Hget. injection Hget as <- <-. auto.
    - destruct (vote_fetch_result fuel f votes f')
        as (_ & Hcache & Hf & _); [rewrite Hforce; exact Hc | exact Hget |].
      split; [congruence | apply Hcache, Hne]. }
  unfold get_votes_for_proposal_high_volume. rewrite Hf', Hc'. reflexivity.
Qed.

End VoteFetch.

Section VoteFetchWitnesses.
Import Data Checkpoint Fetcher Votes.

Lemma fetched_votes_are_valid_and_cached_witness :
  exists votes f',
    get_votes_for_proposal_high_volume Scenario.one_vote_page "7" None 3
      (init fresh_store false) = Some (votes, f')
    /\ Forall (fun v => Normalizer.validate_vote_data v = true
                        /\ Scenario.has_voter_address v = true) votes
    /\ (votes <> [] ->
        votes_cache (checkpoint_data (store f')) !! "7" = Some votes)
    /\ force_refresh_votes f' = false
    /\ (100 <= 5000 -> 100 <= vote_batch_size f' <= 5000).
Proof.
  eexists _, _. split; [vm_compute; reflexivity|].
  apply (fetched_votes_are_valid_and_cached Scenario.one_vote_page "7" None 3
           (init fresh_store false)).
  - reflexivity.
  - vm_compute. reflexivity.
Defined.

Lemma second_vote_fetch_comes_from_cache_witness :
  exists votes f',
    votes = [Scenario.a_vote "for" "12" "" "0xfeed"]
    /\ forall world' expected' fuel',
         get_votes_for_proposal_high_volume world' "7" expected' fuel' f'
         = Some (votes, f').
Proof.
  eexists _, _. split; [reflexivity|].
  apply (second_vote_fetch_comes_from_cache Scenario.one_vote_page "7" None 3
           (init fresh_store false)).
  - reflexivity.
  - discriminate.
  - vm_compute. reflexivity.
Defined.

End VoteFetchWitnesses.

(** ** The vote loop on a cursor that does not move *)

Section VoteRetry.
Import Data Checkpoint Fetcher Votes.

Lemma vote_turn_appends_page
    (world : env (page vote)) (proposal_id : string) (expected : option Z)
    (st : state) (votes_data : page vote) :
  payload (api world (request_count (self st)) (page_input (after_cursor st)))
  = Some votes_data ->
  nodes votes_data <> [] ->
  match loop_body world proposal_id expected st with
  | Continue st' | Break _ st' =>
      all_votes st'
      = all_votes st ++ List.filter Normalizer.validate_vote_data (nodes votes_data)
  end.
Proof.
  intros Ha Hn. unfold loop_body. cbv zeta. rewrite Ha.
  destruct (nodes votes_data) as [|v batch]; [congruence|].
  destruct (_ || _); [|reflexivity].
  destruct expected as [expected_total|]; [|reflexivity].
  destruct (_ <=? _)%Z; reflexivity.
Qed.

(** X11.  The vote loop retries a cursor that did not move when the
    expected total is not reached, and it keeps what the page brought:
    against a service that answers by the cursor alone, the next turn asks
    the same cursor, gets the same page and appends its votes a second
    time, so the list then holds every valid vote of that page twice. *)
Theorem vote_retry_appends_the_page_again
    (serve : option string -> option (Client.body (page vote)))
    (clock : nat -> Z) (proposal_id : string) (expected_total : Z)
    (st : state) (votes_data : page vote) :
  let world := {| now := clock; api := fun _ c => serve c |} in
  let valid := List.filter Normalizer.validate_vote_data (nodes votes_data) in
  payload (serve (page_input (after_cursor st))) = Some votes_data ->
  nodes votes_data <> [] ->
  lastCursor votes_data = after_cursor st ->
  (Z.of_nat (List.length (all_votes st ++ valid)) < expected_total)%Z ->
  exists st1,
    loop_body world proposal_id (Some expected_total) st = Continue st1
    /\ after_cursor st1 = after_cursor st
    /\ all_votes st1 = all_votes st ++ valid
    /\ match loop_body world proposal_id (Some expected_total) st1 with
       | Continue st2 | Break _ st2 => all_votes st2 = all_votes st ++ valid ++ valid
       end.
Proof.
  intros world valid Ha Hn Hc He.
  destruct (votes_retry_on_repeated_cursor world proposal_id expected_total st
              votes_data Ha Hn Hc He) as (st1 & Hb & Hall & Hcur & _).
  exists st1. split; [exact Hb|]. split; [exact Hcur|]. split; [exact Hall|].
  assert (payload (api world (request_count (self st1))
                       (page_input (after_cursor st1))) = Some votes_data) as Ha1
    by (cbn; rewrite Hcur; exact Ha).
  pose proof (vote_turn_appends_page world proposal_id (Some expected_total) st1
                votes_data Ha1 Hn) as H2.
  destruct (loop_body world proposal_id (Some expected_total) st1);
    rewrite H2, Hall, <- app_assoc; reflexivity.
Qed.

Lemma vote_retry_appends_the_page_again_witness :
  let st := {| all_votes := []; after_cursor := None; page_count := 0;
               consecutive_failures := 0; last_save_time := 0%Z; live := false;
               self := init fresh_store false |} in
  exists st1,
    loop_body Scenario.one_vote_page "7" (Some 5%Z) st = Continue st1
    /\ after_cursor st1 = None
    /\ all_votes st1 = [] ++ [Scenario.a_vote "for" "12" "" "0xfeed"]
    /\ match loop_body Scenario.one_vote_page "7" (Some 5%Z) st1 with
       | Continue st2 | Break _ st2 =>
           all_votes st2
           = [] ++ [Scenario.a_vote "for" "12" "" "0xfeed"]
                ++ [Scenario.a_vote "for" "12" "" "0xfeed"]
       end.
Proof.
  intros st.
  apply (vote_retry_appends_the_page_again
           (fun _ => api Scenario.one_vote_page 0 None) (fun _ => 0%Z) "7" 5%Z st
           {| nodes := [Scenario.a_vote "for" "12" "" "0xfeed";
                        {| vote_id := Some "2"; vote_type := Some (Some "against");
                           amount := None; reason := None; txHash := None;
                           voter := None; block := None; createdAt := None;
                           platform := None |}];
              lastCursor := None |}).
  - reflexivity.
  - discriminate.
  - reflexivity.
  - vm_compute. reflexivity.
Defined.

End VoteRetry.

(** ** The range of the normaliser and the scan of the reason *)

Section NormalizerRange.
Import Data Normalizer.

Lemma type_mappings_range (k outcome : string) :
  Py.assoc k type_mappings = Some outcome ->
  In outcome ["For"; "Against"; "Abstain"].
Proof.
  unfold type_mappings. cbn [Py.assoc].
  repeat (destruct (String.eqb k _);
          [intros [= <-]; cbn; tauto|]).
  discriminate.
Qed.

Lemma type_rule_range (v : vote) (outcome : string) :
  type_rule v = Py.Ok (Some outcome) -> In outcome ["For"; "Against"; "Abstain"].
Proof.
  unfold type_rule. destruct (Py.attr _) as [type_|]; cbn [Py.bind]; [|discriminate].
  destruct (Py.truthy_str _); [|discriminate].
  intros [= H]. revert H. apply type_mappings_range.
Qed.

Lemma reason_rule_range (v : vote) (outcome : string) :
  reason_rule v = Py.Ok (Some outcome) -> In outcome ["For"; "Against"; "Abstain"].
Proof.
  unfold reason_rule. destruct (Py.attr _) as [reason_|]; cbn [Py.bind];
    [|discriminate].
  destruct (Py.truthy_str _); [|discriminate].
  destruct (Py.any_in _ _); [intros [= <-]; cbn; tauto|].
  destruct (Py.any_in _ _); [intros [= <-]; cbn; tauto|].
  destruct (Py.any_in _ _); [intros [= <-]; cbn; tauto|].
  discriminate.
Qed.

(** The two rules raise on a null, and only then. *)
Lemma type_rule_raises (v : vote) :
  match type_rule v with
  | Py.Ok _ => Scenario.null (vote_type v) = false
  | Py.Raise e => e = Py.AttributeError /\ Scenario.null (vote_type v) = true
  end.
Proof. unfold type_rule. destruct (vote_type v) as [[type_|]|]; cbn; auto. Qed.

Lemma reason_rule_raises (v : vote) :
  match reason_rule v with
  | Py.Ok _ => Scenario.null (reason v) = false
  | Py.Raise e => e = Py.AttributeError /\ Scenario.null (reason v) = true
  end.
Proof. unfold reason_rule. destruct (reason v) as [[reason_|]|]; cbn; auto. Qed.

Lemma normalize_in_labels (v : vote) (label : string) :
  normalize_vote_type v = Py.Ok label -> In label Scenario.labels.
Proof.
  unfold normalize_vote_type, Scenario.labels.
  destruct (type_rule v) as [[outcome|]|e] eqn:Ht; cbn [Py.bind]; [| |discriminate].
  - apply type_rule_range in Ht. intros [= <-]. cbn in *. tauto.
  - destruct (amount_positive v); [intros [= <-]; cbn; tauto|].
    destruct (reason_rule v) as [[outcome|]|e] eqn:Hr; cbn [Py.bind];
      [| |discriminate].
    + apply reason_rule_range in Hr. intros [= <-]. cbn in *. tauto.
    + destruct (Py.truthy_opt _); intros [= <-]; cbn; tauto.
Qed.

Lemma normalize_raises (v : vote) (e : Py.exn) :
  normalize_vote_type v = Py.Raise e ->
  e = Py.AttributeError
  /\ (Scenario.null (vote_type v) = true \/ Scenario.null (reason v) = true).
Proof.
  unfold normalize_vote_type.
  pose proof (type_rule_raises v) as Ht. pose proof (reason_rule_raises v) as Hr.
  destruct (type_rule v) as [[outcome|]|e1]; cbn [Py.bind]; [discriminate| |].
  - destruct (amount_positive v); [discriminate|].
    destruct (reason_rule v) as [[outcome|]|e2]; cbn [Py.bind]; try discriminate.
    intros [= <-]. tauto.
  - intros [= <-]. tauto.
Qed.

Lemma normalize_returns (v : vote) :
  Scenario.null (vote_type v) = false ->
  Scenario.null (reason v) = false ->
  exists label, normalize_vote_type v = Py.Ok label.
Proof.
  intros Ht Hr.
  destruct (normalize_vote_type v) as [label|e] eqn:E; [eauto|].
  apply normalize_raises in E as (_ & [E|E]); congruence.
Qed.

Lemma label_is_a_vote (l : string) :
  In l Scenario.labels -> Py.truthy_str l = true /\ l <> "Did Not Vote".
Proof.
  unfold Scenario.labels. cbn.
  intros [<-|[<-|[<-|[<-|[<-|[]]]]]]; split; (reflexivity || discriminate).
Qed.

(** X12.  Whatever the vote, the normaliser either answers one of For,
    Against, Abstain, Voted and Unknown (never the empty string, and never
    the "Did Not Vote" that the matrix keeps for delegates without a vote)
    or raises [AttributeError]; it raises only on a vote whose type or
    reason is null, always on one whose type is null, and never on a vote
    in which neither is null. *)
Theorem normalize_vote_type_range (v : vote) :
  match normalize_vote_type v with
  | Py.Ok label =>
      In label ["For"; "Against"; "Abstain"; "Voted"; "Unknown"]
      /\ label <> "" /\ label <> "Did Not Vote"
  | Py.Raise e =>
      e = Py.AttributeError
      /\ (Scenario.null (vote_type v) = true \/ Scenario.null (reason v) = true)
  end
  /\ (Scenario.null (vote_type v) = true ->
      normalize_vote_type v = Py.Raise Py.AttributeError)
  /\ (Scenario.null (vote_type v) = false ->
      Scenario.null (reason v) = false ->
      exists label, normalize_vote_type v = Py.Ok label).
Proof.
  split; [|split; [|apply normalize_returns]].
  - destruct (normalize_vote_type v) as [label|e] eqn:E.
    + pose proof (normalize_in_labels v label E) as H.
      split; [exact H|].
      destruct (label_is_a_vote _ H) as [Ht Hd].
      split; [|exact Hd].
      intros ->. discriminate.
    + apply normalize_raises. exact E.
  - unfold normalize_vote_type, type_rule.
    destruct (vote_type v) as [[type_|]|]; (discriminate || reflexivity).
Qed.

Lemma append_cons (c : ascii) (a b : string) :
  String.append (String c a) b = String c (String.append a b).
Proof. reflexivity. Qed.

Lemma lower_app (a b : string) :
  Py.lower (String.append a b) = String.append (Py.lower a) (Py.lower b).
Proof.
  induction a as [|c a IH]; [reflexivity|].
  rewrite append_cons. cbn [Py.lower]. rewrite append_cons, IH. reflexivity.
Qed.

Lemma prefix_app (w b : string) : String.prefix w (String.append w b) = true.
Proof.
  induction w as [|c w IH]; [destruct b; reflexivity|].
  rewrite append_cons. cbn [String.prefix].
  destruct (ascii_dec c c); [exact IH|congruence].
Qed.

Lemma contains_app (w a b : string) :
  Py.contains w (String.append a (String.append w b)) = true.
Proof.
  induction a as [|c a IH].
  - change (String.append "" (String.append w b)) with (String.append w b).
    pose proof (prefix_app w b) as Hp.
    destruct (String.append w b); cbn [Py.contains]; rewrite Hp; reflexivity.
  - rewrite append_cons. cbn [Py.contains]. rewrite IH. apply orb_true_r.
Qed.

Lemma any_in_app (words : list string) (w a b : string) :
  In w words ->
  Py.any_in words (String.append a (String.append w b)) = true.
Proof.
  intros Hin. unfold Py.any_in. apply existsb_exists.
  exists w. split; [exact Hin|apply contains_app].
Qed.

Lemma truthy_app (a w b : string) :
  Py.truthy_str w = true ->
  Py.truthy_str (String.append a (String.append w b)) = true.
Proof.
  intros Hw. destruct a; [|reflexivity].
  destruct w; [discriminate|reflexivity].
Qed.

(** X13.  The scan of the reason looks for its keywords anywhere in the
    text, in any letter case and inside other words, and the For keywords
    are tried first: when the type decides nothing and the amount is not
    positive, a reason in which one of support, favor, yes, approve, agree
    or for occurs gives For, whatever else the reason says. *)
Theorem reason_with_a_for_keyword_is_For (v : vote) (before word after : string) :
  type_rule v = Py.Ok None ->
  amount_positive v = false ->
  reason v = Some (Some (String.append before (String.append word after))) ->
  In (Py.lower word) ["support"; "favor"; "yes"; "approve"; "agree"; "for"] ->
  normalize_vote_type v = Py.Ok "For".
Proof.
  intros Ht Ha Hr Hw. unfold normalize_vote_type. rewrite Ht, Ha.
  unfold reason_rule. rewrite Hr. cbn [get Py.attr Py.bind].
  rewrite !lower_app.
  rewrite truthy_app.
  - rewrite (any_in_app _ _ _ _ Hw). reflexivity.
  - cbn in Hw. destruct Hw as [<-|[<-|[<-|[<-|[<-|[<-|[]]]]]]]; reflexivity.
Qed.

Lemma reason_with_a_for_keyword_is_For_witness :
  normalize_vote_type
    {| vote_id := Some "1"; vote_type := Some (Some "cast"); amount := Some (Py.SStr "0");
       reason := Some (Some "I am against these ReForms"); txHash := None;
       voter := None; block := None; createdAt := None; platform := None |}
  = Py.Ok "For".
Proof.
  apply (reason_with_a_for_keyword_is_For _ "I am against these Re" "For" "ms").
  - reflexivity.
  - vm_compute. reflexivity.
  - reflexivity.
  - cbn. tauto.
Defined.

End NormalizerRange.

(** ** The vote map and the rows built from it *)

Section VoteMap.
Import Data Checkpoint Fetcher Matrix.

Lemma fill_vote_map_cons (v : Data.vote) rest (vote_map : gmap string vote_info) :
  fill_vote_map (v :: rest) vote_map
  = match Scenario.voter_key v with
    | Some k =>
        normalized_vote <- Normalizer.normalize_vote_type v ;;
        fill_vote_map rest (<[k := vote_info_of v normalized_vote]> vote_map)
    | None => fill_vote_map rest vote_map
    end.
Proof.
  cbn [fill_vote_map]. unfold Scenario.voter_key.
  destruct (voter v) as [w|]; [|reflexivity].
  destruct (Py.truthy_opt (voter_address w)); reflexivity.
Qed.

Lemma fill_vote_map_app (before after : list Data.vote) :
  forall vote_map,
    fill_vote_map (before ++ after) vote_map
    = (vote_map' <- fill_vote_map before vote_map ;; fill_vote_map after vote_map').
Proof.
  induction before as [|v before IH]; intros vote_map; [reflexivity|].
  rewrite <- app_comm_cons, !fill_vote_map_cons.
  destruct (Scenario.voter_key v) as [k|]; [|apply IH].
  destruct (Normalizer.normalize_vote_type v); cbn [Py.bind]; [apply IH|reflexivity].
Qed.

Lemma fill_vote_map_other (k : string) (votes : list Data.vote) :
  forall vote_map vote_map',
    Forall (fun u => Scenario.voter_key u <> Some k) votes ->
    fill_vote_map votes vote_map = Py.Ok vote_map' ->
    vote_map' !! k = vote_map !! k.
Proof.
  induction votes as [|v votes IH]; intros vote_map vote_map' Hall;
    [intros [= <-]; reflexivity|].
  apply List.Forall_cons_iff in Hall as [Hv Hall].
  rewrite fill_vote_map_cons.
  destruct (Scenario.voter_key v) as [k'|]; [|apply IH; exact Hall].
  destruct (Normalizer.normalize_vote_type v); cbn [Py.bind]; [|discriminate].
  intros H. rewrite (IH _ _ Hall H). apply lookup_insert_ne. congruence.
Qed.

Lemma fill_vote_map_found (k : string) (votes : list Data.vote) :
  forall vote_map vote_map' vote_info,
    fill_vote_map votes vote_map = Py.Ok vote_map' ->
    vote_map' !! k = Some vote_info ->
    vote_map !! k = Some vote_info
    \/ exists v normalized_vote,
         In v votes /\ Scenario.voter_key v = Some k
         /\ Normalizer.normalize_vote_type v = Py.Ok normalized_vote
         /\ vote_info = vote_info_of v normalized_vote.
Proof.
  induction votes as [|v votes IH]; intros vote_map vote_map' vote_info;
    [intros [= <-]; left; assumption|].
  rewrite fill_vote_map_cons.
  destruct (Scenario.voter_key v) as [k'|] eqn:Hk.
  - destruct (Normalizer.normalize_vote_type v) as [normalized_vote|] eqn:Hn;
      cbn [Py.bind]; [|discriminate].
    intros Hfill H.
    destruct (IH _ _ _ Hfill H) as [H'|(u & l & Hu & Hku & Hnu & ->)].
    + destruct (decide (k' = k)) as [->|Hne].
      * rewrite lookup_insert_eq in H'. injection H' as <-.
        right. exists v, normalized_vote. auto with datatypes.
      * rewrite lookup_insert_ne in H' by exact Hne. left. exact H'.
    + right. exists u, l. auto with datatypes.
  - intros Hfill H.
    destruct (IH _ _ _ Hfill H) as [H'|(u & l & Hu & Hku & Hnu & ->)]; [auto|].
    right. exists u, l. auto with datatypes.
Qed.

Lemma fill_vote_map_keeps (k : string) (votes : list Data.vote) :
  forall vote_map vote_map',
    fill_vote_map votes vote_map = Py.Ok vote_map' ->
    is_Some (vote_map !! k) -> is_Some (vote_map' !! k).
Proof.
  induction votes as [|v votes IH]; intros vote_map vote_map';
    [intros [= <-]; auto|].
  rewrite fill_vote_map_cons.
  destruct (Scenario.voter_key v) as [k'|]; [|apply IH].
  destruct (Normalizer.normalize_vote_type v); cbn [Py.bind]; [|discriminate].
  intros Hfill H. apply (IH _ _ Hfill).
  apply lookup_insert_is_Some. destruct (decide (k' = k)); auto.
Qed.

Lemma fill_vote_map_voters (k : string) (votes : list Data.vote) :
  forall vote_map vote_map',
    fill_vote_map votes vote_map = Py.Ok vote_map' ->
    (exists v, In v votes /\ Scenario.voter_key v = Some k) ->
    is_Some (vote_map' !! k).
Proof.
  induction votes as [|u votes IH]; intros vote_map vote_map' Hfill (v & Hv & Hk);
    [destruct Hv|].
  rewrite fill_vote_map_cons in Hfill. destruct Hv as [->|Hin].
  - rewrite Hk in Hfill.
    destruct (Normalizer.normalize_vote_type v); cbn [Py.bind] in Hfill;
      [|discriminate].
    apply (fill_vote_map_keeps _ _ _ _ Hfill). rewrite lookup_insert_eq. eauto.
  - destruct (Scenario.voter_key u) as [k'|]; [|eapply IH; eauto].
    destruct (Normalizer.normalize_vote_type u); cbn [Py.bind] in Hfill;
      [|discriminate].
    eapply IH; eauto.
Qed.

(** The vote map is built unless the label of a vote with a voter address
    raises. *)
Lemma fill_vote_map_outcome (votes : list Data.vote) :
  forall vote_map,
    match fill_vote_map votes vote_map with
    | Py.Ok _ =>
        Forall (fun v => Scenario.voter_key v <> None ->
                         exists normalized_vote,
                           Normalizer.normalize_vote_type v = Py.Ok normalized_vote)
               votes
    | Py.Raise e =>
        e = Py.AttributeError
        /\ exists v, In v votes /\ Scenario.voter_key v <> None
                     /\ Normalizer.normalize_vote_type v = Py.Raise Py.AttributeError
    end.
Proof.
  induction votes as [|v votes IH]; intros vote_map; [constructor|].
  rewrite fill_vote_map_cons.
  destruct (Scenario.voter_key v) as [k|] eqn:Hk.
  - destruct (Normalizer.normalize_vote_type v) as [normalized_vote|e] eqn:Hn;
      cbn [Py.bind].
    + specialize (IH (<[k := vote_info_of v normalized_vote]> vote_map)).
      destruct (fill_vote_map votes _).
      * constructor; [eauto | exact IH].
      * destruct IH as (-> & u & Hu & H). split; [reflexivity|].
        exists u. auto with datatypes.
    + destruct (normalize_raises v e Hn) as [-> _]. split; [reflexivity|].
      exists v. split; [left; reflexivity|]. split; [congruence | exact Hn].
  - specialize (IH vote_map). destruct (fill_vote_map votes vote_map).
    + constructor; [intros H; congruence | exact IH].
    + destruct IH as (-> & u & Hu & H). split; [reflexivity|].
      exists u. auto with datatypes.
Qed.

(** X14.  The vote map of a proposal is keyed by the lower-cased address of
    the voter, and a later vote of a voter replaces an earlier one: when
    the map is built, the entry of an address is made from the last vote
    in the list whose voter address is that one up to letter case, with
    the label the normaliser gave that vote. *)
Theorem vote_map_holds_the_last_vote
    (before after : list Data.vote) (v : Data.vote) (k : string)
    (vote_map vote_map' : gmap string vote_info) :
  fill_vote_map (before ++ v :: after) vote_map = Py.Ok vote_map' ->
  Scenario.voter_key v = Some k ->
  Forall (fun u => Scenario.voter_key u <> Some k) after ->
  exists normalized_vote,
    Normalizer.normalize_vote_type v = Py.Ok normalized_vote
    /\ vote_map' !! k = Some (vote_info_of v normalized_vote).
Proof.
  intros Hfill Hk Hafter.
  rewrite fill_vote_map_app in Hfill.
  destruct (fill_vote_map before vote_map) as [vote_map1|]; cbn [Py.bind] in Hfill;
    [|discriminate].
  rewrite fill_vote_map_cons, Hk in Hfill.
  destruct (Normalizer.normalize_vote_type v) as [normalized_vote|];
    cbn [Py.bind] in Hfill; [|discriminate].
  exists normalized_vote. split; [reflexivity|].
  rewrite (fill_vote_map_other k after _ _ Hafter Hfill).
  apply lookup_insert_eq.
Qed.

Lemma vote_map_holds_the_last_vote_witness :
  let vote_map' : gmap string vote_info :=
    <["0xb2" := vote_info_of (Scenario.cast "0xB2" "for") "For"]>
      (<["0xa1" := vote_info_of (Scenario.cast "0xa1" "AGAINST") "Against"]> ∅) in
  fill_vote_map
    ([Scenario.cast "0xA1" "for"]
     ++ Scenario.cast "0xa1" "AGAINST" :: [Scenario.cast "0xB2" "for"])
    ∅
  = Py.Ok vote_map'
  /\ exists normalized_vote,
       Normalizer.normalize_vote_type (Scenario.cast "0xa1" "AGAINST")
       = Py.Ok normalized_vote
       /\ vote_map' !! "0xa1"
          = Some (vote_info_of (Scenario.cast "0xa1" "AGAINST") normalized_vote).
Proof.
  intros vote_map'.
  assert (fill_vote_map
            ([Scenario.cast "0xA1" "for"]
             ++ Scenario.cast "0xa1" "AGAINST" :: [Scenario.cast "0xB2" "for"])
            ∅
          = Py.Ok vote_map') as Hfill
    by (vm_compute; reflexivity).
  split; [exact Hfill|].
  apply (vote_map_holds_the_last_vote _ _ _ _ _ _ Hfill).
  - reflexivity.
  - repeat constructor. discriminate.
Defined.

(** X25.  The vote map of a proposal is built unless the normaliser raises
    on a vote that has a voter address: when the map is built every such
    vote has a label, and when it is not the error is the
    [AttributeError] of one such vote; a vote without a voter address is
    never normalised, so a null in it does no harm. *)
Theorem vote_map_is_built_unless_a_vote_raises
    (votes : list Data.vote) (vote_map : gmap string vote_info) :
  match fill_vote_map votes vote_map with
  | Py.Ok _ =>
      Forall (fun v => Scenario.voter_key v <> None ->
                       exists normalized_vote,
                         Normalizer.normalize_vote_type v = Py.Ok normalized_vote)
             votes
  | Py.Raise e =>
      e = Py.AttributeError
      /\ exists v, In v votes /\ Scenario.voter_key v <> None
                   /\ Normalizer.normalize_vote_type v = Py.Raise Py.AttributeError
  end.
Proof. apply fill_vote_map_outcome. Qed.

Section Rows.
Variable dao : string.

Lemma process_all_marks_voters
    (ds : list delegate) (p : proposal) (votes : list Data.vote)
    (vote_map : gmap string vote_info) (rows : list record) :
  fill_vote_map votes ∅ = Py.Ok vote_map ->
  process_all_delegates_for_proposal dao ds p votes vote_map = Py.Ok rows ->
  Forall
    (fun r =>
       (participated r = true
        <-> exists v, In v votes
                      /\ Scenario.voter_key v = Some (Py.lower (delegate_address r)))
       /\ (participated r = true -> In (vote r) Scenario.labels)
       /\ (participated r = false -> vote r = "Did Not Vote"))
    rows.
Proof.
  intros Hfill Hrows. apply List.Forall_forall. intros r Hin.
  destruct (process_all_addresses _ _ _ _ _ _ _ Hrows Hin) as (d & _ & Hr).
  apply delegate_record_row in Hr as (_ & _ & _ & _ & _ & _ & Hr).
  destruct (vote_map !! Py.lower (delegate_address r)) as [vote_info|] eqn:E.
  - destruct Hr as [Hv Hp]. split; [|split].
    + split; [intros _|intros _; exact Hp].
      destruct (fill_vote_map_found _ _ _ _ _ Hfill E) as [E'|(v & l & Hv' & Hk & _)].
      * rewrite lookup_empty in E'. discriminate.
      * eauto.
    + intros _. rewrite Hv.
      destruct (fill_vote_map_found _ _ _ _ _ Hfill E)
        as [E'|(v & l & _ & _ & Hn & ->)].
      * rewrite lookup_empty in E'. discriminate.
      * cbn. eapply normalize_in_labels; eauto.
    + rewrite Hp. discriminate.
  - destruct Hr as (Hv & _ & _ & _ & _ & _ & _ & Hp). split; [|split].
    + split; [rewrite Hp; discriminate|].
      intros Hex. apply (fill_vote_map_voters _ _ _ _ Hfill) in Hex.
      rewrite E in Hex. destruct Hex as [? [=]].
    + rewrite Hp. discriminate.
    + intros _. exact Hv.
Qed.

(** X15.  In the rows of a proposal, when the vote map of its votes is
    built and the rows are returned, a delegate is marked as having
    participated exactly when some vote in the list comes from the
    delegate's address, letter case aside; the vote of such a row is one
    of the five labels of the normaliser, that of every other row is "Did
    Not Vote". *)
Theorem rows_mark_exactly_the_voters
    (ds : list delegate) (p : proposal) (votes : list Data.vote)
    (vote_map : gmap string vote_info) (rows : list record) :
  fill_vote_map votes ∅ = Py.Ok vote_map ->
  process_all_delegates_for_proposal dao ds p votes vote_map = Py.Ok rows ->
  Forall
    (fun r =>
       (participated r = true
        <-> exists v, In v votes
                      /\ Scenario.voter_key v = Some (Py.lower (delegate_address r)))
       /\ (participated r = true -> In (vote r) Scenario.labels)
       /\ (participated r = false -> vote r = "Did Not Vote"))
    rows.
Proof. apply process_all_marks_voters. Qed.

Lemma process_all_cells ds p votes vote_map rows :
  process_all_delegates_for_proposal dao ds p votes vote_map = Py.Ok rows ->
  Scenario.cells rows
  = List.map (fun d => (id p, Delegates.address_text d))
             (List.filter Scenario.has_address ds).
Proof.
  intros H. apply process_all_rows in H.
  induction H as [|d r ds' rows' Hd _ IH]; [reflexivity|].
  apply delegate_record_row in Hd as (_ & _ & _ & _ & Ha & Hp & _).
  cbn [Scenario.cells List.map]. rewrite Ha, Hp. f_equal. exact IH.
Qed.

Lemma cells_app (a b : list record) :
  Scenario.cells (a ++ b) = Scenario.cells a ++ Scenario.cells b.
Proof. apply List.map_app. Qed.

Lemma proposals_loop_cells world fuel ds ps :
  forall m f m' f',
    proposals_loop dao world fuel ds ps m f = Some (Py.Ok (m', f')) ->
    Scenario.cells (all_voting_data m')
    = Scenario.cells (all_voting_data m) ++ Scenario.grid ps ds.
Proof.
  induction ps as [|p ps IH]; intros m f m' f'; cbn [proposals_loop].
  - intros [= <- <-]. cbn. rewrite app_nil_r. reflexivity.
  - destruct (Votes.get_votes_for_proposal_high_volume _ _ _ _ _)
      as [[votes f1]|]; [|discriminate].
    destruct (fill_vote_map votes ∅) as [vote_map|e]; cbn [Py.bind]; [|discriminate].
    destruct (process_all_delegates_for_proposal dao ds p votes vote_map)
      as [rows|e] eqn:Hrows; [|discriminate].
    intros H. apply IH in H. rewrite H. cbn [all_voting_data].
    rewrite cells_app, (process_all_cells _ _ _ _ _ Hrows), <- app_assoc.
    reflexivity.
Qed.

Lemma proposals_loop_counters world fuel ds ps :
  forall m f m' f',
    proposals_loop dao world fuel ds ps m f = Some (Py.Ok (m', f')) ->
    proposals_with_votes m <= total_votes_found m ->
    (0 < total_votes_found m -> 0 < proposals_with_votes m) ->
    proposals_with_votes m' <= proposals_with_votes m + List.length ps
    /\ proposals_with_votes m' <= total_votes_found m'
    /\ (0 < total_votes_found m' -> 0 < proposals_with_votes m').
Proof.
  induction ps as [|p ps IH]; intros m f m' f'; cbn [proposals_loop].
  - intros [= <- <-] H H0. cbn. split; [lia|]. split; assumption.
  - destruct (Votes.get_votes_for_proposal_high_volume _ _ _ _ _)
      as [[votes f1]|]; [|discriminate].
    destruct (Py.bind _ _) as [rows|e]; [|discriminate].
    intros H Hle Hpos. apply IH in H.
    + cbn [proposals_with_votes total_votes_found List.length] in *.
      destruct H as (H1 & H2 & H3). split; [|split; assumption].
      destruct votes; cbn [List.length] in *; lia.
    + cbn [proposals_with_votes total_votes_found].
      destruct votes; cbn [List.length]; lia.
    + cbn [proposals_with_votes total_votes_found].
      destruct votes; cbn [List.length]; lia.
Qed.

(** X16.  Whenever the builder returns, the matrix has one row per
    proposal and per delegate with an address, proposals in the order
    given and, within a proposal, delegates in the order given; a
    delegate listed twice gets two rows. *)
Theorem matrix_rows_follow_proposals_then_delegates
    (world : env (page Data.vote)) (fuel : nat) (ds : list delegate)
    (ps : list proposal) (f : fetcher) (m : matrix) (f' : fetcher) :
  create_voting_matrix_fast dao world fuel ds ps f = Some (Py.Ok (m, f')) ->
  Scenario.cells (all_voting_data m) = Scenario.grid ps ds.
Proof.
  unfold create_voting_matrix_fast. intros H.
  apply proposals_loop_cells in H. exact H.
Qed.

(** X17.  Whenever the builder returns, its two counters agree: the
    number of proposals with votes is at most the number of proposals and
    at most the number of votes found, and it is not zero when some vote
    was found, so that the average printed at the end, votes found over
    proposals with votes, never divides by zero. *)
Theorem builder_counters_are_consistent
    (world : env (page Data.vote)) (fuel : nat) (ds : list delegate)
    (ps : list proposal) (f : fetcher) (m : matrix) (f' : fetcher) :
  create_voting_matrix_fast dao world fuel ds ps f = Some (Py.Ok (m, f')) ->
  proposals_with_votes m <= List.length ps
  /\ proposals_with_votes m <= total_votes_found m
  /\ (0 < total_votes_found m -> 0 < proposals_with_votes m).
Proof.
  unfold create_voting_matrix_fast. intros H.
  apply proposals_loop_counters in H; cbn [proposals_with_votes total_votes_found];
    [|lia|lia].
  cbn [proposals_with_votes] in H. exact H.
Qed.

End Rows.

End VoteMap.

(** *** The builder on a small run *)

Lemma rows_mark_exactly_the_voters_witness :
  exists vote_map rows,
    Matrix.fill_vote_map [Scenario.cast "0xA1" "for"; Scenario.cast "0xC3" "abstain"] ∅
    = Py.Ok vote_map
    /\ Matrix.process_all_delegates_for_proposal "Compound DAO"
         [Scenario.a_delegate (Some "0xa1"); Scenario.a_delegate (Some "0xB2")]
         (Scenario.a_proposal "7")
         [Scenario.cast "0xA1" "for"; Scenario.cast "0xC3" "abstain"] vote_map
       = Py.Ok rows
    /\ List.map Matrix.participated rows = [true; false]
    /\ Forall
         (fun r =>
            (Matrix.participated r = true
             <-> exists v,
                   In v [Scenario.cast "0xA1" "for"; Scenario.cast "0xC3" "abstain"]
                   /\ Scenario.voter_key v = Some (Py.lower (Matrix.delegate_address r)))
            /\ (Matrix.participated r = true -> In (Matrix.vote r) Scenario.labels)
            /\ (Matrix.participated r = false -> Matrix.vote r = "Did Not Vote"))
         rows.
Proof.
  eexists _, _. split; [vm_compute; reflexivity|].
  split; [vm_compute; reflexivity|]. split; [reflexivity|].
  eapply (rows_mark_exactly_the_voters "Compound DAO"
           [Scenario.a_delegate (Some "0xa1"); Scenario.a_delegate (Some "0xB2")]
           (Scenario.a_proposal "7")
           [Scenario.cast "0xA1" "for"; Scenario.cast "0xC3" "abstain"]);
    vm_compute; reflexivity.
Defined.

Lemma matrix_rows_follow_proposals_then_delegates_witness :
  exists m f',
    Scenario.small_run 3 = Some (Py.Ok (m, f'))
    /\ Scenario.cells (Matrix.all_voting_data m)
       = [("7", "0xA1"); ("7", "0xB2"); ("8", "0xA1"); ("8", "0xB2")].
Proof.
  eexists _, _. split; [vm_compute; reflexivity|].
  eapply (matrix_rows_follow_proposals_then_delegates "Compound DAO"
           Scenario.three_votes 3
           [Scenario.a_delegate (Some "0xA1"); Scenario.a_delegate None;
            Scenario.a_delegate (Some "0xB2");
            Scenario.with_null_statement (Scenario.a_delegate (Some ""))]
           [Scenario.a_proposal "7"; Scenario.a_proposal "8"]
           (Fetcher.init Checkpoint.fresh_store false)).
  vm_compute. reflexivity.
Defined.

Lemma builder_counters_are_consistent_witness :
  exists m f',
    Scenario.small_run 3 = Some (Py.Ok (m, f'))
    /\ Matrix.total_votes_found m = 6
    /\ Matrix.proposals_with_votes m <= 2
    /\ Matrix.proposals_with_votes m <= Matrix.total_votes_found m
    /\ (0 < Matrix.total_votes_found m -> 0 < Matrix.proposals_with_votes m).
Proof.
  eexists _, _. split; [vm_compute; reflexivity|]. split; [reflexivity|].
  eapply (builder_counters_are_consistent "Compound DAO"
           Scenario.three_votes 3
           [Scenario.a_delegate (Some "0xA1"); Scenario.a_delegate None;
            Scenario.a_delegate (Some "0xB2");
            Scenario.with_null_statement (Scenario.a_delegate (Some ""))]
           [Scenario.a_proposal "7"; Scenario.a_proposal "8"]
           (Fetcher.init Checkpoint.fresh_store false)).
  vm_compute. reflexivity.
Defined.

(** ** Nested lookups *)

Section NestedFacts.
Import Checkpoint Nested.



(** X19.  A path can be looked up in two stages: looking up its first part
    with [None] as the default and then the rest from what was found gives
    what the one lookup of the whole path gives. *)
Theorem safe_get_nested_in_two_stages (data : json) (first rest : list string)
    (default : json) :
  safe_get_nested data (first ++ rest) default
  = safe_get_nested (safe_get_nested data first JNull) rest default.
Proof.
  revert data. induction first as [|key first IH]; intros data.
  - cbn [app safe_get_nested]. destruct data; reflexivity.
  - rewrite <- app_comm_cons. cbn [safe_get_nested].
    destruct data; try (destruct rest; reflexivity).
    destruct (Py.assoc key members); [apply IH|destruct rest; reflexivity].
Qed.

End NestedFacts.

(** ** The rollups of the streamed fallback *)

Section Upsert.
Context {K V : Type}.
Variable eqb : K -> K -> bool.

Lemma upsert_Forall (P : V -> Prop) (k : K) (init : V) (f : V -> V)
    (d : list (K * V)) :
  P (f init) -> (forall v, P v -> P (f v)) ->
  Forall (fun e => P (snd e)) d ->
  Forall (fun e => P (snd e)) (Report.upsert eqb k init f d).
Proof.
  intros Hi Hf. induction d as [|[k' v] d IH]; intros Hd; cbn [Report.upsert].
  - constructor; [exact Hi|constructor].
  - apply List.Forall_cons_iff in Hd as [Hv Hd]. cbn [snd] in Hv.
    destruct (eqb k k'); constructor; cbn [snd]; auto.
Qed.

Lemma upsert_total (figure : V -> nat) (delta : nat) (k : K) (init : V)
    (f : V -> V) (d : list (K * V)) :
  figure (f init) = delta -> (forall v, figure (f v) = figure v + delta) ->
  Scenario.total figure (Report.upsert eqb k init f d)
  = Scenario.total figure d + delta.
Proof.
  intros Hi Hf. unfold Scenario.total.
  induction d as [|[k' v] d IH]; cbn [Report.upsert].
  - cbn [List.map list_sum fold_right snd]. rewrite Hi. lia.
  - destruct (eqb k k'); cbn [List.map list_sum fold_right snd].
    + rewrite Hf. lia.
    + unfold list_sum in IH. rewrite IH. lia.
Qed.

End Upsert.

Section ReportFacts.
Import Report.
#[local] Set Warnings "-clear-no-such-hyp".

Lemma fold_left_keeps {A B} (step : A -> B -> A) (P : A -> Prop) (Q : B -> Prop)
    (l : list B) :
  (forall a b, Q b -> P a -> P (step a b)) ->
  Forall Q l -> forall a, P a -> P (fold_left step l a).
Proof.
  intros Hstep. induction l as [|b l IH]; intros Hl a Ha; [exact Ha|].
  apply List.Forall_cons_iff in Hl as [Hb Hl].
  cbn [fold_left]. apply IH; auto.
Qed.

Lemma Forall_True {B} (l : list B) : Forall (fun _ => True) l.
Proof. apply List.Forall_forall. intros; exact I. Qed.

Lemma bump_columns (actual : bool) (vnorm : string) :
  (if actual && column_eqb (breakdown vnorm) ColFor then 1 else 0)
  + (if actual && column_eqb (breakdown vnorm) ColAgainst then 1 else 0)
  + (if actual && column_eqb (breakdown vnorm) ColAbstain then 1 else 0)
  + (if actual && column_eqb (breakdown vnorm) ColVoted then 1 else 0)
  + (if actual && column_eqb (breakdown vnorm) ColUnknown then 1 else 0)
  = if actual then 1 else 0.
Proof. destruct actual; [|reflexivity]. destruct (breakdown vnorm); reflexivity. Qed.

Lemma delegate_add_ok (row : Matrix.record) (aggd : DelegateAgg.rollup) :
  DelegateAgg.votes_cast aggd <= DelegateAgg.total_proposals aggd
  /\ DelegateAgg.actual_votes aggd <= DelegateAgg.total_proposals aggd
  /\ DelegateAgg.vote_for aggd + DelegateAgg.vote_against aggd
     + DelegateAgg.vote_abstain aggd + DelegateAgg.vote_voted aggd
     + DelegateAgg.vote_unknown aggd
     = DelegateAgg.actual_votes aggd ->
  Scenario.delegate_entry_ok (DelegateAgg.add row aggd).
Proof.
  intros (Hc & Ha & Hb). unfold Scenario.delegate_entry_ok, DelegateAgg.add. cbv zeta.
  cbn [DelegateAgg.total_proposals DelegateAgg.votes_cast DelegateAgg.actual_votes
       DelegateAgg.vote_for DelegateAgg.vote_against DelegateAgg.vote_abstain
       DelegateAgg.vote_voted DelegateAgg.vote_unknown].
  pose proof (bump_columns (is_actual_vote (Matrix.vote row)) (Matrix.vote row)) as Hs.
  destruct (Matrix.participated row), (is_actual_vote (Matrix.vote row));
    cbn [andb] in *; lia.
Qed.

Lemma delegate_agg_ok (rows : list Matrix.record) :
  forall st,
    Forall (fun e => Scenario.delegate_entry_ok (snd e)) (delegate_agg st) ->
    Forall (fun e => Scenario.delegate_entry_ok (snd e))
           (delegate_agg (fold_left loop_body rows st)).
Proof.
  intros st Hst.
  apply (fold_left_keeps loop_body
           (fun st => Forall (fun e => Scenario.delegate_entry_ok (snd e)) (delegate_agg st))
           (fun _ => True) rows); [|apply Forall_True|exact Hst].
  intros a row _ Ha. cbn [loop_body delegate_agg].
  apply upsert_Forall; [| |exact Ha].
  - apply delegate_add_ok. cbn. lia.
  - intros v (_ & H). apply delegate_add_ok. exact H.
Qed.

Lemma loop_totals (rows : list Matrix.record) :
  forall st,
    let st' := fold_left loop_body rows st in
    total_records st' = total_records st + List.length rows
    /\ Scenario.total DelegateAgg.total_proposals (delegate_agg st')
       = Scenario.total DelegateAgg.total_proposals (delegate_agg st)
         + List.length rows
    /\ Scenario.total ProposalAgg.total_delegates (proposal_agg st')
       = Scenario.total ProposalAgg.total_delegates (proposal_agg st)
         + List.length rows.
Proof.
  induction rows as [|row rows IH]; intros st; cbn [fold_left List.length].
  - cbv zeta. lia.
  - cbv zeta. destruct (IH (loop_body st row)) as (H1 & H2 & H3).
    rewrite H1, H2, H3. cbn [loop_body total_records delegate_agg proposal_agg].
    rewrite (upsert_total _ DelegateAgg.total_proposals 1) by (intros; reflexivity).
    rewrite (upsert_total _ ProposalAgg.total_delegates 1) by (intros; reflexivity).
    lia.
Qed.

(** X20.  The per-delegate rollup of the streamed fallback, whatever the
    rows: every delegate in it was seen on at least one row, so the divisor
    of its participation rate is its own number of proposals and never the
    substitute 1; its votes cast and its actual votes are at most that
    number; its five vote columns add up to its actual votes; and the
    numbers of proposals of all delegates add up to the number of rows. *)
Theorem delegate_rollup_is_consistent (all_voting_data : list Matrix.record) :
  Forall
    (fun e =>
       let aggd := snd e in
       total_props aggd = DelegateAgg.total_proposals aggd
       /\ DelegateAgg.votes_cast aggd <= DelegateAgg.total_proposals aggd
       /\ DelegateAgg.actual_votes aggd <= DelegateAgg.total_proposals aggd
       /\ DelegateAgg.vote_for aggd + DelegateAgg.vote_against aggd
          + DelegateAgg.vote_abstain aggd + DelegateAgg.vote_voted aggd
          + DelegateAgg.vote_unknown aggd
          = DelegateAgg.actual_votes aggd)
    (delegate_agg (rollup all_voting_data))
  /\ Scenario.total DelegateAgg.total_proposals
       (delegate_agg (rollup all_voting_data))
     = List.length all_voting_data
  /\ total_records (rollup all_voting_data) = List.length all_voting_data.
Proof.
  split; [|split].
  - eapply List.Forall_impl; [|apply delegate_agg_ok; constructor].
    intros [k aggd] (H1 & H2 & H3 & H4). cbn [snd] in *. cbv zeta.
    split; [|auto]. unfold total_props, or_1.
    destruct (DelegateAgg.total_proposals aggd); [lia|reflexivity].
  - destruct (loop_totals all_voting_data initial_state) as (_ & H & _). exact H.
  - destruct (loop_totals all_voting_data initial_state) as (H & _). exact H.
Qed.

Lemma size_add (x : string) (s : gset string) :
  1 <= size ({[ x ]} ∪ s) <= size s + 1.
Proof.
  split.
  - rewrite <- (size_singleton (C := gset string) x).
    apply subseteq_size. set_solver.
  - rewrite size_union_alt, size_singleton.
    pose proof (subseteq_size (s ∖ {[ x ]}) s) as H.
    assert (s ∖ {[ x ]} ⊆ s) as Hs by set_solver.
    apply H in Hs. lia.
Qed.

Lemma proposal_add_ok (row : Matrix.record) (aggp : ProposalAgg.rollup) :
  size (ProposalAgg.unique_delegates_set aggp) <= ProposalAgg.total_delegates aggp
  /\ ProposalAgg.actual_votes aggp <= ProposalAgg.total_delegates aggp
  /\ ProposalAgg.vote_for aggp + ProposalAgg.vote_against aggp
     + ProposalAgg.vote_abstain aggp + ProposalAgg.vote_voted aggp
     + ProposalAgg.vote_unknown aggp
     = ProposalAgg.actual_votes aggp ->
  Scenario.proposal_entry_ok (ProposalAgg.add row aggp).
Proof.
  intros (Hc & Ha & Hb). unfold Scenario.proposal_entry_ok, ProposalAgg.add. cbv zeta.
  cbn [ProposalAgg.total_delegates ProposalAgg.unique_delegates_set
       ProposalAgg.actual_votes
       ProposalAgg.vote_for ProposalAgg.vote_against ProposalAgg.vote_abstain
       ProposalAgg.vote_voted ProposalAgg.vote_unknown].
  pose proof (bump_columns (is_actual_vote (Matrix.vote row)) (Matrix.vote row)) as Hs.
  pose proof (size_add (Matrix.delegate_address row)
                (ProposalAgg.unique_delegates_set aggp)) as Hu.
  destruct (is_actual_vote (Matrix.vote row)); cbn [andb] in *; lia.
Qed.

Lemma proposal_agg_ok (rows : list Matrix.record) :
  forall st,
    Forall (fun e => Scenario.proposal_entry_ok (snd e)) (proposal_agg st) ->
    Forall (fun e => Scenario.proposal_entry_ok (snd e))
           (proposal_agg (fold_left loop_body rows st)).
Proof.
  intros st Hst.
  apply (fold_left_keeps loop_body
           (fun st => Forall (fun e => Scenario.proposal_entry_ok (snd e)) (proposal_agg st))
           (fun _ => True) rows); [|apply Forall_True|exact Hst].
  intros a row _ Ha. cbn [loop_body proposal_agg].
  apply upsert_Forall; [| |exact Ha].
  - apply proposal_add_ok. cbn. rewrite size_empty. lia.
  - intros v (_ & H). apply proposal_add_ok. exact H.
Qed.

(** X21.  The per-proposal rollup of the streamed fallback, whatever the
    rows: every proposal in it has at least one delegate address, so the
    divisor of its participation rate is its number of distinct addresses
    and never the substitute 1; that number and the actual votes are at
    most the number of its rows; its five vote columns add up to its actual
    votes; and the rows of all proposals add up to the number of rows. *)
Theorem proposal_rollup_is_consistent (all_voting_data : list Matrix.record) :
  Forall
    (fun e =>
       let aggp := snd e in
       unique_del aggp = size (ProposalAgg.unique_delegates_set aggp)
       /\ size (ProposalAgg.unique_delegates_set aggp)
          <= ProposalAgg.total_delegates aggp
       /\ ProposalAgg.actual_votes aggp <= ProposalAgg.total_delegates aggp
       /\ ProposalAgg.vote_for aggp + ProposalAgg.vote_against aggp
          + ProposalAgg.vote_abstain aggp + ProposalAgg.vote_voted aggp
          + ProposalAgg.vote_unknown aggp
          = ProposalAgg.actual_votes aggp)
    (proposal_agg (rollup all_voting_data))
  /\ Scenario.total ProposalAgg.total_delegates
       (proposal_agg (rollup all_voting_data))
     = List.length all_voting_data.
Proof.
  split.
  - eapply List.Forall_impl; [|apply proposal_agg_ok; constructor].
    intros [k aggp] (H1 & H2 & H3 & H4). cbn [snd] in *. cbv zeta.
    split; [|auto]. unfold unique_del, or_1.
    destruct (size (ProposalAgg.unique_delegates_set aggp)); [lia|reflexivity].
  - destruct (loop_totals all_voting_data initial_state) as (_ & _ & H). exact H.
Qed.

Lemma counters_step (st : state) (row : Matrix.record) :
  Scenario.counters_ok st -> Scenario.counters_ok (loop_body st row).
Proof.
  intros (H1 & H2 & H3 & H4 & H5 & H6 & H7 & H8 & H9).
  unfold Scenario.counters_ok, loop_body. cbv zeta.
  cbn [total_votes_extracted total_records participated_sum active_delegates_count
       unique_voters_set unique_delegates_set proposals_with_votes_set
       unique_proposals_set delegate_agg proposal_agg].
  rewrite (upsert_total _ DelegateAgg.actual_votes
             (if is_actual_vote (Matrix.vote row) then 1 else 0))
    by (intros; reflexivity).
  rewrite (upsert_total _ ProposalAgg.actual_votes
             (if is_actual_vote (Matrix.vote row) then 1 else 0))
    by (intros; reflexivity).
  pose proof (size_add (Matrix.delegate_address row) (unique_voters_set st)) as Hv.
  pose proof (size_add (Matrix.proposal_id row) (proposals_with_votes_set st)) as Hp.
  destruct (is_actual_vote (Matrix.vote row)), (Matrix.participated row),
    (Matrix.is_active_delegate row);
    repeat split; try lia; set_solver.
Qed.

Lemma counters_hold (rows : list Matrix.record) : Scenario.counters_ok (rollup rows).
Proof.
  unfold rollup.
  apply (fold_left_keeps loop_body Scenario.counters_ok (fun _ => True) rows);
    [intros a b _; apply counters_step|apply Forall_True|].
  unfold Scenario.counters_ok, initial_state. cbn. repeat split; (lia || set_solver).
Qed.

(** X22.  The counters of the performance report of the streamed fallback,
    whatever the rows: votes extracted, participations and active delegates
    are each at most the number of records; the voters are among the
    delegates and the proposals with votes among the proposals, and there
    are no more of either than votes extracted; and the votes extracted are
    the sum of the actual votes of the delegate rollup and also of the
    proposal rollup. *)
Theorem report_counters_are_consistent (all_voting_data : list Matrix.record) :
  let st := rollup all_voting_data in
  total_votes_extracted st <= total_records st
  /\ participated_sum st <= total_records st
  /\ active_delegates_count st <= total_records st
  /\ unique_voters_set st ⊆ unique_delegates_set st
  /\ proposals_with_votes_set st ⊆ unique_proposals_set st
  /\ size (unique_voters_set st) <= total_votes_extracted st
  /\ size (proposals_with_votes_set st) <= total_votes_extracted st
  /\ Scenario.total DelegateAgg.actual_votes (delegate_agg st)
     = total_votes_extracted st
  /\ Scenario.total ProposalAgg.actual_votes (proposal_agg st)
     = total_votes_extracted st.
Proof. exact (counters_hold all_voting_data). Qed.

(** *** The rollups of the rows that the builder makes *)

Lemma builder_row_is_actual dao ds p votes vote_map rows :
  Matrix.fill_vote_map votes ∅ = Py.Ok vote_map ->
  Matrix.process_all_delegates_for_proposal dao ds p votes vote_map = Py.Ok rows ->
  Forall (fun r => is_actual_vote (Matrix.vote r) = Matrix.participated r) rows.
Proof.
  intros Hfill Hrows.
  eapply List.Forall_impl; [|eapply process_all_marks_voters; eauto].
  intros r (_ & Hyes & Hno). cbv beta in *.
  destruct (Matrix.participated r).
  - destruct (label_is_a_vote _ (Hyes eq_refl)) as [Ht Hd].
    unfold is_actual_vote. rewrite Ht. cbn [andb].
    apply String.eqb_neq in Hd. rewrite Hd. reflexivity.
  - rewrite (Hno eq_refl). reflexivity.
Qed.

Lemma marked_rows_rollup (rows : list Matrix.record) :
  Forall (fun r => is_actual_vote (Matrix.vote r) = Matrix.participated r) rows ->
  total_votes_extracted (rollup rows) = participated_sum (rollup rows)
  /\ Forall (fun e => DelegateAgg.votes_cast (snd e) = DelegateAgg.actual_votes (snd e))
            (delegate_agg (rollup rows)).
Proof.
  intros Hrows. unfold rollup.
  apply (fold_left_keeps loop_body
           (fun st =>
              total_votes_extracted st = participated_sum st
              /\ Forall (fun e => DelegateAgg.votes_cast (snd e)
                                  = DelegateAgg.actual_votes (snd e))
                        (delegate_agg st))
           (fun r => is_actual_vote (Matrix.vote r) = Matrix.participated r) rows);
    [|exact Hrows|split; [reflexivity|constructor]].
  intros st row Hrow [Ht Hd].
  cbn [loop_body total_votes_extracted participated_sum delegate_agg].
  split; [rewrite Hrow, Ht; reflexivity|].
  apply (upsert_Forall _ (fun aggd => DelegateAgg.votes_cast aggd
                                      = DelegateAgg.actual_votes aggd));
    [| |exact Hd].
  - cbn. rewrite Hrow. reflexivity.
  - intros v Hv. cbn. rewrite Hrow, Hv. reflexivity.
Qed.

(** X23.  On the rows of a matrix that the builder returned, the fallback
    counts the same votes in its two ways: the votes extracted, counted
    from the vote label, are the participations, counted from the flag,
    in the report and for every delegate of the delegate rollup; and the
    records of the report are proposals times delegates with an
    address. *)
Theorem fallback_counts_agree_on_builder_rows
    (dao : string) (world : Fetcher.env (Fetcher.page Data.vote)) (fuel : nat)
    (ds : list Data.delegate) (ps : list Data.proposal) (f : Fetcher.fetcher)
    (m : Matrix.matrix) (f' : Fetcher.fetcher) :
  Matrix.create_voting_matrix_fast dao world fuel ds ps f = Some (Py.Ok (m, f')) ->
  let st := rollup (Matrix.all_voting_data m) in
  total_votes_extracted st = participated_sum st
  /\ Forall (fun e => DelegateAgg.votes_cast (snd e)
                      = DelegateAgg.actual_votes (snd e))
            (delegate_agg st)
  /\ total_records st
     = List.length ps * List.length (List.filter Scenario.has_address ds).
Proof.
  unfold Matrix.create_voting_matrix_fast. intros H. cbv zeta.
  assert (Forall (fun r => is_actual_vote (Matrix.vote r) = Matrix.participated r)
                 (Matrix.all_voting_data m)) as Hrows.
  { eapply proposals_loop_rows; [ | |exact H].
    - intros p votes vote_map rows. apply builder_row_is_actual.
    - constructor. }
  destruct (marked_rows_rollup _ Hrows) as [Ht Hd].
  split; [exact Ht|]. split; [exact Hd|].
  destruct (loop_totals (Matrix.all_voting_data m) initial_state) as (Hn & _).
  cbv zeta in Hn. unfold rollup. rewrite Hn.
  apply proposals_loop_length in H. rewrite H. reflexivity.
Qed.

Lemma fallback_counts_agree_on_builder_rows_witness :
  exists m f',
    Scenario.small_run 3 = Some (Py.Ok (m, f'))
    /\ let st := rollup (Matrix.all_voting_data m) in
       total_votes_extracted st = participated_sum st
       /\ Forall (fun e => DelegateAgg.votes_cast (snd e)
                           = DelegateAgg.actual_votes (snd e))
                 (delegate_agg st)
       /\ total_records st = 2 * 2.
Proof.
  eexists _, _. split; [vm_compute; reflexivity|].
  eapply (fallback_counts_agree_on_builder_rows "Compound DAO"
           Scenario.three_votes 3
           [Scenario.a_delegate (Some "0xA1"); Scenario.a_delegate None;
            Scenario.a_delegate (Some "0xB2");
            Scenario.with_null_statement (Scenario.a_delegate (Some ""))]
           [Scenario.a_proposal "7"; Scenario.a_proposal "8"]
           (Fetcher.init Checkpoint.fresh_store false)).
  vm_compute. reflexivity.
Defined.

#[local] Set Warnings "clear-no-such-hyp".
End ReportFacts.

(** ** A single page and an expected total it cannot meet *)

Section StalledPage.
Import Data Checkpoint Fetcher Votes.
Variable world : env (page vote).
Variable proposal_id : string.
Variable expected_total : Z.
Variable votes_data : page vote.
Hypothesis served : Scenario.always_serves world votes_data.
Hypothesis some_votes : nodes votes_data <> [].
Hypothesis no_cursor : Py.truthy_opt (lastCursor votes_data) = false.

Lemma copies_snoc {A} (n : nat) (l : list A) :
  Scenario.copies n l ++ l = Scenario.copies (S n) l.
Proof.
  unfold Scenario.copies. induction n as [|n IH]; cbn [List.repeat List.concat].
  - rewrite app_nil_r. reflexivity.
  - rewrite <- app_assoc, IH. reflexivity.
Qed.

Lemma copies_length {A} (n : nat) (l : list A) :
  List.length (Scenario.copies n l) = n * List.length l.
Proof.
  unfold Scenario.copies. induction n as [|n IH]; cbn [List.repeat List.concat];
    [reflexivity|].
  rewrite length_app, IH. lia.
Qed.

Lemma stalled_turn (st : state) :
  exists st1,
    all_votes st1 = all_votes st ++ Scenario.valid_votes votes_data
    /\ page_count st1 = S (page_count st)
    /\ consecutive_failures st1 <= 1
    /\ loop_body world proposal_id (Some expected_total) st
       = if (expected_total
             <=? Z.of_nat (List.length
                             (all_votes st ++ Scenario.valid_votes votes_data)))%Z
         then Break ReachedEnd st1 else Continue st1.
Proof.
  unfold loop_body. cbv zeta. rewrite served.
  destruct (nodes votes_data) as [|v batch] eqn:En; [congruence|].
  rewrite no_cursor. cbn [negb orb]. unfold Scenario.valid_votes. rewrite ?En.
  destruct (_ <=? _)%Z;
    (eexists; split; [|split; [|split; [|reflexivity]]];
     [reflexivity|reflexivity|cbn; lia]).
Qed.

Lemma stalled_while (fuel : nat) :
  forall st j e st',
    while world proposal_id (Some expected_total) fuel st = Some (e, st') ->
    all_votes st = Scenario.copies j (Scenario.valid_votes votes_data) ->
    page_count st = j ->
    j <= max_vote_pages ->
    consecutive_failures st <= 1 ->
    (j = 0
     \/ (Z.of_nat (j * List.length (Scenario.valid_votes votes_data))
         < expected_total)%Z) ->
    exists n,
      all_votes st' = Scenario.copies n (Scenario.valid_votes votes_data)
      /\ 1 <= n <= max_vote_pages
      /\ ((expected_total
           <= Z.of_nat (n * List.length (Scenario.valid_votes votes_data)))%Z
          \/ n = max_vote_pages)
      /\ (n = 1
          \/ (Z.of_nat ((n - 1) * List.length (Scenario.valid_votes votes_data))
              < expected_total)%Z).
Proof.
  induction fuel as [|fuel IH]; intros st j e st' Hw Hall Hpage Hj Hfail Hbefore;
    cbn [while] in Hw.
  - destruct (_ && _) eqn:Hc; [discriminate|]. injection Hw as <- <-.
    apply andb_false_iff in Hc as [Hc|Hc];
      [apply Nat.ltb_ge in Hc|apply Nat.ltb_ge in Hc; unfold max_failures in Hc; lia].
    assert (j = max_vote_pages) as -> by lia.
    exists max_vote_pages. split; [exact Hall|].
    unfold max_vote_pages in *. split; [lia|]. split; [right; reflexivity|].
    right. destruct Hbefore as [Hb|Hb]; [lia|]. nia.
  - destruct (_ && _) eqn:Hc.
    + apply andb_true_iff in Hc as [Hc _]. apply Nat.ltb_lt in Hc.
      destruct (stalled_turn st) as (st1 & Hall1 & Hpage1 & Hfail1 & Hturn).
      rewrite Hturn in Hw. rewrite Hall, copies_snoc in Hall1.
      rewrite Hall, copies_snoc, copies_length in Hw.
      destruct (_ <=? _)%Z eqn:He.
      * injection Hw as <- <-. apply Z.leb_le in He.
        exists (S j). split; [exact Hall1|]. split; [lia|].
        split; [left; exact He|].
        destruct Hbefore as [->|Hb]; [left; reflexivity|right].
        replace (S j - 1) with j by lia. exact Hb.
      * apply Z.leb_gt in He.
        apply (IH st1 (S j) e st' Hw Hall1); [lia|lia|exact Hfail1|right; exact He].
    + injection Hw as <- <-.
      apply andb_false_iff in Hc as [Hc|Hc];
        [apply Nat.ltb_ge in Hc|apply Nat.ltb_ge in Hc; unfold max_failures in Hc; lia].
      assert (j = max_vote_pages) as -> by lia.
      exists max_vote_pages. split; [exact Hall|].
      unfold max_vote_pages in *. split; [lia|]. split; [right; reflexivity|].
      right. destruct Hbefore as [Hb|Hb]; [lia|]. nia.
Qed.

Lemma finish_votes (st : state) : fst (finish proposal_id st) = all_votes st.
Proof. unfold finish. destruct (all_votes st); reflexivity. Qed.

(** X24.  When the service has a single page of votes for a proposal, with
    no cursor, and the proposal's statistics announce more voters than the
    page has valid votes, the fetch asks for the page again and appends it
    again, until the list is as long as the announced total or 100000 pages
    were read: what it returns is the valid votes of the page written out
    n times in a row, n being the least number of copies, one at least,
    that reaches the total, or 100000. *)
Theorem stalled_page_is_fetched_until_the_total_is_met (f : fetcher) :
  (if force_refresh_votes f then None
   else votes_cache (checkpoint_data (store f)) !! proposal_id) = None ->
  exists n f',
    get_votes_for_proposal_high_volume world proposal_id (Some expected_total)
      Scenario.vote_fuel f
    = Some (Scenario.copies n
              (List.filter Normalizer.validate_vote_data (nodes votes_data)), f')
    /\ 1 <= n <= max_vote_pages
    /\ ((expected_total
         <= Z.of_nat (n * List.length
                            (List.filter Normalizer.validate_vote_data
                               (nodes votes_data))))%Z
        \/ n = max_vote_pages)
    /\ (n = 1
        \/ (Z.of_nat ((n - 1) * List.length
                                  (List.filter Normalizer.validate_vote_data
                                     (nodes votes_data)))
            < expected_total)%Z).
Proof.
  intros Hmiss. unfold get_votes_for_proposal_high_volume. rewrite Hmiss.
  match goal with |- context [while _ _ _ _ ?st] =>
    destruct (vote_while_total world proposal_id (Some expected_total)
                Scenario.vote_fuel st (vote_fuel_enough st)) as [[e st'] Hw];
    rewrite Hw;
    destruct (stalled_while _ st 0 e st' Hw eq_refl eq_refl (Nat.le_0_l _)
                (Nat.le_0_l _) (or_introl eq_refl)) as (n & Hall & Hn)
  end.
  exists n, (snd (finish proposal_id st')). split; [|exact Hn].
  fold (Scenario.valid_votes votes_data). rewrite <- Hall, <- finish_votes.
  destruct (finish proposal_id st'); reflexivity.
Qed.

End StalledPage.

Section StalledPageWitness.
Import Data Checkpoint Fetcher Votes.

Lemma stalled_page_is_fetched_until_the_total_is_met_witness :
  exists n f',
    get_votes_for_proposal_high_volume Scenario.one_vote_page "7" (Some 3%Z)
      Scenario.vote_fuel (init fresh_store false)
    = Some (Scenario.copies n [Scenario.a_vote "for" "12" "" "0xfeed"], f')
    /\ 1 <= n <= max_vote_pages
    /\ ((3 <= Z.of_nat (n * 1))%Z \/ n = max_vote_pages)
    /\ (n = 1 \/ (Z.of_nat ((n - 1) * 1) < 3)%Z).
Proof.
  apply (stalled_page_is_fetched_until_the_total_is_met
           Scenario.one_vote_page "7" 3%Z
           {| nodes := [Scenario.a_vote "for" "12" "" "0xfeed";
                        {| vote_id := Some "2"; vote_type := Some (Some "against");
                           amount := None; reason := None; txHash := None;
                           voter := None; block := None; createdAt := None;
                           platform := None |}];
              lastCursor := None |}).
  - intros n c. reflexivity.
  - discriminate.
  - reflexivity.
  - reflexivity.
Defined.

End StalledPageWitness.
